(** * Student information system: a shallow embedding of [app.py]

    The application is a single Flask module: routes over two SQLite
    tables ([users], [students]), a cookie session, a hand-made CSRF
    token and a syntactic validator for student forms.  This file embeds
    the request handlers as functions over an explicit world (session
    and database) and proves the properties of the validation, the
    guards and the CRUD handlers.

    Conventions.
    - A Python [str] is a list of Unicode code points ([pystr]); the
      literals of the program are written [py "..."].
    - A [dict] with caller-chosen keys ([request.form], [request.args],
      [session]) is a [gmap] over string keys.
    - What the program takes from its environment is a parameter: the
      password-hash check of werkzeug, the clock reading, and the order
      in which the storage engine visits the unique indexes.
    - Templates are opaque: a rendered page is the template name and
      the values handed to it.
    - An exception that no handler of the application catches ends the
      request with a 500 response.

    Not embedded: the opening and closing of the connection
    ([sqlite3.connect] in [get_db], [close_db]), the pages of the error
    handlers ([err403], [err404]) and the start-up code under
    [__main__]. *)

From Stdlib Require Import NArith List Bool Lia String Ascii Decimal Permutation.
From stdpp Require Import base option list gmap strings sorting.

Set Default Proof Using "Type".
Local Open Scope string_scope.
Local Open Scope list_scope.
Local Open Scope N_scope.

(** ** Python strings *)

Module PyStr.

(** A [str] value: the sequence of its code points. *)
Abbreviation pystr := (list N).

(** The literal [s] of the program as a [str]. *)
Definition py (s : string) : pystr :=
  map N_of_ascii (list_ascii_of_string s).

(** [str.isspace] on one character, which is also what [\s] matches in
    a [str] pattern: U+0009..U+000D, U+001C..U+0020, U+0085, U+00A0,
    U+1680, U+2000..U+200A, U+2028, U+2029, U+202F, U+205F, U+3000. *)
Definition isspace (c : N) : bool :=
  ((9 <=? c) && (c <=? 13)) || ((28 <=? c) && (c <=? 32))
  || (c =? 133) || (c =? 160) || (c =? 5760)
  || ((8192 <=? c) && (c <=? 8202))
  || (c =? 8232) || (c =? 8233) || (c =? 8239) || (c =? 8287)
  || (c =? 12288).

(** [s.lstrip()], [s.rstrip()], [s.strip()] with no argument. *)
Fixpoint lstrip (s : pystr) : pystr :=
  match s with
  | c :: s' => if isspace c then lstrip s' else s
  | [] => []
  end.

Definition rstrip (s : pystr) : pystr := rev (lstrip (rev s)).

Definition strip (s : pystr) : pystr := rstrip (lstrip s).

(** Truth value of a [str]: the empty string is false. *)
Definition truthy (s : pystr) : bool :=
  match s with [] => false | _ => true end.

(** [d.get(key, "")] on a form or query dictionary. *)
Definition get (d : gmap string pystr) (key : string) : pystr :=
  default [] (d !! key).

(** ASCII lower case of one character (what SQLite's [LIKE] folds). *)
Definition ascii_lower (c : N) : N :=
  if (65 <=? c) && (c <=? 90) then c + 32 else c.

(** [str(n)] for a non-negative integer. *)
Fixpoint digits (u : Decimal.uint) : pystr :=
  match u with
  | Nil => []
  | D0 u' => 48 :: digits u'
  | D1 u' => 49 :: digits u'
  | D2 u' => 50 :: digits u'
  | D3 u' => 51 :: digits u'
  | D4 u' => 52 :: digits u'
  | D5 u' => 53 :: digits u'
  | D6 u' => 54 :: digits u'
  | D7 u' => 55 :: digits u'
  | D8 u' => 56 :: digits u'
  | D9 u' => 57 :: digits u'
  end.

Definition str_of_N (n : N) : pystr := digits (N.to_uint n).

(** Code-point order on strings, the order of SQLite's BINARY
    collation on TEXT values. *)
Fixpoint str_leb (a b : pystr) : bool :=
  match a, b with
  | [], _ => true
  | _ :: _, [] => false
  | x :: a', y :: b' => (x <? y) || ((x =? y) && str_leb a' b')
  end.

(** The number of bytes of [s.encode("utf-8")], the size of the TEXT
    value the engine receives for [s]. *)
Definition utf8_width (c : N) : N :=
  if c <? 128 then 1
  else if c <? 2048 then 2
  else if c <? 65536 then 3
  else 4.

Definition utf8_length (s : pystr) : N :=
  fold_right (fun c n => utf8_width c + n) 0 s.

(** ASCII text of the framework itself (engine messages): [s.lower()]
    and [needle in s]. *)
Definition lower_ascii (a : ascii) : ascii :=
  let n := N_of_ascii a in
  if (65 <=? n) && (n <=? 90) then ascii_of_N (n + 32) else a.

Fixpoint lower (s : string) : string :=
  match s with
  | EmptyString => EmptyString
  | String a s' => String (lower_ascii a) (lower s')
  end.

Definition contains (needle s : string) : bool :=
  match String.index 0 needle s with Some _ => true | None => false end.

End PyStr.
Import PyStr.

(** ** Regular expressions of the [re] module *)

Module Re.

(** One item of a bracket expression: a literal, a range [lo-hi], or
    the class [\s]. *)
Inductive catom : Type :=
| Lit (c : N)
| Range (lo hi : N)
| Space.

Definition atom_mem (a : catom) (c : N) : bool :=
  match a with
  | Lit x => c =? x
  | Range lo hi => (lo <=? c) && (c <=? hi)
  | Space => isspace c
  end.

(** A bracket expression [[...]] or [[^...]]; a literal character of
    the pattern is the class of that character alone. *)
Record cclass : Type := { negated : bool; atoms : list catom }.

Definition class_mem (cl : cclass) (c : N) : bool :=
  xorb (negated cl) (existsb (fun a => atom_mem a c) (atoms cl)).

Inductive regex : Type :=
| Void
| Eps
| Cls (cl : cclass)
| Cat (r1 r2 : regex)
| Alt (r1 r2 : regex)
| Star (r : regex).

(** [r+] *)
Definition plus (r : regex) : regex := Cat r (Star r).

(** [r{0,n}] *)
Fixpoint upto (n : nat) (r : regex) : regex :=
  match n with
  | O => Eps
  | S n' => Alt Eps (Cat r (upto n' r))
  end.

(** [n] copies of [r] followed by [tail] *)
Fixpoint times (n : nat) (r tail : regex) : regex :=
  match n with
  | O => tail
  | S n' => Cat r (times n' r tail)
  end.

(** [r{lo,hi}] *)
Definition repeat_range (lo hi : nat) (r : regex) : regex :=
  times lo r (upto (hi - lo) r).

(** Matching by derivatives. *)
Fixpoint nullable (r : regex) : bool :=
  match r with
  | Void => false
  | Eps => true
  | Cls _ => false
  | Cat r1 r2 => nullable r1 && nullable r2
  | Alt r1 r2 => nullable r1 || nullable r2
  | Star _ => true
  end.

Fixpoint deriv (c : N) (r : regex) : regex :=
  match r with
  | Void => Void
  | Eps => Void
  | Cls cl => if class_mem cl c then Eps else Void
  | Cat r1 r2 =>
      if nullable r1
      then Alt (Cat (deriv c r1) r2) (deriv c r2)
      else Cat (deriv c r1) r2
  | Alt r1 r2 => Alt (deriv c r1) (deriv c r2)
  | Star r' => Cat (deriv c r') (Star r')
  end.

(** [re.fullmatch(r, s)] is not [None]. *)
Fixpoint fullmatch (r : regex) (s : pystr) : bool :=
  match s with
  | [] => nullable r
  | c :: s' => fullmatch (deriv c r) s'
  end.

(** [re.compile("^r$").match(s)] is not [None].  Without MULTILINE,
    [$] holds at the end of the string and also just before a newline
    that ends the string. *)
Definition match_dollar (r : regex) (s : pystr) : bool :=
  fullmatch r s
  || match rev s with
     | c :: t => (c =? 10) && fullmatch r (rev t)
     | [] => false
     end.

(** The language of a pattern, for the proofs. *)
Inductive lang : regex -> pystr -> Prop :=
| lang_eps : lang Eps []
| lang_cls cl c : class_mem cl c = true -> lang (Cls cl) [c]
| lang_cat r1 r2 s1 s2 :
    lang r1 s1 -> lang r2 s2 -> lang (Cat r1 r2) (s1 ++ s2)
| lang_alt_l r1 r2 s : lang r1 s -> lang (Alt r1 r2) s
| lang_alt_r r1 r2 s : lang r2 s -> lang (Alt r1 r2) s
| lang_star_nil r : lang (Star r) []
| lang_star_app r s1 s2 :
    lang r s1 -> lang (Star r) s2 -> lang (Star r) (s1 ++ s2).

End Re.
Import Re.

(** ** The two patterns of the validator *)

(** [[^@\s]] *)
Definition not_at_space : cclass :=
  {| negated := true; atoms := [Lit 64; Space] |}.

Definition lit (c : N) : regex := Cls {| negated := false; atoms := [Lit c] |}.

(** [EMAIL_RE = re.compile(r"^[^@\s]+@[^@\s]+\.[^@\s]+$")], the part
    between the anchors. *)
Definition EMAIL_RE : regex :=
  Cat (plus (Cls not_at_space))
    (Cat (lit 64)
       (Cat (plus (Cls not_at_space))
          (Cat (lit 46) (plus (Cls not_at_space))))).

(** [[0-9+\-\s]] *)
Definition phone_class : cclass :=
  {| negated := false; atoms := [Range 48 57; Lit 43; Lit 45; Space] |}.

(** [r"[0-9+\-\s]{7,20}"] *)
Definition PHONE_RE : regex := repeat_range 7 20 (Cls phone_class).

(** ** The storage engine

    The two tables of [init_db].  Both have an [INTEGER PRIMARY KEY
    AUTOINCREMENT], so a table is a finite map from the key to the other
    columns of the row.  The engine enforces the schema of [students]:
    [student_id TEXT UNIQUE NOT NULL] and [email TEXT UNIQUE] (NULLs
    never clash), and reports a violated constraint as an
    [IntegrityError] whose text names the column. *)

Module Sqlite.

Record user : Type := {
  u_username : pystr;
  u_password_hash : pystr;
  u_created_at : pystr
}.

(** The columns of a row of [students] besides [id]; the nullable ones
    hold [None] for NULL. *)
Record student : Type := {
  st_student_id : pystr;
  st_name : pystr;
  st_department : pystr;
  st_email : option pystr;
  st_phone : option pystr;
  st_created_at : pystr
}.

(** The database file: the tables and, for each of them, the largest
    key handed out so far ([sqlite_sequence]). *)
Record database : Type := {
  users : gmap N user;
  users_seq : N;
  students : gmap N student;
  students_seq : N
}.

Definition empty_db : database :=
  {| users := ∅; users_seq := 0; students := ∅; students_seq := 0 |}.

Definition with_students (rows : gmap N student) (seq : N) (d : database)
  : database :=
  {| users := users d; users_seq := users_seq d;
     students := rows; students_seq := seq |}.

(** The largest key of a table, 0 when it has no row. *)
Definition largest_key {A} (t : gmap N A) : N :=
  map_fold (fun i _ acc => N.max i acc) 0 t.

(** AUTOINCREMENT: one more than the largest key the table has or ever
    had. *)
Definition next_key {A} (seq : N) (t : gmap N A) : N :=
  N.max seq (largest_key t) + 1.

Inductive db_error : Type :=
| IntegrityError (msg : string).

Definition unique_failed (column : string) : db_error :=
  IntegrityError ("UNIQUE constraint failed: " +:+ column).

(** Some row of the table has this [student_id]. *)
Definition student_id_taken (sid : pystr) (rows : gmap N student) : bool :=
  bool_decide (map_Exists (fun _ r => st_student_id r = sid) rows).

(** Some row of the table has this [email]; a NULL clashes with
    nothing. *)
Definition email_taken (e : option pystr) (rows : gmap N student) : bool :=
  match e with
  | Some x => bool_decide (map_Exists (fun _ r => st_email r = Some x) rows)
  | None => false
  end.

(** The UNIQUE checks of a row about to be written, against the other
    rows.  When both columns clash the engine names one of them, the one
    whose index it visits first: [email_index_first] says which. *)
Definition unique_check (email_index_first : bool)
    (sid : pystr) (e : option pystr) (others : gmap N student)
  : option db_error :=
  if email_index_first
  then if email_taken e others then Some (unique_failed "students.email")
       else if student_id_taken sid others
       then Some (unique_failed "students.student_id")
       else None
  else if student_id_taken sid others
       then Some (unique_failed "students.student_id")
       else if email_taken e others then Some (unique_failed "students.email")
       else None.

(** [INSERT INTO students (student_id, name, department, email, phone,
    created_at) VALUES (?, ?, ?, ?, ?, ?)] *)
Definition insert_student (email_index_first : bool)
    (sid name dept : pystr) (e ph : option pystr) (created : pystr)
    (d : database) : db_error + database :=
  match unique_check email_index_first sid e (students d) with
  | Some err => inl err
  | None =>
      let i := next_key (students_seq d) (students d) in
      inr (with_students
             (<[i := {| st_student_id := sid; st_name := name;
                        st_department := dept; st_email := e;
                        st_phone := ph; st_created_at := created |}]>
                (students d))
             i d)
  end.

Definition set_fields (sid name dept : pystr) (e ph : option pystr)
    (r : student) : student :=
  {| st_student_id := sid; st_name := name; st_department := dept;
     st_email := e; st_phone := ph; st_created_at := st_created_at r |}.

(** [UPDATE students SET student_id=?, name=?, department=?, email=?,
    phone=? WHERE id=?]: no row with that key, nothing to do; otherwise
    the new values are checked against the other rows. *)
Definition update_student (email_index_first : bool) (i : N)
    (sid name dept : pystr) (e ph : option pystr) (d : database)
  : db_error + database :=
  match students d !! i with
  | None => inr d
  | Some r =>
      match unique_check email_index_first sid e (delete i (students d)) with
      | Some err => inl err
      | None =>
          inr (with_students
                 (<[i := set_fields sid name dept e ph r]> (students d))
                 (students_seq d) d)
      end
  end.

(** A Python [int] bound to a [?] has to fit SQLite's INTEGER, a signed
    64-bit number: [sqlite3] raises [OverflowError] for a larger one
    before the statement runs. *)
Definition max_integer : N := 9223372036854775807.

Definition bindable (n : N) : bool := n <=? max_integer.

(** [DELETE FROM students WHERE id = ?] *)
Definition delete_from_students (i : N) (d : database) : database :=
  with_students (delete i (students d)) (students_seq d) d.

(** [SELECT * FROM students WHERE id = ?], [fetchone()] *)
Definition student_by_id (i : N) (d : database) : option student :=
  students d !! i.

(** [fetchone()] of a [SELECT] with the condition [p]: a row that meets
    it, if there is one. *)
Definition fetchone {A} (p : N * A -> bool) (t : gmap N A) : option (N * A) :=
  List.find p (map_to_list t).

(** [SELECT id FROM students WHERE student_id = ? AND id != ?],
    [fetchone()] *)
Definition other_with_student_id (sid : pystr) (i : N) (d : database)
  : option N :=
  fst <$> fetchone
    (fun '(j, r) => bool_decide (st_student_id r = sid) && negb (j =? i))
    (students d).

(** [SELECT id FROM students WHERE email = ? AND id != ?], [fetchone()] *)
Definition other_with_email (e : pystr) (i : N) (d : database)
  : option N :=
  fst <$> fetchone
    (fun '(j, r) => bool_decide (st_email r = Some e) && negb (j =? i))
    (students d).

(** [SELECT * FROM users WHERE username = ?], [fetchone()] *)
Definition user_by_username (name : pystr) (d : database)
  : option (N * user) :=
  fetchone (fun '(_, u) => bool_decide (u_username u = name)) (users d).

(** The comparison behind [LIKE], without ESCAPE: [%] (37) stands for
    any run of characters, [_] (95) for any one character, and any other
    character for itself up to the case of the ASCII letters. *)
Fixpoint like_match (pattern : pystr) : pystr -> bool :=
  match pattern with
  | [] => fun s => match s with [] => true | _ :: _ => false end
  | p :: pattern' =>
      let rest := like_match pattern' in
      if p =? 37 then
        fix any (s : pystr) : bool :=
          rest s || match s with [] => false | _ :: s' => any s' end
      else
        fun s =>
          match s with
          | [] => false
          | c :: s' =>
              ((p =? 95) || (ascii_lower p =? ascii_lower c)) && rest s'
          end
  end.

(** The engine reads the pattern and the text of a [LIKE] as C strings:
    each of them ends before its first NUL character (U+0000). *)
Fixpoint c_string (s : pystr) : pystr :=
  match s with
  | [] => []
  | c :: s' => if c =? 0 then [] else c :: c_string s'
  end.

(** [x LIKE pattern] on TEXT, for a pattern the engine accepts. *)
Definition like (pattern s : pystr) : bool :=
  like_match (c_string pattern) (c_string s).

(** The engine refuses a [LIKE] whose pattern is longer than
    [SQLITE_MAX_LIKE_PATTERN_LENGTH] bytes, whatever the pattern holds:
    [sqlite3.OperationalError]. *)
Definition max_like_pattern_length : N := 50000.

Definition like_too_complex (pattern : pystr) : bool :=
  max_like_pattern_length <? utf8_length pattern.

Inductive query_error : Type :=
| OperationalError (msg : string).

(** [x LIKE pattern] on a nullable column: NULL is not true. *)
Definition like_null (pattern : pystr) (x : option pystr) : bool :=
  match x with Some s => like pattern s | None => false end.

(** [name LIKE ? OR student_id LIKE ? OR department LIKE ? OR email
    LIKE ?], the four parameters being the same pattern. *)
Definition like_any (pattern : pystr) (r : student) : bool :=
  like pattern (st_name r) || like pattern (st_student_id r)
  || like pattern (st_department r) || like_null pattern (st_email r).

(** [ORDER BY created_at DESC]: a row may stand before another when its
    [created_at] is not smaller.  Which of two rows with the same
    [created_at] comes first is the engine's business; here the merge
    sort decides. *)
Definition newer_eq (x y : N * student) : Prop :=
  str_leb (st_created_at (snd y)) (st_created_at (snd x)) = true.

#[global] Instance newer_eq_dec x y : Decision (newer_eq x y).
Proof. unfold newer_eq. apply _. Defined.

Definition order_by_created_at_desc (rows : list (N * student))
  : list (N * student) :=
  merge_sort newer_eq rows.

(** [SELECT * FROM students WHERE name LIKE ? OR student_id LIKE ? OR
    department LIKE ? OR email LIKE ? ORDER BY created_at DESC], the
    four parameters being [pattern].  The condition is evaluated on
    every row, [name LIKE ?] first: a pattern over the limit fails the
    statement as soon as the table has a row. *)
Definition search_students (pattern : pystr) (d : database)
  : query_error + list (N * student) :=
  match map_to_list (students d) with
  | [] => inr []
  | (_ :: _) as rows =>
      if like_too_complex pattern
      then inl (OperationalError "LIKE or GLOB pattern too complex")
      else
        inr (order_by_created_at_desc
               (List.filter (fun x => like_any pattern (snd x)) rows))
  end.

(** [SELECT * FROM students ORDER BY created_at DESC] *)
Definition all_students (d : database) : list (N * student) :=
  order_by_created_at_desc (map_to_list (students d)).

(** [init_db]: the tables are created when missing, and the [admin]
    user is seeded when no user has that name.  [hash] is what
    [generate_password_hash("admin123")] returned and [now] the clock. *)
Definition init_db (hash now : pystr) (d : database) : database :=
  match user_by_username (py "admin") d with
  | Some _ => d
  | None =>
      let i := next_key (users_seq d) (users d) in
      {| users := <[i := {| u_username := py "admin";
                            u_password_hash := hash;
                            u_created_at := now |}]> (users d);
         users_seq := i;
         students := students d; students_seq := students_seq d |}
  end.

End Sqlite.
Import Sqlite.

(** ** Requests, sessions and responses *)

Module Flask.

Inductive http_method : Type := GET | POST.

(** The routes of the application, with the value of the [<int:id>]
    converter where the rule has one. *)
Inductive endpoint : Type :=
| EpInitdb
| EpHome
| EpLogin
| EpLogout
| EpRegister
| EpListStudents
| EpCreateStudent
| EpViewStudent (id : N)
| EpEditStudent (id : N)
| EpDeleteStudent (id : N).

(** The URL that [url_for] builds for each [@app.route]. *)
Definition route_path (ep : endpoint) : pystr :=
  match ep with
  | EpInitdb => py "/initdb"
  | EpHome => py "/"
  | EpLogin => py "/login"
  | EpLogout => py "/logout"
  | EpRegister => py "/register"
  | EpListStudents => py "/students"
  | EpCreateStudent => py "/students/new"
  | EpViewStudent id => py "/students/" ++ str_of_N id
  | EpEditStudent id => py "/students/" ++ str_of_N id ++ py "/edit"
  | EpDeleteStudent id => py "/students/" ++ str_of_N id ++ py "/delete"
  end.

(** What a view reads of the request: [request.method], the path of
    the URL as the client wrote it ([PATH_INFO]), [request.args],
    [request.form]; and the reading of the server clock
    ([datetime.utcnow().isoformat()]) while it is served. *)
Record request : Type := {
  method : http_method;
  path_info : pystr;
  args : gmap string pystr;
  form : gmap string pystr;
  utcnow : pystr
}.

(** [path.lstrip("/")] *)
Fixpoint lstrip_slash (s : pystr) : pystr :=
  match s with
  | c :: s' => if c =? 47 then lstrip_slash s' else s
  | [] => []
  end.

(** [request.path]: the path as it was requested, which werkzeug keeps
    as ["/" + path.lstrip("/")].  The characters of the request stay:
    [/students/007] reaches the view of the student 7 and is still
    [/students/007] here. *)
Definition request_path (req : request) : pystr :=
  py "/" ++ lstrip_slash (path_info req).

(** The values the application keeps in [session]. *)
Inductive sval : Type :=
| VInt (n : N)
| VStr (s : pystr)
| VFlashes (l : list (string * string)).

#[global] Instance sval_eq_dec : EqDecision sval.
Proof. solve_decision. Defined.

(** What a request runs against. *)
Record world : Type := {
  session : gmap string sval;
  db : database
}.

Definition set_session (s : gmap string sval) (w : world) : world :=
  {| session := s; db := db w |}.

Definition set_db (d : database) (w : world) : world :=
  {| session := session w; db := d |}.

(** Where a redirect points: a URL built by [url_for] from an endpoint
    and query values, or a string taken as it is. *)
Inductive location : Type :=
| UrlFor (ep : endpoint) (query : list (string * pystr))
| Target (s : pystr).

(** The normalised fields [validate_student] returns. *)
Record student_data : Type := {
  name : pystr;
  student_id : pystr;
  department : pystr;
  email : pystr;
  phone : pystr
}.

(** A value handed to a template. *)
Inductive tval : Type :=
| TRows (rows : list (N * student))
| TRow (row : N * student)
| TStr (s : pystr)
| TData (data : student_data)
| TEmpty.

Inductive response : Type :=
| Redirect (loc : location)
| Render (template : string) (context : list (string * tval))
| Error (status : N).

(** A view either returns or leaves through [abort(status)]. *)
Inductive result (A : Type) : Type :=
| Ok (a : A)
| Abort (status : N).
Arguments Ok {A} a.
Arguments Abort {A} status.

Definition view (A : Type) : Type := world -> result A * world.

Definition ret {A} (a : A) : view A := fun w => (Ok a, w).

Definition bind {A B} (m : view A) (k : A -> view B) : view B :=
  fun w =>
    match m w with
    | (Ok a, w') => k a w'
    | (Abort status, w') => (Abort status, w')
    end.

Definition abort {A} (status : N) : view A := fun w => (Abort status, w).

(** An exception that the view raises and nothing catches: the client
    gets a 500 response. *)
Definition uncaught {A} : view A := abort 500.

Definition get_session : view (gmap string sval) :=
  fun w => (Ok (session w), w).

Definition put_session (s : gmap string sval) : view unit :=
  fun w => (Ok tt, set_session s w).

Definition get_db : view database := fun w => (Ok (db w), w).

(** A write followed by [db.commit()]. *)
Definition commit (d : database) : view unit :=
  fun w => (Ok tt, set_db d w).

(** The response the client gets: an [abort] becomes the error response
    of that status. *)
Definition serve (v : view response) (w : world) : response * world :=
  match v w with
  | (Ok r, w') => (r, w')
  | (Abort status, w') => (Error status, w')
  end.

Definition flashes_of (s : gmap string sval) : list (string * string) :=
  match s !! "_flashes" with
  | Some (VFlashes l) => l
  | _ => []
  end.

(** [flash(message, category)]: the pair is appended to
    [session["_flashes"]]. *)
Definition flash (message category : string) : view unit :=
  fun w =>
    (Ok tt,
     set_session
       (<["_flashes" := VFlashes (flashes_of (session w)
                                    ++ [(category, message)])]> (session w))
       w).

(** [for e in errors: flash(e, "danger")] *)
Fixpoint flash_all (errors : list string) : view unit :=
  match errors with
  | [] => ret tt
  | e :: errors' => bind (flash e "danger") (fun _ => flash_all errors')
  end.

(** The world after [flash(message, category)], and after the loop. *)
Definition flashed (message category : string) (w : world) : world :=
  snd (flash message category w).

Definition flashed_all (errors : list string) (w : world) : world :=
  snd (flash_all errors w).

End Flask.
Import Flask.

Notation "'let*' x ':=' m 'in' k" := (bind m (fun x => k))
  (at level 10, x name, m at level 200, k at level 200).
Notation "m ';;;' k" := (bind m (fun _ => k))
  (at level 100, k at level 200, right associativity).

(** ** The application *)

Section App.

(** [check_password_hash(pwhash, password)] of werkzeug. *)
Variable check_password_hash : pystr -> pystr -> bool.

(** The order in which the engine visits the two unique indexes of
    [students] when it checks a write. *)
Variable email_index_first : bool.

(** The guard of the protected views. *)
Definition login_required (f : request -> view response)
  : request -> view response :=
  fun req =>
    let* s := get_session in
    match s !! "user_id" with
    | None => ret (Redirect (UrlFor EpLogin [("next", request_path req)]))
    | Some _ => f req
    end.

(** [get_csrf_token]; [fresh] is what [secrets.token_hex(16)] returns
    when it is asked. *)
Definition get_csrf_token (fresh : pystr) : view pystr :=
  let* s := get_session in
  match s !! "_csrf_token" with
  | Some (VStr token) =>
      if truthy token then ret token
      else put_session (<["_csrf_token" := VStr fresh]> s) ;;; ret fresh
  | _ => put_session (<["_csrf_token" := VStr fresh]> s) ;;; ret fresh
  end.

(** [token_from_form and token_from_form == session.get("_csrf_token")]
    as a truth value, for the session [s]. *)
Definition csrf_matches (s : gmap string sval)
    (token_from_form : option pystr) : bool :=
  match token_from_form with
  | None => false
  | Some token =>
      truthy token && bool_decide (s !! "_csrf_token" = Some (VStr token))
  end.

Definition validate_csrf (token_from_form : option pystr) : view bool :=
  let* s := get_session in
  ret (csrf_matches s token_from_form).

Definition home (req : request) : view response :=
  let* s := get_session in
  match s !! "user_id" with
  | Some _ => ret (Redirect (UrlFor EpListStudents []))
  | None => ret (Redirect (UrlFor EpLogin []))
  end.

Definition login (req : request) : view response :=
  match method req with
  | POST =>
      let username := strip (get (form req) "username") in
      let password := get (form req) "password" in
      let* d := get_db in
      match user_by_username username d with
      | Some (id, row) =>
          if check_password_hash (u_password_hash row) password then
            put_session ∅ ;;;
            let* s := get_session in
            put_session (<["user_id" := VInt id]> s) ;;;
            let* s := get_session in
            put_session (<["username" := VStr (u_username row)]> s) ;;;
            flash "Welcome back!" "success" ;;;
            ret (Redirect
                   match args req !! "next" with
                   | Some next =>
                       if truthy next then Target next
                       else UrlFor EpListStudents []
                   | None => UrlFor EpListStudents []
                   end)
          else
            flash "Invalid username or password." "danger" ;;;
            ret (Render "auth/login.html" [])
      | None =>
          flash "Invalid username or password." "danger" ;;;
          ret (Render "auth/login.html" [])
      end
  | GET => ret (Render "auth/login.html" [])
  end.

Definition logout (req : request) : view response :=
  put_session ∅ ;;;
  flash "You have been logged out." "info" ;;;
  ret (Redirect (UrlFor EpLogin [])).

(** [validate_student(form)]: the error messages in order, and the
    trimmed fields. *)
Definition validate_student (f : gmap string pystr)
  : list string * student_data :=
  let name := strip (get f "name") in
  let student_id := strip (get f "student_id") in
  let department := strip (get f "department") in
  let email := strip (get f "email") in
  let phone := strip (get f "phone") in
  let errors := [] in
  let errors :=
    if negb (truthy name) then errors ++ ["Name is required."]
    else errors in
  let errors :=
    if negb (truthy student_id) then errors ++ ["Student ID is required."]
    else errors in
  let errors :=
    if negb (truthy department) then errors ++ ["Department is required."]
    else errors in
  let errors :=
    if truthy email && negb (match_dollar EMAIL_RE email)
    then errors ++ ["Invalid email format."] else errors in
  let errors :=
    if truthy phone && negb (fullmatch PHONE_RE phone)
    then errors ++ ["Phone should contain digits, spaces, '+' or '-' only."]
    else errors in
  (errors,
   {| name := name; student_id := student_id; department := department;
      email := email; phone := phone |}).

(** [value or None] for a bound parameter. *)
Definition or_None (s : pystr) : option pystr :=
  if truthy s then Some s else None.

Definition list_students_view (req : request) : view response :=
  let q := strip (get (args req) "q") in
  let* d := get_db in
  let* rows :=
    if truthy q then
      match search_students (py "%" ++ q ++ py "%") d with
      | inr rows => ret rows
      | inl _ => uncaught
      end
    else ret (all_students d) in
  ret (Render "students/index.html" [("students", TRows rows); ("q", TStr q)]).

Definition list_students := login_required list_students_view.

Definition create_student_view (req : request) : view response :=
  match method req with
  | POST =>
      let* valid := validate_csrf (form req !! "csrf_token") in
      (if valid then ret tt else abort 400) ;;;
      let '(errors, data) := validate_student (form req) in
      match errors with
      | _ :: _ =>
          flash_all errors ;;;
          ret (Render "students/new.html" [("data", TData data)])
      | [] =>
          let* d := get_db in
          match insert_student email_index_first
                  (student_id data) (name data) (department data)
                  (or_None (email data)) (or_None (phone data))
                  (utcnow req) d with
          | inr d' =>
              commit d' ;;;
              flash "Student added." "success" ;;;
              ret (Redirect (UrlFor EpListStudents []))
          | inl (IntegrityError e) =>
              (if contains "students.student_id" (lower e)
               then flash "Student ID already exists." "danger"
               else if contains "students.email" (lower e)
               then flash "Email already exists." "danger"
               else flash "Database error while creating student." "danger") ;;;
              ret (Render "students/new.html" [("data", TEmpty)])
          end
      end
  | GET => ret (Render "students/new.html" [("data", TEmpty)])
  end.

Definition create_student := login_required create_student_view.

Definition view_student_view (id : N) (req : request) : view response :=
  let* d := get_db in
  if bindable id then
    match student_by_id id d with
    | None => abort 404
    | Some row => ret (Render "students/view.html" [("s", TRow (id, row))])
    end
  else uncaught.

Definition view_student (id : N) := login_required (view_student_view id).

(** The [SELECT] of the first lines raises for an id that is not
    [bindable], as it does in [view_student]; no row has such an id, so
    this is one of the cases without row. *)
Definition edit_student_view (id : N) (req : request) : view response :=
  let* d := get_db in
  match student_by_id id d with
  | None => if bindable id then abort 404 else uncaught
  | Some row =>
      match method req with
      | POST =>
          let* valid := validate_csrf (form req !! "csrf_token") in
          (if valid then ret tt else abort 400) ;;;
          let '(errors, data) := validate_student (form req) in
          match errors with
          | _ :: _ =>
              flash_all errors ;;;
              ret (Render "students/edit.html"
                     [("s", TRow (id, row)); ("data", TData data)])
          | [] =>
              match other_with_student_id (student_id data) id d with
              | Some _ =>
                  flash "Student ID already exists." "danger" ;;;
                  ret (Render "students/edit.html"
                         [("s", TRow (id, row)); ("data", TData data)])
              | None =>
                  match (if truthy (email data)
                         then other_with_email (email data) id d
                         else None) with
                  | Some _ =>
                      flash "Email already exists." "danger" ;;;
                      ret (Render "students/edit.html"
                             [("s", TRow (id, row)); ("data", TData data)])
                  | None =>
                      match update_student email_index_first id
                              (student_id data) (name data) (department data)
                              (or_None (email data)) (or_None (phone data))
                              d with
                      | inr d' =>
                          commit d' ;;;
                          flash "Student updated." "success" ;;;
                          ret (Redirect (UrlFor (EpViewStudent id) []))
                      | inl _ =>
                          flash "Database error while updating student."
                            "danger" ;;;
                          ret (Render "students/edit.html"
                                 [("s", TRow (id, row)); ("data", TRow (id, row))])
                      end
                  end
              end
          end
      | GET =>
          ret (Render "students/edit.html"
                 [("s", TRow (id, row)); ("data", TRow (id, row))])
      end
  end.

Definition edit_student (id : N) := login_required (edit_student_view id).

Definition delete_student_view (id : N) (req : request) : view response :=
  let* valid := validate_csrf (form req !! "csrf_token") in
  (if valid then ret tt else abort 400) ;;;
  let* d := get_db in
  (if bindable id then commit (delete_from_students id d) else uncaught) ;;;
  flash "Student deleted." "info" ;;;
  ret (Redirect (UrlFor EpListStudents [])).

Definition delete_student (id : N) := login_required (delete_student_view id).

End App.

(** ** The properties the specification names *)

Module Stated.

(** A part of an address: not empty, no [@], no whitespace. *)
Definition email_part (p : pystr) : Prop :=
  p ≠ [] ∧ Forall (fun c => c ≠ 64 ∧ isspace c = false) p.

(** The shape [local@domain.tld]. *)
Definition email_shape (s : pystr) : Prop :=
  ∃ local domain tld,
    s = local ++ py "@" ++ domain ++ py "." ++ tld
    ∧ email_part local ∧ email_part domain ∧ email_part tld.

Definition is_digit (c : N) : Prop := 48 ≤ c ∧ c ≤ 57.

(** 7 to 20 characters, each of them allowed. *)
Definition phone_of (allowed : N -> Prop) (s : pystr) : Prop :=
  (7 ≤ length s ≤ 20)%nat ∧ Forall allowed s.

(** "digits, spaces, [+], [-]", the space being U+0020. *)
Definition phone_char_stated (c : N) : Prop :=
  is_digit c ∨ c = 32 ∨ c = 43 ∨ c = 45.

(** The same with every whitespace character in the place of the space. *)
Definition phone_char (c : N) : Prop :=
  is_digit c ∨ isspace c = true ∨ c = 43 ∨ c = 45.

(** The rules of the validator over the trimmed fields of a form, for a
    given reading of the phone rule. *)
Definition fields_valid (allowed : N -> Prop) (f : gmap string pystr) : Prop :=
  strip (get f "name") ≠ []
  ∧ strip (get f "student_id") ≠ []
  ∧ strip (get f "department") ≠ []
  ∧ (strip (get f "email") = [] ∨ email_shape (strip (get f "email")))
  ∧ (strip (get f "phone") = []
     ∨ phone_of allowed (strip (get f "phone"))).

(** A nullable column holding the text [s]: NULL for the empty text. *)
Definition null_if_empty (s : pystr) : option pystr :=
  match s with [] => None | _ :: _ => Some s end.

(** The form token is absent, empty, or not the one of the session. *)
Definition csrf_rejected (s : gmap string sval) (token : option pystr) : Prop :=
  token = None ∨ token = Some []
  ∨ ∃ t, token = Some t ∧ s !! "_csrf_token" ≠ Some (VStr t).

(** The form token is the non-empty token of the session. *)
Definition csrf_valid (s : gmap string sval) (token : option pystr) : Prop :=
  ∃ t, token = Some t ∧ t ≠ [] ∧ s !! "_csrf_token" = Some (VStr t).

(** The session carries a login. *)
Definition logged_in (s : gmap string sval) : Prop :=
  is_Some (s !! "user_id").

(** No two rows agree on the key [k], where they have one. *)
Definition distinct_by {K} (k : student -> option K)
    (rows : gmap N student) : Prop :=
  ∀ i j r1 r2 v,
    rows !! i = Some r1 -> rows !! j = Some r2 ->
    k r1 = Some v -> k r2 = Some v -> i = j.

(** The [email] of a row when it has one that is not empty. *)
Definition nonempty_email (r : student) : option pystr :=
  match st_email r with
  | Some e => if truthy e then Some e else None
  | None => None
  end.

Definition required_present (r : student) : Prop :=
  st_name r ≠ [] ∧ st_student_id r ≠ [] ∧ st_department r ≠ [].

(** The invariant of [students]. *)
Definition students_invariant (rows : gmap N student) : Prop :=
  distinct_by (fun r => Some (st_student_id r)) rows
  ∧ distinct_by nonempty_email rows
  ∧ map_Forall (fun _ r => required_present r) rows.

(** [q] occurs in [s], up to the case of the ASCII letters. *)
Definition occurs_in (q s : pystr) : Prop :=
  ∃ before mid after,
    s = before ++ mid ++ after ∧ map ascii_lower mid = map ascii_lower q.

(** [q] occurs in one of the four searched columns of the row. *)
Definition row_matches (q : pystr) (r : student) : Prop :=
  occurs_in q (st_name r) ∨ occurs_in q (st_student_id r)
  ∨ occurs_in q (st_department r)
  ∨ ∃ e, st_email r = Some e ∧ occurs_in q e.

(** No [%] and no [_] in the query. *)
Definition no_wildcard (q : pystr) : Prop :=
  Forall (fun c => c ≠ 37 ∧ c ≠ 95) q.

(** No NUL character in the text. *)
Definition no_nul (s : pystr) : Prop := Forall (fun c => c ≠ 0) s.

(** [q] occurs in one of the four searched columns of the row, each of
    them read up to its first NUL character. *)
Definition row_found (q : pystr) (r : student) : Prop :=
  occurs_in q (c_string (st_name r))
  ∨ occurs_in q (c_string (st_student_id r))
  ∨ occurs_in q (c_string (st_department r))
  ∨ ∃ e, st_email r = Some e ∧ occurs_in q (c_string e).

End Stated.
Import Stated.

Section Reachability.

Variable email_index_first : bool.

(** One request to the create, edit or delete route, from any session. *)
Inductive crud_step : database -> database -> Prop :=
| step_create req s d :
    crud_step d
      (db (snd (serve (create_student email_index_first req)
                  {| session := s; db := d |})))
| step_edit id req s d :
    crud_step d
      (db (snd (serve (edit_student email_index_first id req)
                  {| session := s; db := d |})))
| step_delete id req s d :
    crud_step d
      (db (snd (serve (delete_student id req) {| session := s; db := d |}))).

(** The databases reached from a fresh file after [init_db]. *)
Inductive reachable : database -> Prop :=
| reach_init hash now : reachable (init_db hash now empty_db)
| reach_step d d' : reachable d -> crud_step d d' -> reachable d'.

End Reachability.

(** ** Sample requests *)

Module Sample.

(** A logged-in session with the CSRF token [tok]. *)
Definition admin_session : gmap string sval :=
  {[ "user_id" := VInt 1; "username" := VStr (py "admin");
     "_csrf_token" := VStr (py "tok") ]}.

Definition post (ep : endpoint) (f : gmap string pystr) : request :=
  {| method := POST; path_info := route_path ep; args := ∅; form := f;
     utcnow := py "2024-05-01T10:00:00" |}.

(** The submission of the specification's example. *)
Definition jane_form : gmap string pystr :=
  {[ "csrf_token" := py "tok"; "student_id" := py " S100 ";
     "name" := py "Jane Doe"; "department" := py "CS";
     "email" := py "jane@example.com"; "phone" := py "+1 555-0100" ]}.

(** A submission without an email, whose phone holds a tab (U+0009). *)
Definition tab_form : gmap string pystr :=
  {[ "csrf_token" := py "tok"; "student_id" := py "S200";
     "name" := py "Tom Tab"; "department" := py "EE";
     "phone" := py "12" ++ [9] ++ py "34567" ]}.

(** A stand-in for the hash check of werkzeug: the hash of a password
    is the password after the prefix [hash:]. *)
Definition plain_check (pwhash password : pystr) : bool :=
  bool_decide (pwhash = py "hash:" ++ password).

(** The database right after [init_db]. *)
Definition seeded_db : database :=
  init_db (py "hash:admin123") (py "2024-05-01T09:00:00") empty_db.

(** The login form with the seeded credentials, posted to the URL the
    login guard redirects an anonymous request for [/students] to. *)
Definition admin_login : request :=
  {| method := POST; path_info := py "/login";
     args := {[ "next" := py "/students" ]};
     form := {[ "username" := py " admin "; "password" := py "admin123" ]};
     utcnow := py "2024-05-01T10:00:00" |}.

(** The same form posted to the URL the guard builds for the request
    [get_007] below. *)
Definition admin_login_007 : request :=
  {| method := POST; path_info := py "/login";
     args := {[ "next" := py "/students/007" ]};
     form := {[ "username" := py " admin "; "password" := py "admin123" ]};
     utcnow := py "2024-05-01T10:00:00" |}.

(** The same form with a wrong password, and with an unknown name. *)
Definition wrong_password_login : request :=
  {| method := POST; path_info := py "/login"; args := ∅;
     form := {[ "username" := py "admin"; "password" := py "letmein" ]};
     utcnow := py "2024-05-01T10:00:00" |}.

Definition unknown_user_login : request :=
  {| method := POST; path_info := py "/login"; args := ∅;
     form := {[ "username" := py "nobody"; "password" := py "admin123" ]};
     utcnow := py "2024-05-01T10:00:00" |}.

(** A delete form with the token of the sample session. *)
Definition delete_jane : request :=
  {| method := POST; path_info := py "/students/1/delete"; args := ∅;
     form := {[ "csrf_token" := py "tok" ]};
     utcnow := py "2024-05-01T11:00:00" |}.

(** The same form for the key 2. *)
Definition delete_june : request :=
  post (EpDeleteStudent 2) {[ "csrf_token" := py "tok" ]}.

(** The same form for the first id that is no SQLite INTEGER, 2^63. *)
Definition delete_beyond : request :=
  post (EpDeleteStudent (max_integer + 1)) {[ "csrf_token" := py "tok" ]}.

(** A request for the student 7 whose URL writes the id as [007]. *)
Definition get_007 : request :=
  {| method := GET; path_info := py "/students/007"; args := ∅; form := ∅;
     utcnow := py "2024-05-01T10:00:00" |}.

Definition get_request (ep : endpoint) (a : gmap string pystr) : request :=
  {| method := GET; path_info := route_path ep; args := a; form := ∅;
     utcnow := py "2024-05-01T10:00:00" |}.

Definition fresh_world : world :=
  {| session := admin_session; db := seeded_db |}.

Definition jane_row : student :=
  {| st_student_id := py "S100"; st_name := py "Jane Doe";
     st_department := py "CS"; st_email := Some (py "jane@example.com");
     st_phone := Some (py "+1 555-0100");
     st_created_at := py "2024-05-01T10:00:00" |}.

(** The world after Jane's row went in: she has the key 1. *)
Definition jane_world : world :=
  snd (serve (create_student true (post EpCreateStudent jane_form))
         fresh_world).

(** A session that carries the token but no login. *)
Definition anonymous_world : world :=
  {| session := {[ "_csrf_token" := VStr (py "tok") ]}; db := seeded_db |}.

(** Jane's student_id once more, under another name and email. *)
Definition june_form : gmap string pystr :=
  {[ "csrf_token" := py "tok"; "student_id" := py "S100";
     "name" := py "June Doe"; "department" := py "Math";
     "email" := py "june@example.com" ]}.

(** Jane's own student_id and email, with a new department. *)
Definition jane_moves_form : gmap string pystr :=
  {[ "csrf_token" := py "tok"; "student_id" := py "S100";
     "name" := py "Jane Doe"; "department" := py "Physics";
     "email" := py "jane@example.com" ]}.

End Sample.
Import Sample.

(** ** Accounts and set-up *)

Module Text.

(** The UTF-8 bytes of one character. *)
Definition utf8_char (c : N) : list ascii :=
  if c <? 128 then [ascii_of_N c]
  else if c <? 2048 then
    [ascii_of_N (192 + c / 64); ascii_of_N (128 + c mod 64)]
  else if c <? 65536 then
    [ascii_of_N (224 + c / 4096); ascii_of_N (128 + (c / 64) mod 64);
     ascii_of_N (128 + c mod 64)]
  else
    [ascii_of_N (240 + c / 262144); ascii_of_N (128 + (c / 4096) mod 64);
     ascii_of_N (128 + (c / 64) mod 64); ascii_of_N (128 + c mod 64)].

(** A [str] put into a notice: the notices are byte strings here, and the
    text goes in as its UTF-8 encoding. *)
Definition text (s : pystr) : string :=
  string_of_list_ascii (flat_map utf8_char s).

End Text.
Import Text.

Section Accounts.

(** [generate_password_hash(password)] of werkzeug. *)
Variable generate_password_hash : pystr -> pystr.

(** Some row of [users] has this [username]. *)
Definition username_taken (username : pystr) (rows : gmap N user) : bool :=
  bool_decide (map_Exists (fun _ u => u_username u = username) rows).

(** [INSERT INTO users (username, password_hash, created_at) VALUES (?,
    ?, ?)], under [username TEXT UNIQUE NOT NULL]. *)
Definition insert_user (username pwhash created : pystr) (d : database)
  : db_error + database :=
  if username_taken username (users d)
  then inl (unique_failed "users.username")
  else
    let i := next_key (users_seq d) (users d) in
    inr {| users := <[i := {| u_username := username;
                              u_password_hash := pwhash;
                              u_created_at := created |}]> (users d);
           users_seq := i;
           students := students d; students_seq := students_seq d |}.

(** [/initdb] *)
Definition initdb_route (req : request) : view response :=
  let* d := get_db in
  commit (init_db (generate_password_hash (py "admin123")) (utcnow req) d) ;;;
  flash "Database initialized. Admin user created (username='admin', password='admin123'). Change the password!"
    "info" ;;;
  ret (Redirect (UrlFor EpLogin [])).

(** The checks of the register form, in the order of the source. *)
Definition register_errors (username password confirm : pystr)
  : list string :=
  let errors := [] in
  let errors :=
    if negb (truthy username) then errors ++ ["Username is required."]
    else errors in
  let errors :=
    if negb (truthy password) || (length password <? 6)%nat
    then errors ++ ["Password must be at least 6 characters."]
    else errors in
  let errors :=
    if negb (bool_decide (password = confirm))
    then errors ++ ["Passwords do not match."] else errors in
  errors.

(** [/register] *)
Definition register (req : request) : view response :=
  let* s := get_session in
  match s !! "user_id" with
  | None => abort 403
  | Some _ =>
      if bool_decide (s !! "username" = Some (VStr (py "admin")))
      then ret tt else abort 403
  end ;;;
  match method req with
  | POST =>
      let username := strip (get (form req) "username") in
      let password := get (form req) "password" in
      let confirm := get (form req) "confirm" in
      match register_errors username password confirm with
      | _ :: _ =>
          flash_all (register_errors username password confirm) ;;;
          ret (Render "auth/register.html" [])
      | [] =>
          let* d := get_db in
          match insert_user username (generate_password_hash password)
                  (utcnow req) d with
          | inr d' =>
              commit d' ;;;
              flash ("User '" +:+ text username +:+ "' created.") "success" ;;;
              ret (Redirect (UrlFor EpListStudents []))
          | inl _ =>
              flash "Username already exists." "danger" ;;;
              ret (Render "auth/register.html" [])
          end
      end
  | GET => ret (Render "auth/register.html" [])
  end.

(** One request to [/initdb] or to [/register], from any session. *)
Inductive account_step : database -> database -> Prop :=
| step_initdb req s d :
    account_step d
      (db (snd (serve (initdb_route req) {| session := s; db := d |})))
| step_register req s d :
    account_step d
      (db (snd (serve (register req) {| session := s; db := d |}))).

(** The databases reached from a new file by these requests. *)
Inductive accounts_reachable : database -> Prop :=
| accounts_new : accounts_reachable empty_db
| accounts_step d d' :
    accounts_reachable d -> account_step d d' -> accounts_reachable d'.

End Accounts.

(** No two users share a username. *)
Definition usernames_distinct (rows : gmap N user) : Prop :=
  ∀ i j u1 u2,
    rows !! i = Some u1 -> rows !! j = Some u2 ->
    u_username u1 = u_username u2 -> i = j.

(** No student has a key above the counter of the table. *)
Definition keys_bounded (d : database) : Prop :=
  ∀ i r, students d !! i = Some r -> i ≤ students_seq d.

(** The five views behind [login_required], by endpoint. *)
Definition student_view (email_index_first : bool) (ep : endpoint)
  : option (request -> view response) :=
  match ep with
  | EpListStudents => Some list_students
  | EpCreateStudent => Some (create_student email_index_first)
  | EpViewStudent id => Some (view_student id)
  | EpEditStudent id => Some (edit_student email_index_first id)
  | EpDeleteStudent id => Some (delete_student id)
  | _ => None
  end.

(** The form that holds the fields of [data], as the templates fill it
    in again after a rejected submission. *)
Definition form_of_data (data : student_data) : gmap string pystr :=
  {[ "name" := name data; "student_id" := student_id data;
     "department" := department data; "email" := email data;
     "phone" := phone data ]}.

(** From [w] to [w'] the login of the session (its [user_id] and its
    [username]) and the users table are what they were. *)
Definition keeps_login_and_users (w w' : world) : Prop :=
  session w' !! "user_id" = session w !! "user_id"
  ∧ session w' !! "username" = session w !! "username"
  ∧ users (db w') = users (db w)
  ∧ users_seq (db w') = users_seq (db w).

(** The session is the one of the user [admin]: what [register] asks
    for. *)
Definition is_admin (s : gmap string sval) : Prop :=
  is_Some (s !! "user_id") ∧ s !! "username" = Some (VStr (py "admin")).

Module MoreSamples.

(** The stand-in hash that [plain_check] accepts. *)
Definition plain_hash (password : pystr) : pystr := py "hash:" ++ password.

(** The register form for the user [bob]. *)
Definition register_bob : request :=
  {| method := POST; path_info := py "/register"; args := ∅;
     form := {[ "username" := py " bob "; "password" := py "s3cret!";
                "confirm" := py "s3cret!" ]};
     utcnow := py "2024-05-01T12:00:00" |}.

Definition bob_login : request :=
  {| method := POST; path_info := py "/login"; args := ∅;
     form := {[ "username" := py "bob"; "password" := py "s3cret!" ]};
     utcnow := py "2024-05-01T12:05:00" |}.

(** A form that breaks three rules of the validator. *)
Definition bad_form : gmap string pystr :=
  {[ "csrf_token" := py "tok"; "student_id" := py "S300";
     "name" := py "   "; "email" := py "nobody"; "phone" := py "12" ]}.

(** Jane's row edited to the student_id of a second student. *)
Definition june_takes_jane : gmap string pystr :=
  {[ "csrf_token" := py "tok"; "student_id" := py "S100";
     "name" := py "June Doe"; "department" := py "Math";
     "email" := py "jane@example.com" ]}.

Definition june2_form : gmap string pystr :=
  {[ "csrf_token" := py "tok"; "student_id" := py "S101";
     "name" := py "June Doe"; "department" := py "Math";
     "email" := py "june@example.com" ]}.

(** Jane and June in the table, under the keys 1 and 2. *)
Definition two_world : world :=
  snd (serve (create_student true (post EpCreateStudent june2_form))
         jane_world).

End MoreSamples.
Import MoreSamples.

(** ** Facts about strings *)

Section StringFacts.

Lemma lstrip_head s c t : lstrip s = c :: t -> isspace c = false.
Proof.
  induction s as [|x s IH]; simpl; [discriminate|].
  destruct (isspace x) eqn:E; [exact IH|].
  intros [= <- _]. exact E.
Qed.

Lemma strip_last s c t : rev (strip s) = c :: t -> isspace c = false.
Proof.
  unfold strip, rstrip. rewrite rev_involutive. apply lstrip_head.
Qed.

Lemma truthy_true s : truthy s = true <-> s ≠ [].
Proof. destruct s; simpl; split; congruence. Qed.

Lemma truthy_false s : truthy s = false <-> s = [].
Proof. destruct s; simpl; split; congruence. Qed.

Lemma route_path_nonempty ep : truthy (route_path ep) = true.
Proof. destruct ep; reflexivity. Qed.

Lemma request_path_nonempty req : truthy (request_path req) = true.
Proof. reflexivity. Qed.

(** The URL that [url_for] builds is its own path. *)
Lemma lstrip_slash_route_path ep :
  py "/" ++ lstrip_slash (route_path ep) = route_path ep.
Proof. destruct ep; reflexivity. Qed.

Lemma str_leb_total a b : str_leb a b = true ∨ str_leb b a = true.
Proof.
  revert b. induction a as [|x a IH]; intros [|y b]; simpl; auto.
  destruct (N.ltb_spec x y); simpl; auto.
  destruct (N.ltb_spec y x); simpl; auto.
  assert (x = y) as -> by lia. rewrite N.eqb_refl. simpl. apply IH.
Qed.

End StringFacts.

#[global] Instance newer_eq_total : Total newer_eq.
Proof.
  intros x y. unfold newer_eq.
  destruct (str_leb_total (st_created_at (snd y)) (st_created_at (snd x)));
    auto.
Qed.

(** ** Facts about matching *)

Section RegexFacts.

Lemma lang_eps_inv s : lang Eps s -> s = [].
Proof. intros H. by inversion H. Qed.

Lemma lang_cls_inv cl s :
  lang (Cls cl) s -> ∃ c, s = [c] ∧ class_mem cl c = true.
Proof. intros H. inversion H; subst. eauto. Qed.

Lemma lang_cat_inv r1 r2 s :
  lang (Cat r1 r2) s -> ∃ s1 s2, s = s1 ++ s2 ∧ lang r1 s1 ∧ lang r2 s2.
Proof. intros H. inversion H; subst. eauto. Qed.

Lemma lang_alt_inv r1 r2 s : lang (Alt r1 r2) s -> lang r1 s ∨ lang r2 s.
Proof. intros H. inversion H; subst; auto. Qed.

Lemma lang_cat_cons r1 r2 c s1 s2 :
  lang r1 (c :: s1) -> lang r2 s2 -> lang (Cat r1 r2) (c :: s1 ++ s2).
Proof. intros H1 H2. apply (lang_cat _ _ (c :: s1) s2 H1 H2). Qed.

Lemma lang_cat_nil_l r1 r2 s : lang r1 [] -> lang r2 s -> lang (Cat r1 r2) s.
Proof. intros H1 H2. apply (lang_cat _ _ [] s H1 H2). Qed.

Lemma nullable_lang r : nullable r = true <-> lang r [].
Proof.
  induction r as [| |cl|r1 IH1 r2 IH2|r1 IH1 r2 IH2|r IH]; simpl.
  - split; [discriminate|]. intros H. inversion H.
  - split; [constructor|done].
  - split; [discriminate|]. intros H.
    apply lang_cls_inv in H as (c & E & _). discriminate.
  - rewrite andb_true_iff, IH1, IH2. split.
    + intros [H1 H2]. by apply lang_cat_nil_l.
    + intros H. apply lang_cat_inv in H as (s1 & s2 & E & H1 & H2).
      symmetry in E. apply app_eq_nil in E as [-> ->]. done.
  - rewrite orb_true_iff, IH1, IH2. split.
    + intros [H|H]; [by apply lang_alt_l|by apply lang_alt_r].
    + apply lang_alt_inv.
  - split; [constructor|done].
Qed.

Lemma lang_star_cons r c s :
  lang (Star r) (c :: s) ->
  ∃ s1 s2, s = s1 ++ s2 ∧ lang r (c :: s1) ∧ lang (Star r) s2.
Proof.
  intros H. remember (Star r) as r' eqn:Er. remember (c :: s) as x eqn:Ex.
  revert Er Ex.
  induction H as [| | | | | |r0 s1 s2 H1 _ H2 IH2]; try discriminate.
  intros [= ->] E. destruct s1 as [|c1 s1]; simpl in E.
  - apply IH2; auto.
  - injection E as -> <-. eauto.
Qed.

Lemma deriv_cat_lang c r1 r2 s :
  (∀ s, lang (deriv c r1) s <-> lang r1 (c :: s)) ->
  lang (Cat (deriv c r1) r2) s ∨ (lang r1 [] ∧ lang r2 (c :: s))
  <-> lang (Cat r1 r2) (c :: s).
Proof.
  intros IH1. split.
  - intros [H|[H1 H2]].
    + apply lang_cat_inv in H as (s1 & s2 & -> & H1 & H2).
      apply lang_cat_cons; [by apply IH1|done].
    + by apply lang_cat_nil_l.
  - intros H. apply lang_cat_inv in H as (s1 & s2 & E & H1 & H2).
    destruct s1 as [|c1 s1]; simpl in E.
    + subst s2. by right.
    + injection E as <- ->. left. constructor; [by apply IH1|done].
Qed.

Lemma deriv_lang c r s : lang (deriv c r) s <-> lang r (c :: s).
Proof.
  revert s. induction r as [| |cl|r1 IH1 r2 IH2|r1 IH1 r2 IH2|r IH];
    intros s; simpl.
  - split; intros H; inversion H.
  - split; intros H; inversion H.
  - destruct (class_mem cl c) eqn:E; split; intros H.
    + apply lang_eps_inv in H as ->. by constructor.
    + apply lang_cls_inv in H as (c' & [= -> ->] & _). constructor.
    + inversion H.
    + apply lang_cls_inv in H as (c' & [= -> ->] & H). congruence.
  - rewrite <- (deriv_cat_lang c r1 r2 s IH1).
    destruct (nullable r1) eqn:En.
    + split.
      * intros H. apply lang_alt_inv in H as [H|H]; [by left|].
        right. split; [by apply nullable_lang|by apply IH2].
      * intros [H|[_ H]]; [by apply lang_alt_l|].
        apply lang_alt_r. by apply IH2.
    + split; [by left|].
      intros [H|[H _]]; [done|].
      apply nullable_lang in H. congruence.
  - split; intros H; apply lang_alt_inv in H as [H|H].
    + apply lang_alt_l. by apply IH1.
    + apply lang_alt_r. by apply IH2.
    + apply lang_alt_l. by apply IH1.
    + apply lang_alt_r. by apply IH2.
  - split.
    + intros H. apply lang_cat_inv in H as (s1 & s2 & -> & H1 & H2).
      change (c :: s1 ++ s2) with ((c :: s1) ++ s2).
      constructor; [by apply IH|done].
    + intros H. apply lang_star_cons in H as (s1 & s2 & -> & H1 & H2).
      constructor; [by apply IH|done].
Qed.

Lemma fullmatch_lang r s : fullmatch r s = true <-> lang r s.
Proof.
  revert r. induction s as [|c s IH]; intros r; simpl.
  - apply nullable_lang.
  - rewrite IH. apply deriv_lang.
Qed.

Lemma not_at_space_mem c :
  class_mem not_at_space c = true <-> c ≠ 64 ∧ isspace c = false.
Proof.
  unfold class_mem. simpl.
  destruct (N.eqb_spec c 64), (isspace c); simpl; intuition congruence.
Qed.

Lemma phone_class_mem c : class_mem phone_class c = true <-> phone_char c.
Proof.
  unfold class_mem, phone_char, is_digit. simpl.
  rewrite !orb_true_iff, andb_true_iff, !N.leb_le, !N.eqb_eq.
  intuition congruence.
Qed.

Lemma lang_star_cls cl s :
  lang (Star (Cls cl)) s <-> Forall (fun c => class_mem cl c = true) s.
Proof.
  split.
  - induction s as [|c s IH]; intros H; [constructor|].
    apply lang_star_cons in H as (s1 & s2 & -> & H1 & H2).
    apply lang_cls_inv in H1 as (c' & [= -> ->] & Hc).
    constructor; [done|]. by apply IH.
  - induction 1 as [|c s Hc _ IH]; [constructor|].
    apply (lang_star_app _ [c] s); [by constructor|done].
Qed.

Lemma lang_plus_cls cl s :
  lang (plus (Cls cl)) s
  <-> s ≠ [] ∧ Forall (fun c => class_mem cl c = true) s.
Proof.
  unfold plus. split.
  - intros H. apply lang_cat_inv in H as (s1 & s2 & -> & H1 & H2).
    apply lang_cls_inv in H1 as (c & -> & Hc).
    split; [done|]. constructor; [done|]. by apply lang_star_cls.
  - intros [Hne H]. destruct H as [|c s Hc H]; [done|].
    apply (lang_cat _ _ [c] s); [by constructor|by apply lang_star_cls].
Qed.

Lemma lang_lit c s : lang (lit c) s <-> s = [c].
Proof.
  unfold lit. split.
  - intros H. apply lang_cls_inv in H as (c' & -> & Hc).
    unfold class_mem in Hc. simpl in Hc. rewrite orb_false_r in Hc.
    apply N.eqb_eq in Hc. by subst.
  - intros ->. constructor. unfold class_mem. simpl.
    by rewrite N.eqb_refl.
Qed.

Lemma email_part_lang p : lang (plus (Cls not_at_space)) p <-> email_part p.
Proof.
  rewrite lang_plus_cls. unfold email_part.
  apply and_iff_compat_l, Forall_iff. intros c. apply not_at_space_mem.
Qed.

Lemma email_re_lang s : lang EMAIL_RE s <-> email_shape s.
Proof.
  unfold EMAIL_RE, email_shape. split.
  - intros H.
    apply lang_cat_inv in H as (l & s1 & -> & Hl & H).
    apply lang_cat_inv in H as (a & s2 & -> & Ha & H).
    apply lang_cat_inv in H as (d & s3 & -> & Hd & H).
    apply lang_cat_inv in H as (o & t & -> & Ho & Ht).
    apply lang_lit in Ha as ->. apply lang_lit in Ho as ->.
    exists l, d, t. by rewrite <- !email_part_lang.
  - intros (l & d & t & -> & Hl & Hd & Ht).
    apply email_part_lang in Hl, Hd, Ht.
    repeat (constructor; try done); by apply lang_lit.
Qed.

Lemma lang_upto_cls n cl s :
  lang (upto n (Cls cl)) s
  <-> (length s ≤ n)%nat ∧ Forall (fun c => class_mem cl c = true) s.
Proof.
  revert s. induction n as [|n IH]; intros s; simpl.
  - split.
    + intros H. apply lang_eps_inv in H as ->. split; [done|constructor].
    + intros [Hl _]. destruct s; [constructor|simpl in Hl; lia].
  - split.
    + intros H. apply lang_alt_inv in H as [H|H].
      * apply lang_eps_inv in H as ->. split; [simpl; lia|constructor].
      * apply lang_cat_inv in H as (s1 & s2 & -> & H1 & H2).
        apply lang_cls_inv in H1 as (c & -> & Hc).
        apply IH in H2 as [Hl Hf]. split; [simpl; lia|by constructor].
    + intros [Hl Hf]. destruct Hf as [|c s Hc Hf].
      * apply lang_alt_l. constructor.
      * apply lang_alt_r. apply (lang_cat _ _ [c] s); [by constructor|].
        apply IH. split; [simpl in Hl; lia|done].
Qed.

Lemma lang_times_cls n cl tail s :
  lang (times n (Cls cl) tail) s
  <-> ∃ s1 s2, s = s1 ++ s2 ∧ length s1 = n
               ∧ Forall (fun c => class_mem cl c = true) s1 ∧ lang tail s2.
Proof.
  revert s. induction n as [|n IH]; intros s; simpl.
  - split.
    + intros H. exists [], s. repeat split; [constructor|done].
    + intros (s1 & s2 & -> & Hl & _ & H). by destruct s1.
  - split.
    + intros H. apply lang_cat_inv in H as (s0 & s' & -> & H0 & H).
      apply lang_cls_inv in H0 as (c & -> & Hc).
      apply IH in H as (s1 & s2 & -> & Hl & Hf & Ht).
      exists (c :: s1), s2. repeat split; [simpl; lia|by constructor|done].
    + intros (s1 & s2 & -> & Hl & Hf & Ht).
      destruct Hf as [|c s1 Hc Hf]; [discriminate|].
      apply (lang_cat _ _ [c] (s1 ++ s2)); [by constructor|].
      apply IH. exists s1, s2. repeat split; [simpl in Hl; lia|done..].
Qed.

Lemma phone_re_lang s : lang PHONE_RE s <-> phone_of phone_char s.
Proof.
  unfold PHONE_RE, repeat_range, phone_of.
  rewrite lang_times_cls. split.
  - intros (s1 & s2 & -> & Hl & Hf & H).
    apply lang_upto_cls in H as [Hl2 Hf2]. simpl in Hl2.
    rewrite length_app. split; [lia|].
    apply Forall_app. split; (eapply Forall_impl; [eassumption|]);
      intros c; apply phone_class_mem.
  - intros [Hl Hf].
    assert (Forall (fun c => class_mem phone_class c = true) s) as Hc.
    { eapply Forall_impl; [exact Hf|]. intros c. apply phone_class_mem. }
    exists (take 7 s), (drop 7 s).
    rewrite take_drop, length_take. repeat split; [lia| |].
    + by apply Forall_take.
    + apply lang_upto_cls. rewrite length_drop. simpl.
      split; [lia|by apply Forall_drop].
Qed.

(** The anchored match of a trimmed string is a match of the whole
    string: a final newline would have been trimmed. *)
Lemma match_dollar_strip r s :
  match_dollar r (strip s) = fullmatch r (strip s).
Proof.
  unfold match_dollar. destruct (rev (strip s)) as [|c t] eqn:E.
  - apply orb_false_r.
  - apply strip_last in E. destruct (N.eqb_spec c 10) as [->|_].
    + discriminate.
    + apply orb_false_r.
Qed.

End RegexFacts.

(** ** The validator *)

Section ValidatorFacts.

Lemma validate_student_data f :
  snd (validate_student f)
  = {| name := strip (get f "name");
       student_id := strip (get f "student_id");
       department := strip (get f "department");
       email := strip (get f "email");
       phone := strip (get f "phone") |}.
Proof. reflexivity. Qed.

Lemma validate_student_errors f :
  fst (validate_student f) = []
  <-> truthy (strip (get f "name")) = true
      ∧ truthy (strip (get f "student_id")) = true
      ∧ truthy (strip (get f "department")) = true
      ∧ truthy (strip (get f "email"))
          && negb (match_dollar EMAIL_RE (strip (get f "email"))) = false
      ∧ truthy (strip (get f "phone"))
          && negb (fullmatch PHONE_RE (strip (get f "phone"))) = false.
Proof.
  unfold validate_student. cbv zeta.
  destruct (truthy (strip (get f "name"))),
    (truthy (strip (get f "student_id"))),
    (truthy (strip (get f "department"))),
    (truthy (strip (get f "email"))
       && negb (match_dollar EMAIL_RE (strip (get f "email")))),
    (truthy (strip (get f "phone"))
       && negb (fullmatch PHONE_RE (strip (get f "phone"))));
    simpl; (split; [try discriminate|intros (?&?&?&?&?); try discriminate]);
    auto.
Qed.

Lemma optional_field_ok s (m : bool) (P : Prop) :
  (m = true <-> P) -> truthy s && negb m = false <-> s = [] ∨ P.
Proof.
  intros Hm. destruct s as [|c s]; simpl.
  - split; auto.
  - destruct m; simpl; split; intros H; try discriminate.
    + right. by apply Hm.
    + done.
    + destruct H as [H|H]; [discriminate|]. apply Hm in H. discriminate.
Qed.

(** What the validator accepts. *)
Lemma validate_student_accepts f :
  fst (validate_student f) = [] <-> fields_valid phone_char f.
Proof.
  rewrite validate_student_errors. unfold fields_valid.
  rewrite !truthy_true.
  rewrite (optional_field_ok _ _ (email_shape (strip (get f "email")))).
  2:{ rewrite match_dollar_strip, fullmatch_lang. apply email_re_lang. }
  rewrite (optional_field_ok _ _
             (phone_of phone_char (strip (get f "phone")))).
  2:{ rewrite fullmatch_lang. apply phone_re_lang. }
  done.
Qed.

End ValidatorFacts.

(** ** The guards *)

Section GuardFacts.

Lemma csrf_matches_true s token :
  csrf_matches s token = true <-> csrf_valid s token.
Proof.
  unfold csrf_matches, csrf_valid. destruct token as [t|].
  - rewrite andb_true_iff, truthy_true, bool_decide_eq_true. split.
    + intros [? ?]. by exists t.
    + intros (t' & [= <-] & ? & ?). done.
  - split; [discriminate|]. intros (t & ? & _). discriminate.
Qed.

Lemma csrf_matches_false s token :
  csrf_matches s token = false <-> csrf_rejected s token.
Proof.
  unfold csrf_matches, csrf_rejected. destruct token as [t|].
  - rewrite andb_false_iff, truthy_false, bool_decide_eq_false. split.
    + intros [->|H]; [by right; left|].
      right; right. by exists t.
    + intros [?|[[= ->]|(t' & [= <-] & H)]]; [discriminate|by left|by right].
  - split; [by left|done].
Qed.

End GuardFacts.

(** ** The views, unfolded *)

Section ViewEquations.

Variable check_password_hash : pystr -> pystr -> bool.
Variable email_index_first : bool.

Lemma db_flashed m c w : db (flashed m c w) = db w.
Proof. reflexivity. Qed.

Lemma session_flashed m c w k :
  k ≠ "_flashes" -> session (flashed m c w) !! k = session w !! k.
Proof. intros H. by apply lookup_insert_ne. Qed.

Lemma flashes_flashed m c w :
  flashes_of (session (flashed m c w)) = flashes_of (session w) ++ [(c, m)].
Proof.
  unfold flashed, flash, flashes_of at 1. simpl. by rewrite lookup_insert_eq.
Qed.

Lemma flashed_all_cons e errors w :
  flashed_all (e :: errors) w = flashed_all errors (flashed e "danger" w).
Proof. reflexivity. Qed.

Lemma flash_all_ok errors w : flash_all errors w = (Ok tt, flashed_all errors w).
Proof.
  revert w. induction errors as [|e errors IH]; intros w; [done|].
  rewrite flashed_all_cons, <- IH. reflexivity.
Qed.

Lemma db_flashed_all errors w : db (flashed_all errors w) = db w.
Proof.
  revert w. induction errors as [|e errors IH]; intros w; [done|].
  by rewrite flashed_all_cons, IH.
Qed.

Lemma login_required_run f req w :
  serve (login_required f req) w
  = match session w !! "user_id" with
    | None => (Redirect (UrlFor EpLogin [("next", request_path req)]), w)
    | Some _ => serve (f req) w
    end.
Proof.
  unfold serve, login_required, bind, get_session. simpl.
  by destruct (session w !! "user_id").
Qed.

Lemma delete_student_view_run id req w :
  serve (delete_student_view id req) w
  = if csrf_matches (session w) (form req !! "csrf_token")
    then if bindable id
         then (Redirect (UrlFor EpListStudents []),
               flashed "Student deleted." "info"
                 (set_db (delete_from_students id (db w)) w))
         else (Error 500, w)
    else (Error 400, w).
Proof.
  unfold serve, delete_student_view, validate_csrf, bind, get_session, ret.
  simpl. destruct (csrf_matches _ _); [|done]. by destruct (bindable id).
Qed.

Lemma create_student_view_run req w :
  serve (create_student_view email_index_first req) w
  = match method req with
    | GET => (Render "students/new.html" [("data", TEmpty)], w)
    | POST =>
        if csrf_matches (session w) (form req !! "csrf_token") then
          let data := snd (validate_student (form req)) in
          match fst (validate_student (form req)) with
          | (_ :: _) as errors =>
              (Render "students/new.html" [("data", TData data)],
               flashed_all errors w)
          | [] =>
              match insert_student email_index_first
                      (student_id data) (name data) (department data)
                      (or_None (email data)) (or_None (phone data))
                      (utcnow req) (db w) with
              | inr d' =>
                  (Redirect (UrlFor EpListStudents []),
                   flashed "Student added." "success" (set_db d' w))
              | inl (IntegrityError e) =>
                  (Render "students/new.html" [("data", TEmpty)],
                   flashed
                     (if contains "students.student_id" (lower e)
                      then "Student ID already exists."
                      else if contains "students.email" (lower e)
                      then "Email already exists."
                      else "Database error while creating student.")
                     "danger" w)
              end
          end
        else (Error 400, w)
    end.
Proof.
  unfold serve, create_student_view, validate_csrf, bind, get_session, ret.
  destruct (method req); [done|].
  destruct (validate_student (form req)) as [errors data]. simpl.
  destruct (csrf_matches _ _); [|done]. simpl.
  destruct errors as [|e errors].
  - unfold get_db. simpl.
    destruct (insert_student _ _ _ _ _ _ _ _) as [[msg]|d']; simpl; [|done].
    destruct (contains "students.student_id" (lower msg)); [done|].
    by destruct (contains "students.email" (lower msg)).
  - rewrite (flash_all_ok (e :: errors)). done.
Qed.

Lemma edit_student_view_run id req w :
  serve (edit_student_view email_index_first id req) w
  = match student_by_id id (db w) with
    | None => (if bindable id then Error 404 else Error 500, w)
    | Some row =>
        match method req with
        | GET =>
            (Render "students/edit.html"
               [("s", TRow (id, row)); ("data", TRow (id, row))], w)
        | POST =>
            if csrf_matches (session w) (form req !! "csrf_token") then
              let data := snd (validate_student (form req)) in
              let again :=
                Render "students/edit.html"
                  [("s", TRow (id, row)); ("data", TData data)] in
              match fst (validate_student (form req)) with
              | (_ :: _) as errors => (again, flashed_all errors w)
              | [] =>
                  match other_with_student_id (student_id data) id (db w),
                        (if truthy (email data)
                         then other_with_email (email data) id (db w)
                         else None) with
                  | Some _, _ =>
                      (again, flashed "Student ID already exists." "danger" w)
                  | None, Some _ =>
                      (again, flashed "Email already exists." "danger" w)
                  | None, None =>
                      match update_student email_index_first id
                              (student_id data) (name data) (department data)
                              (or_None (email data)) (or_None (phone data))
                              (db w) with
                      | inr d' =>
                          (Redirect (UrlFor (EpViewStudent id) []),
                           flashed "Student updated." "success" (set_db d' w))
                      | inl _ =>
                          (Render "students/edit.html"
                             [("s", TRow (id, row)); ("data", TRow (id, row))],
                           flashed "Database error while updating student."
                             "danger" w)
                      end
                  end
              end
            else (Error 400, w)
        end
    end.
Proof.
  unfold serve, edit_student_view, validate_csrf, bind, get_session, get_db,
    ret, uncaught, abort.
  destruct (student_by_id id (db w)) as [row|]; [|by destruct (bindable id)].
  destruct (method req); [done|].
  destruct (validate_student (form req)) as [errors data]. simpl.
  destruct (csrf_matches _ _); [|done]. simpl.
  destruct errors as [|e errors].
  - destruct (other_with_student_id _ _ _); [done|].
    destruct (if truthy (email data) then _ else _); [done|].
    by destruct (update_student _ _ _ _ _ _ _ _).
  - rewrite (flash_all_ok (e :: errors)). done.
Qed.

Lemma login_run req w :
  serve (login check_password_hash req) w
  = match method req with
    | GET => (Render "auth/login.html" [], w)
    | POST =>
        match user_by_username (strip (get (form req) "username")) (db w) with
        | Some (id, row) =>
            if check_password_hash (u_password_hash row)
                 (get (form req) "password")
            then
              (Redirect
                 match args req !! "next" with
                 | Some next =>
                     if truthy next then Target next
                     else UrlFor EpListStudents []
                 | None => UrlFor EpListStudents []
                 end,
               flashed "Welcome back!" "success"
                 (set_session
                    (<["username" := VStr (u_username row)]>
                       (<["user_id" := VInt id]> ∅)) w))
            else
              (Render "auth/login.html" [],
               flashed "Invalid username or password." "danger" w)
        | None =>
            (Render "auth/login.html" [],
             flashed "Invalid username or password." "danger" w)
        end
    end.
Proof.
  unfold serve, login, bind, get_db, get_session, put_session, ret.
  destruct (method req); [done|]. simpl.
  destruct (user_by_username _ _) as [[id row]|]; [|done].
  by destruct (check_password_hash _ _).
Qed.

End ViewEquations.

(** ** The storage engine: keys and constraints *)

Section EngineFacts.

Lemma largest_key_bound {A} (t : gmap N A) i x :
  t !! i = Some x -> i ≤ largest_key t.
Proof.
  unfold largest_key. revert i x.
  apply (map_fold_weak_ind
           (fun r (m : gmap N A) => ∀ i x, m !! i = Some x -> i ≤ r)).
  - intros i x H. by rewrite lookup_empty in H.
  - intros j y m r _ IH i x H.
    apply lookup_insert_Some in H as [[<- _]|[_ H]]; [lia|].
    specialize (IH i x H). lia.
Qed.

(** The key of a new row is not the key of any row. *)
Lemma next_key_fresh {A} seq (t : gmap N A) : t !! next_key seq t = None.
Proof.
  destruct (t !! next_key seq t) as [x|] eqn:E; [|done].
  apply largest_key_bound in E. unfold next_key in E. lia.
Qed.

Lemma student_id_taken_false sid rows :
  student_id_taken sid rows = false
  <-> ∀ i r, rows !! i = Some r -> st_student_id r ≠ sid.
Proof.
  unfold student_id_taken.
  by rewrite bool_decide_eq_false, map_not_Exists.
Qed.

Lemma student_id_taken_true sid rows :
  student_id_taken sid rows = true
  <-> ∃ i r, rows !! i = Some r ∧ st_student_id r = sid.
Proof. unfold student_id_taken. by rewrite bool_decide_eq_true. Qed.

Lemma email_taken_false e rows :
  email_taken e rows = false
  <-> ∀ x, e = Some x -> ∀ i r, rows !! i = Some r -> st_email r ≠ Some x.
Proof.
  unfold email_taken. destruct e as [x|].
  - rewrite bool_decide_eq_false, map_not_Exists. split.
    + intros H x' [= <-]. exact H.
    + intros H. exact (H x eq_refl).
  - split; [discriminate|done].
Qed.

Lemma unique_check_None order sid e rows :
  unique_check order sid e rows = None
  <-> student_id_taken sid rows = false ∧ email_taken e rows = false.
Proof.
  unfold unique_check, unique_failed.
  destruct order, (student_id_taken sid rows), (email_taken e rows);
    split; intros H; try discriminate; try done; destruct H; discriminate.
Qed.

Lemma fetchone_None {A} (p : N * A -> bool) (t : gmap N A) :
  fetchone p t = None <-> ∀ i x, t !! i = Some x -> p (i, x) = false.
Proof.
  unfold fetchone. split.
  - intros H i x Hi. apply (find_none _ _ H (i, x)).
    apply list_elem_of_In. by apply elem_of_map_to_list.
  - intros H. destruct (find p (map_to_list t)) as [[i x]|] eqn:E; [|done].
    apply find_some in E as [Hin Hp].
    apply list_elem_of_In, elem_of_map_to_list in Hin.
    rewrite (H i x Hin) in Hp. discriminate.
Qed.

Lemma distinct_by_insert {K} (k : student -> option K) rows i r :
  distinct_by k rows ->
  (∀ j r' v, j ≠ i -> rows !! j = Some r' -> k r' = Some v -> k r ≠ Some v) ->
  distinct_by k (<[i := r]> rows).
Proof.
  intros Hd Hnew a b r1 r2 v H1 H2 K1 K2.
  apply lookup_insert_Some in H1 as [[<- <-]|[Na H1]];
    apply lookup_insert_Some in H2 as [[<- <-]|[Nb H2]].
  - done.
  - exfalso. by apply (Hnew b r2 v).
  - exfalso. by apply (Hnew a r1 v).
  - by apply (Hd a b r1 r2 v).
Qed.

Lemma distinct_by_delete {K} (k : student -> option K) rows i :
  distinct_by k rows -> distinct_by k (delete i rows).
Proof.
  intros Hd a b r1 r2 v H1 H2.
  apply lookup_delete_Some in H1 as [_ H1].
  apply lookup_delete_Some in H2 as [_ H2].
  by apply (Hd a b r1 r2 v).
Qed.

Lemma nonempty_email_Some r v :
  nonempty_email r = Some v <-> st_email r = Some v ∧ v ≠ [].
Proof.
  unfold nonempty_email. destruct (st_email r) as [e|].
  - destruct e as [|c e]; simpl; split.
    + discriminate.
    + intros [[= <-] H]. done.
    + intros [= <-]. done.
    + intros [[= <-] _]. done.
  - split; [discriminate|]. intros [? _]. discriminate.
Qed.

Lemma or_None_Some s x : or_None s = Some x <-> s = x ∧ x ≠ [].
Proof.
  unfold or_None. destruct s as [|c s]; simpl; split.
  - discriminate.
  - intros [<- H]. done.
  - intros [= <-]. done.
  - intros [<- _]. done.
Qed.

(** A row that passed the unique checks against the others keeps the
    invariant, at a new key or in the place of an old row. *)
Lemma students_invariant_write order rows i r :
  students_invariant rows ->
  unique_check order (st_student_id r) (st_email r) (delete i rows) = None ->
  required_present r ->
  students_invariant (<[i := r]> rows).
Proof.
  intros (Hs & He & Hr) Hu Hp.
  apply unique_check_None in Hu as [Hsid Hem].
  split; [|split].
  - apply distinct_by_insert; [done|].
    intros j r' v Nj Hj [= <-] [= E].
    eapply (proj1 (student_id_taken_false _ _) Hsid j r'); [|done].
    apply lookup_delete_Some. auto.
  - apply distinct_by_insert; [done|].
    intros j r' v Nj Hj K1 K2.
    apply nonempty_email_Some in K1 as [K1 _].
    apply nonempty_email_Some in K2 as [K2 _].
    eapply (proj1 (email_taken_false _ _) Hem v K2 j r'); [|done].
    apply lookup_delete_Some. auto.
  - by apply map_Forall_insert_2.
Qed.

Lemma students_invariant_delete rows i :
  students_invariant rows -> students_invariant (delete i rows).
Proof.
  intros (Hs & He & Hr).
  split; [|split]; [by apply distinct_by_delete..|by apply map_Forall_delete].
Qed.

Lemma students_invariant_empty : students_invariant ∅.
Proof.
  split; [|split].
  - intros i j r1 r2 v H. by rewrite lookup_empty in H.
  - intros i j r1 r2 v H. by rewrite lookup_empty in H.
  - apply map_Forall_empty.
Qed.

End EngineFacts.

(** ** Validation and creation (C1) *)

Section Creation.

Variable email_index_first : bool.

(** What a successful INSERT leaves in the table. *)
Lemma insert_student_ok sid nm dept e ph created d d' :
  insert_student email_index_first sid nm dept e ph created d = inr d' ->
  let i := next_key (students_seq d) (students d) in
  unique_check email_index_first sid e (students d) = None
  ∧ d' = with_students
           (<[i := {| st_student_id := sid; st_name := nm;
                      st_department := dept; st_email := e; st_phone := ph;
                      st_created_at := created |}]> (students d))
           i d.
Proof.
  unfold insert_student.
  destruct (unique_check _ _ _ _); [discriminate|].
  intros [= <-]. done.
Qed.

Lemma or_None_null_if_empty s : or_None s = null_if_empty s.
Proof. by destruct s. Qed.

(** The create view answers with the redirect to the list exactly when
    the row went in. *)
Lemma create_student_accepted req w w' :
  serve (create_student email_index_first req) w
  = (Redirect (UrlFor EpListStudents []), w') ->
  let data := snd (validate_student (form req)) in
  fst (validate_student (form req)) = []
  ∧ ∃ d',
      insert_student email_index_first
        (student_id data) (name data) (department data)
        (or_None (email data)) (or_None (phone data)) (utcnow req) (db w)
      = inr d'
      ∧ w' = flashed "Student added." "success" (set_db d' w).
Proof.
  unfold create_student.
  rewrite login_required_run, create_student_view_run.
  destruct (session w !! "user_id"); [|discriminate].
  destruct (method req); [discriminate|].
  destruct (csrf_matches _ _); [|discriminate].
  cbv zeta.
  destruct (fst (validate_student (form req))); [|discriminate].
  destruct (insert_student _ _ _ _ _ _ _ _) as [[msg]|d']; [discriminate|].
  intros [= <-]. eauto.
Qed.

End Creation.

(** C1, as amended.  [validate_student] returns no error exactly when
    the trimmed name, student_id and department are not empty, the
    trimmed email is empty or has the shape local@domain.tld, and the
    trimmed phone is empty or has 7 to 20 characters, each an ASCII
    digit, a whitespace character, [+] or [-].  When the create view
    accepts a submission, the new row holds the trimmed name,
    student_id and department, and in email and phone the trimmed value,
    or NULL when that value is empty. *)
Theorem validate_student_accepts_and_create_stores
    (email_index_first : bool) (req : request) (w : world) :
  (fst (validate_student (form req)) = []
   <-> fields_valid phone_char (form req))
  ∧ ∀ w',
      serve (create_student email_index_first req) w
      = (Redirect (UrlFor EpListStudents []), w') ->
      ∃ i,
        students (db w) !! i = None
        ∧ students (db w')
          = <[i := {| st_student_id := strip (get (form req) "student_id");
                      st_name := strip (get (form req) "name");
                      st_department := strip (get (form req) "department");
                      st_email :=
                        null_if_empty (strip (get (form req) "email"));
                      st_phone :=
                        null_if_empty (strip (get (form req) "phone"));
                      st_created_at := utcnow req |}]> (students (db w)).
Proof.
  split; [apply validate_student_accepts|].
  intros w' H.
  apply create_student_accepted in H as (_ & d' & Hins & ->).
  apply insert_student_ok in Hins as [_ ->].
  rewrite validate_student_data. simpl.
  exists (next_key (students_seq (db w)) (students (db w))).
  split; [apply next_key_fresh|].
  by rewrite !or_None_null_if_empty.
Qed.

(** The theorem at the specification's example: the submission is
    accepted and the table holds the trimmed fields. *)
Lemma validate_student_accepts_and_create_stores_witness :
  fields_valid phone_char jane_form
  ∧ ∃ i,
      students (db fresh_world) !! i = None
      ∧ students (db (snd (serve (create_student true
                                    (post EpCreateStudent jane_form))
                             fresh_world)))
        = <[i := {| st_student_id := py "S100"; st_name := py "Jane Doe";
                    st_department := py "CS";
                    st_email := Some (py "jane@example.com");
                    st_phone := Some (py "+1 555-0100");
                    st_created_at := py "2024-05-01T10:00:00" |}]>
            (students (db fresh_world)).
Proof.
  destruct (validate_student_accepts_and_create_stores true
              (post EpCreateStudent jane_form) fresh_world) as [Hv Hs].
  split.
  - apply Hv. vm_compute. reflexivity.
  - apply (Hs (snd (serve (create_student true
                             (post EpCreateStudent jane_form)) fresh_world))).
    vm_compute. reflexivity.
Defined.

(** C1 as stated fails.  A phone with a tab between its digits passes
    the validator, and a tab is none of "digits, spaces, [+], [-]"; and
    the row stored for a submission without email holds NULL there, not
    the (empty) trimmed value. *)
Lemma validate_student_as_stated_counterexample :
  ¬ (fst (validate_student tab_form) = []
     <-> fields_valid phone_char_stated tab_form)
  ∧ ¬ (∀ w',
         serve (create_student true (post EpCreateStudent tab_form))
           fresh_world
         = (Redirect (UrlFor EpListStudents []), w') ->
         ∃ i r,
           students (db fresh_world) !! i = None
           ∧ students (db w') = <[i := r]> (students (db fresh_world))
           ∧ st_name r = strip (get tab_form "name")
           ∧ st_student_id r = strip (get tab_form "student_id")
           ∧ st_department r = strip (get tab_form "department")
           ∧ st_email r = Some (strip (get tab_form "email"))
           ∧ st_phone r = Some (strip (get tab_form "phone"))).
Proof.
  split.
  - intros [H _].
    assert (fst (validate_student tab_form) = []) as Hok
      by (vm_compute; reflexivity).
    assert (strip (get tab_form "phone") = py "12" ++ 9 :: py "34567") as E
      by (vm_compute; reflexivity).
    destruct (H Hok) as (_ & _ & _ & _ & [Hp|[_ Hp]]); rewrite E in Hp.
    + discriminate.
    + apply Forall_cons in Hp as [_ Hp]. apply Forall_cons in Hp as [_ Hp].
      apply Forall_cons in Hp as [Htab _].
      unfold phone_char_stated, is_digit in Htab. lia.
  - intros H.
    destruct (H (snd (serve (create_student true
                               (post EpCreateStudent tab_form)) fresh_world)))
      as (i & r & _ & Hrows & _ & _ & _ & He & _).
    { vm_compute. reflexivity. }
    assert (<[i := r]> (students (db fresh_world)) !! i = Some r) as Hi
      by apply lookup_insert_eq.
    rewrite <- Hrows in Hi.
    destruct (decide (i = 1)) as [->|Hne].
    + vm_compute in Hi. injection Hi as <-. vm_compute in He. discriminate.
    + assert (students (db (snd (serve (create_student true
                (post EpCreateStudent tab_form)) fresh_world))) !! i = None)
        as Hnone.
      { change (<[1 := {| st_student_id := py "S200"; st_name := py "Tom Tab";
                  st_department := py "EE"; st_email := None;
                  st_phone := Some (py "12" ++ [9] ++ py "34567");
                  st_created_at := py "2024-05-01T10:00:00" |}]>
                  (∅ : gmap N student) !! i = None).
        rewrite lookup_insert_ne by done. apply lookup_empty. }
      congruence.
Qed.

(** ** The CSRF guard (C2) *)

Section CsrfGuard.

Variable email_index_first : bool.

Lemma csrf_matches_flashed m c w token :
  csrf_matches (session (flashed m c w)) token = csrf_matches (session w) token.
Proof.
  unfold csrf_matches. destruct token as [t|]; [|done].
  by rewrite session_flashed.
Qed.

(** Whatever the create view answers, the table changes only through a
    successful INSERT, which needs the token. *)
Lemma create_student_rejected_db req w :
  csrf_matches (session w) (form req !! "csrf_token") = false ->
  db (snd (serve (create_student email_index_first req) w)) = db w.
Proof.
  intros Hc. unfold create_student.
  rewrite login_required_run, create_student_view_run.
  destruct (session w !! "user_id"); [|done].
  destruct (method req); [done|]. by rewrite Hc.
Qed.

Lemma edit_student_rejected_db id req w :
  csrf_matches (session w) (form req !! "csrf_token") = false ->
  db (snd (serve (edit_student email_index_first id req) w)) = db w.
Proof.
  intros Hc. unfold edit_student.
  rewrite login_required_run, edit_student_view_run.
  destruct (session w !! "user_id"); [|done].
  destruct (student_by_id id (db w)); [|done].
  destruct (method req); [done|]. by rewrite Hc.
Qed.

Lemma delete_student_rejected_db id req w :
  csrf_matches (session w) (form req !! "csrf_token") = false ->
  db (snd (serve (delete_student id req) w)) = db w.
Proof.
  intros Hc. unfold delete_student.
  rewrite login_required_run, delete_student_view_run.
  destruct (session w !! "user_id"); [|done]. by rewrite Hc.
Qed.

End CsrfGuard.

(** C2, as amended.  A POST from a logged-in session to the create or
    delete route, or to the edit route of an existing student, whose
    form token is absent, empty or not the token of the session, is
    answered with 400 and changes nothing.  And such a POST to any of
    the three routes, logged in or not, for an existing id or not,
    leaves the database as it was. *)
Theorem csrf_rejected_400_and_unchanged
    (email_index_first : bool) (req : request) (w : world) :
  method req = POST ->
  csrf_rejected (session w) (form req !! "csrf_token") ->
  (logged_in (session w) ->
   serve (create_student email_index_first req) w = (Error 400, w)
   ∧ (∀ id, serve (delete_student id req) w = (Error 400, w))
   ∧ (∀ id, is_Some (students (db w) !! id) ->
            serve (edit_student email_index_first id req) w = (Error 400, w)))
  ∧ db (snd (serve (create_student email_index_first req) w)) = db w
  ∧ (∀ id, db (snd (serve (edit_student email_index_first id req) w)) = db w)
  ∧ (∀ id, db (snd (serve (delete_student id req) w)) = db w).
Proof.
  intros Hm Hc. apply csrf_matches_false in Hc.
  split; [|split; [|split]].
  - intros [u Hu]. split; [|split].
    + unfold create_student.
      by rewrite login_required_run, create_student_view_run, Hu, Hm, Hc.
    + intros id. unfold delete_student.
      by rewrite login_required_run, delete_student_view_run, Hu, Hc.
    + intros id [row Hrow]. unfold edit_student.
      rewrite login_required_run, edit_student_view_run, Hu.
      unfold student_by_id. by rewrite Hrow, Hm, Hc.
  - by apply create_student_rejected_db.
  - intros id. by apply edit_student_rejected_db.
  - intros id. by apply delete_student_rejected_db.
Qed.

(** The theorem on a POST without any token, against the table that
    holds Jane's row under the key 1. *)
Lemma csrf_rejected_400_and_unchanged_witness :
  serve (create_student true (post EpCreateStudent ∅)) jane_world
  = (Error 400, jane_world)
  ∧ serve (delete_student 1 (post EpCreateStudent ∅)) jane_world
    = (Error 400, jane_world)
  ∧ serve (edit_student true 1 (post EpCreateStudent ∅)) jane_world
    = (Error 400, jane_world).
Proof.
  assert (method (post EpCreateStudent ∅) = POST) as Hm by reflexivity.
  assert (csrf_rejected (session jane_world)
            (form (post EpCreateStudent ∅) !! "csrf_token")) as Hc
    by (left; reflexivity).
  assert (logged_in (session jane_world)) as Hl
    by (exists (VInt 1); vm_compute; reflexivity).
  destruct (csrf_rejected_400_and_unchanged true _ _ Hm Hc)
    as [H _].
  destruct (H Hl) as (Hcreate & Hdelete & Hedit).
  split; [exact Hcreate|]. split; [exact (Hdelete 1)|].
  apply Hedit. exists jane_row. vm_compute. reflexivity.
Defined.

(** C2 as stated fails twice.  The edit view looks the student up
    before it looks at the token, so a logged-in POST without token for
    an id that is not in the table is answered with 404; and a POST
    from a session without login never reaches the token check: the
    login guard answers with the redirect to the login page. *)
Lemma csrf_rejected_as_stated_counterexample :
  ¬ (method (post (EpEditStudent 7) ∅) = POST ->
     csrf_rejected (session fresh_world)
       (form (post (EpEditStudent 7) ∅) !! "csrf_token") ->
     fst (serve (edit_student true 7 (post (EpEditStudent 7) ∅)) fresh_world)
     = Error 400)
  ∧ ¬ (method (post (EpDeleteStudent 7) ∅) = POST ->
       csrf_rejected (session anonymous_world)
         (form (post (EpDeleteStudent 7) ∅) !! "csrf_token") ->
       fst (serve (delete_student 7 (post (EpDeleteStudent 7) ∅))
              anonymous_world)
       = Error 400).
Proof.
  split; intros H.
  - assert (fst (serve (edit_student true 7 (post (EpEditStudent 7) ∅))
                   fresh_world) = Error 404) as E by (vm_compute; reflexivity).
    rewrite E in H. specialize (H eq_refl (or_introl eq_refl)). discriminate.
  - assert (fst (serve (delete_student 7 (post (EpDeleteStudent 7) ∅))
                   anonymous_world)
            = Redirect (UrlFor EpLogin [("next", py "/students/7/delete")]))
      as E by (vm_compute; reflexivity).
    rewrite E in H. specialize (H eq_refl (or_introl eq_refl)). discriminate.
Qed.

(** ** Deletion (C7) *)

Section Deletion.

Lemma bindable_true n : bindable n = true <-> n ≤ max_integer.
Proof. apply N.leb_le. Qed.

Lemma bindable_false n : bindable n = false <-> max_integer < n.
Proof. apply N.leb_gt. Qed.

Lemma delete_student_run id req w :
  logged_in (session w) ->
  csrf_valid (session w) (form req !! "csrf_token") ->
  id ≤ max_integer ->
  serve (delete_student id req) w
  = (Redirect (UrlFor EpListStudents []),
     flashed "Student deleted." "info"
       (set_db (delete_from_students id (db w)) w)).
Proof.
  intros [u Hu] Hc Hid. apply csrf_matches_true in Hc.
  apply bindable_true in Hid. unfold delete_student.
  by rewrite login_required_run, delete_student_view_run, Hu, Hc, Hid.
Qed.

Lemma delete_student_overflow_run id req w :
  logged_in (session w) ->
  csrf_valid (session w) (form req !! "csrf_token") ->
  max_integer < id ->
  serve (delete_student id req) w = (Error 500, w).
Proof.
  intros [u Hu] Hc Hid. apply csrf_matches_true in Hc.
  apply bindable_false in Hid. unfold delete_student.
  by rewrite login_required_run, delete_student_view_run, Hu, Hc, Hid.
Qed.

Lemma delete_from_students_twice id d :
  delete_from_students id (delete_from_students id d)
  = delete_from_students id d.
Proof.
  unfold delete_from_students, with_students. simpl.
  by rewrite delete_delete_eq.
Qed.

Lemma delete_from_students_absent id d :
  students d !! id = None -> delete_from_students id d = d.
Proof.
  intros H. unfold delete_from_students, with_students.
  rewrite delete_id by done. by destruct d.
Qed.

Lemma delete_student_db id req w :
  db (snd (serve (delete_student id req) w)) = db w
  ∨ db (snd (serve (delete_student id req) w)) = delete_from_students id (db w).
Proof.
  unfold delete_student.
  rewrite login_required_run, delete_student_view_run.
  destruct (session w !! "user_id"); [|by left].
  destruct (csrf_matches _ _); [|by left].
  destruct (bindable id); [by right|by left].
Qed.

Lemma delete_student_twice_db id req w :
  db (snd (serve (delete_student id req)
             (snd (serve (delete_student id req) w))))
  = db (snd (serve (delete_student id req) w)).
Proof.
  unfold delete_student.
  rewrite (login_required_run _ req w), (delete_student_view_run id req w).
  destruct (session w !! "user_id") as [u|] eqn:Hu.
  - destruct (csrf_matches (session w) (form req !! "csrf_token")) eqn:Hc.
    + destruct (bindable id) eqn:Hid.
      * simpl snd.
        rewrite login_required_run, delete_student_view_run.
        rewrite session_flashed by done. simpl session at 1. rewrite Hu.
        rewrite csrf_matches_flashed. simpl session at 1. rewrite Hc, Hid.
        simpl snd. rewrite !db_flashed. simpl.
        apply delete_from_students_twice.
      * simpl snd.
        by rewrite login_required_run, delete_student_view_run, Hu, Hc, Hid.
    + simpl snd.
      by rewrite login_required_run, delete_student_view_run, Hu, Hc.
  - simpl snd. by rewrite login_required_run, Hu.
Qed.

End Deletion.

(** C7.  From a logged-in session and with the token of the session, a
    delete request for an id that SQLite can hold (at most 2^63 - 1) is
    answered with the redirect to the list and the notice "Student
    deleted.", whether a student has that id or not, and it removes the
    row of that id and nothing else; the same request once more is
    answered in the same way.  For every delete request, whatever the
    id, the same request once more leaves the database of the first,
    and when no student has the id the database is left as it was. *)
Theorem delete_student_idempotent (id : N) (req : request) (w : world) :
  let once := serve (delete_student id req) w in
  let twice := serve (delete_student id req) (snd once) in
  (logged_in (session w) ->
   csrf_valid (session w) (form req !! "csrf_token") ->
   id ≤ max_integer ->
   fst once = Redirect (UrlFor EpListStudents [])
   ∧ flashes_of (session (snd once))
     = flashes_of (session w) ++ [("info", "Student deleted.")]
   ∧ students (db (snd once)) = delete id (students (db w))
   ∧ users (db (snd once)) = users (db w)
   ∧ fst twice = Redirect (UrlFor EpListStudents []))
  ∧ db (snd twice) = db (snd once)
  ∧ (students (db w) !! id = None -> db (snd once) = db w).
Proof.
  intros once twice. split; [|split].
  - intros Hl Hc Hid.
    assert (once = (Redirect (UrlFor EpListStudents []),
                    flashed "Student deleted." "info"
                      (set_db (delete_from_students id (db w)) w))) as E1
      by (by apply delete_student_run).
    assert (logged_in (session (snd once))) as Hl'.
    { rewrite E1. unfold logged_in. simpl snd. by rewrite session_flashed. }
    assert (csrf_valid (session (snd once)) (form req !! "csrf_token")) as Hc'.
    { rewrite E1. apply csrf_matches_true. simpl snd.
      rewrite csrf_matches_flashed. by apply csrf_matches_true. }
    unfold twice. rewrite (delete_student_run id req (snd once) Hl' Hc' Hid).
    rewrite E1. simpl fst. simpl snd. rewrite db_flashed.
    split; [done|]. split; [by rewrite flashes_flashed|]. done.
  - apply delete_student_twice_db.
  - intros H. destruct (delete_student_db id req w) as [E|E]; [done|].
    fold once in E. rewrite E. by apply delete_from_students_absent.
Qed.

(** The theorem on Jane's row: deleting the key 1 removes it, and
    deleting the key 2, which no student has, changes nothing. *)
Lemma delete_student_idempotent_witness :
  fst (serve (delete_student 1 delete_jane) jane_world)
  = Redirect (UrlFor EpListStudents [])
  ∧ students (db (snd (serve (delete_student 1 delete_jane) jane_world)))
    = delete 1 (students (db jane_world))
  ∧ (students (db jane_world) !! 2 = None ->
     db (snd (serve (delete_student 2 delete_june) jane_world))
     = db jane_world).
Proof.
  destruct (delete_student_idempotent 1 delete_jane jane_world)
    as (H & _ & _).
  destruct (delete_student_idempotent 2 delete_june jane_world)
    as (_ & _ & Habsent).
  destruct H as (H1 & _ & H3 & _).
  - exists (VInt 1). vm_compute. reflexivity.
  - exists (py "tok").
    split; [vm_compute; reflexivity|].
    split; [vm_compute; discriminate|vm_compute; reflexivity].
  - vm_compute. discriminate.
  - split; [exact H1|]. split; [exact H3|exact Habsent].
Defined.

(** C7 as stated fails for an id that the route accepts and the engine
    cannot hold.  The [<int:id>] converter takes any run of digits; for
    2^63 the binding of the parameter raises, nothing catches it, and
    the request, for all its login and its valid token, ends with a 500
    response in the place of the redirect, and with no notice. *)
Lemma delete_student_as_stated_counterexample :
  ¬ (logged_in (session jane_world) ->
     csrf_valid (session jane_world) (form delete_beyond !! "csrf_token") ->
     fst (serve (delete_student (max_integer + 1) delete_beyond) jane_world)
     = Redirect (UrlFor EpListStudents []))
  ∧ serve (delete_student (max_integer + 1) delete_beyond) jane_world
    = (Error 500, jane_world).
Proof.
  assert (serve (delete_student (max_integer + 1) delete_beyond) jane_world
          = (Error 500, jane_world)) as E by (vm_compute; reflexivity).
  split; [|exact E]. intros H. rewrite E in H.
  assert (logged_in (session jane_world)) as Hl
    by (exists (VInt 1); vm_compute; reflexivity).
  assert (csrf_valid (session jane_world)
            (form delete_beyond !! "csrf_token")) as Hc.
  { exists (py "tok"). split; [vm_compute; reflexivity|].
    split; [vm_compute; discriminate|vm_compute; reflexivity]. }
  specialize (H Hl Hc). discriminate.
Qed.

(** ** Writes to the table (C3, C4, C5, C10) *)

Section Writes.

Variable email_index_first : bool.

Lemma update_student_ok i sid nm dept e ph d d' row :
  students d !! i = Some row ->
  update_student email_index_first i sid nm dept e ph d = inr d' ->
  unique_check email_index_first sid e (delete i (students d)) = None
  ∧ d' = with_students (<[i := set_fields sid nm dept e ph row]> (students d))
           (students_seq d) d.
Proof.
  unfold update_student. intros ->.
  destruct (unique_check _ _ _ _); [discriminate|].
  intros [= <-]. done.
Qed.

(** The edit view answers with the redirect to the student's page
    exactly when the UPDATE went through. *)
Lemma edit_student_accepted id req w w' :
  serve (edit_student email_index_first id req) w
  = (Redirect (UrlFor (EpViewStudent id) []), w') ->
  let data := snd (validate_student (form req)) in
  fst (validate_student (form req)) = []
  ∧ ∃ row d',
      students (db w) !! id = Some row
      ∧ update_student email_index_first id
          (student_id data) (name data) (department data)
          (or_None (email data)) (or_None (phone data)) (db w) = inr d'
      ∧ w' = flashed "Student updated." "success" (set_db d' w).
Proof.
  unfold edit_student.
  rewrite login_required_run, edit_student_view_run.
  destruct (session w !! "user_id"); [|discriminate].
  unfold student_by_id.
  destruct (students (db w) !! id) as [row|] eqn:Hrow;
    [|destruct (bindable id); discriminate].
  destruct (method req); [discriminate|].
  destruct (csrf_matches _ _); [|discriminate].
  cbv zeta.
  destruct (fst (validate_student (form req))); [|discriminate].
  destruct (other_with_student_id _ _ _); [discriminate|].
  destruct (if truthy _ then _ else _); [discriminate|].
  destruct (update_student _ _ _ _ _ _ _ _) as [err|d'] eqn:Hu;
    [discriminate|].
  intros [= <-]. eauto 6.
Qed.

(** What each of the three views can do to the database. *)
Lemma create_student_db req w :
  db (snd (serve (create_student email_index_first req) w)) = db w
  ∨ ∃ w', serve (create_student email_index_first req) w
          = (Redirect (UrlFor EpListStudents []), w').
Proof.
  unfold create_student.
  rewrite login_required_run, create_student_view_run.
  destruct (session w !! "user_id"); [|by left].
  destruct (method req); [by left|].
  destruct (csrf_matches _ _); [|by left].
  cbv zeta.
  destruct (fst (validate_student (form req))) as [|e errors].
  - destruct (insert_student _ _ _ _ _ _ _ _) as [[msg]|d'].
    + by left.
    + right. eauto.
  - left. apply db_flashed_all.
Qed.

Lemma edit_student_db id req w :
  db (snd (serve (edit_student email_index_first id req) w)) = db w
  ∨ ∃ w', serve (edit_student email_index_first id req) w
          = (Redirect (UrlFor (EpViewStudent id) []), w').
Proof.
  unfold edit_student.
  rewrite login_required_run, edit_student_view_run.
  destruct (session w !! "user_id"); [|by left].
  destruct (student_by_id id (db w)) as [row|]; [|by left].
  destruct (method req); [by left|].
  destruct (csrf_matches _ _); [|by left].
  cbv zeta.
  destruct (fst (validate_student (form req))) as [|e errors].
  - destruct (other_with_student_id _ _ _); [by left|].
    destruct (if truthy _ then _ else _); [by left|].
    destruct (update_student _ _ _ _ _ _ _ _) as [err|d'].
    + by left.
    + right. eauto.
  - left. apply db_flashed_all.
Qed.

Lemma validated_required_present f :
  fst (validate_student f) = [] ->
  strip (get f "name") ≠ [] ∧ strip (get f "student_id") ≠ []
  ∧ strip (get f "department") ≠ [].
Proof.
  intros H. apply validate_student_accepts in H as (? & ? & ? & _). done.
Qed.

Lemma create_student_invariant req w :
  students_invariant (students (db w)) ->
  students_invariant
    (students (db (snd (serve (create_student email_index_first req) w)))).
Proof.
  intros Hinv. destruct (create_student_db req w) as [->|[w' E]]; [done|].
  rewrite E. apply create_student_accepted in E as (Hv & d' & Hins & ->).
  apply insert_student_ok in Hins as [Hu ->].
  rewrite validate_student_data in *. simpl in *.
  apply (students_invariant_write email_index_first); [done| |].
  - simpl. by rewrite delete_id by apply next_key_fresh.
  - apply validated_required_present in Hv. unfold required_present. simpl.
    tauto.
Qed.

Lemma edit_student_invariant id req w :
  students_invariant (students (db w)) ->
  students_invariant
    (students (db (snd (serve (edit_student email_index_first id req) w)))).
Proof.
  intros Hinv. destruct (edit_student_db id req w) as [->|[w' E]]; [done|].
  rewrite E.
  apply edit_student_accepted in E as (Hv & row & d' & Hrow & Hupd & ->).
  apply (update_student_ok _ _ _ _ _ _ _ _ _ Hrow) in Hupd as [Hu ->].
  rewrite validate_student_data in *. simpl in *.
  apply (students_invariant_write email_index_first); [done|done|].
  apply validated_required_present in Hv. unfold required_present. simpl.
  tauto.
Qed.

Lemma delete_student_invariant id req w :
  students_invariant (students (db w)) ->
  students_invariant (students (db (snd (serve (delete_student id req) w)))).
Proof.
  intros Hinv. destruct (delete_student_db id req w) as [->| ->]; [done|].
  by apply students_invariant_delete.
Qed.

Lemma crud_step_invariant d d' :
  students_invariant (students d) ->
  crud_step email_index_first d d' ->
  students_invariant (students d').
Proof.
  intros Hinv Hstep. destruct Hstep as [req s d|id req s d|id req s d].
  - by apply create_student_invariant.
  - by apply edit_student_invariant.
  - by apply delete_student_invariant.
Qed.

Lemma init_db_students hash now d : students (init_db hash now d) = students d.
Proof. unfold init_db. by destruct (user_by_username _ _). Qed.

End Writes.

(** C5.  In every database reached from the initialised one by create,
    edit and delete requests, no two students share a student_id, no
    two share a non-empty email, and every student has a non-empty
    name, student_id and department; and each of the three requests
    keeps this invariant, from whatever session it comes. *)
Theorem students_invariant_reachable (email_index_first : bool) :
  (∀ d, reachable email_index_first d -> students_invariant (students d))
  ∧ (∀ req w,
       students_invariant (students (db w)) ->
       students_invariant
         (students (db (snd (serve (create_student email_index_first req) w)))))
  ∧ (∀ id req w,
       students_invariant (students (db w)) ->
       students_invariant
         (students
            (db (snd (serve (edit_student email_index_first id req) w)))))
  ∧ (∀ id req w,
       students_invariant (students (db w)) ->
       students_invariant
         (students (db (snd (serve (delete_student id req) w))))).
Proof.
  split; [|split; [|split]].
  - intros d Hr. induction Hr as [hash now|d d' _ IH Hstep].
    + rewrite init_db_students. apply students_invariant_empty.
    + by apply (crud_step_invariant email_index_first d d').
  - apply create_student_invariant.
  - apply edit_student_invariant.
  - apply delete_student_invariant.
Qed.

(** The theorem on the table that holds Jane's row, which is reached by
    one create request. *)
Lemma students_invariant_reachable_witness :
  reachable true (db jane_world)
  ∧ students_invariant (students (db jane_world)).
Proof.
  assert (reachable true (db jane_world)) as Hr.
  { apply (reach_step true seeded_db).
    - apply reach_init.
    - apply (step_create true (post EpCreateStudent jane_form)
               admin_session seeded_db). }
  split; [exact Hr|].
  exact (proj1 (students_invariant_reachable true) _ Hr).
Defined.

Section UniqueChecks.

Variable email_index_first : bool.

Lemma other_with_student_id_None sid i d :
  other_with_student_id sid i d = None
  <-> ∀ j r, students d !! j = Some r -> st_student_id r = sid -> j = i.
Proof.
  unfold other_with_student_id. rewrite fmap_None, fetchone_None. split.
  - intros H j r Hj Hs. specialize (H j r Hj). simpl in H.
    rewrite bool_decide_eq_true_2 in H by done. simpl in H.
    apply negb_false_iff, N.eqb_eq in H. done.
  - intros H j r Hj. simpl.
    destruct (decide (st_student_id r = sid)) as [Hs|Hs].
    + rewrite (H j r Hj Hs), N.eqb_refl. apply andb_false_r.
    + by rewrite bool_decide_eq_false_2.
Qed.

Lemma other_with_email_None e i d :
  other_with_email e i d = None
  <-> ∀ j r, students d !! j = Some r -> st_email r = Some e -> j = i.
Proof.
  unfold other_with_email. rewrite fmap_None, fetchone_None. split.
  - intros H j r Hj Hs. specialize (H j r Hj). simpl in H.
    rewrite bool_decide_eq_true_2 in H by done. simpl in H.
    apply negb_false_iff, N.eqb_eq in H. done.
  - intros H j r Hj. simpl.
    destruct (decide (st_email r = Some e)) as [Hs|Hs].
    + rewrite (H j r Hj Hs), N.eqb_refl. apply andb_false_r.
    + by rewrite bool_decide_eq_false_2.
Qed.

End UniqueChecks.

(** C3, as amended.  When a student has the submitted student_id, a
    create submission from a logged-in session, with the token of the
    session and fields that pass the validator, is answered with the
    form again and one notice, "Student ID already exists." or "Email
    already exists."; the database is left as it was, and exactly one
    row has that student_id.  When the submitted email is empty or is
    the email of no student, the notice is "Student ID already
    exists.". *)
Theorem create_student_duplicate_student_id
    (email_index_first : bool) (req : request) (w : world) :
  logged_in (session w) ->
  method req = POST ->
  csrf_valid (session w) (form req !! "csrf_token") ->
  fst (validate_student (form req)) = [] ->
  distinct_by (fun r => Some (st_student_id r)) (students (db w)) ->
  (∃ i r, students (db w) !! i = Some r
          ∧ st_student_id r = strip (get (form req) "student_id")) ->
  let out := serve (create_student email_index_first req) w in
  fst out = Render "students/new.html" [("data", TEmpty)]
  ∧ db (snd out) = db w
  ∧ (exists! i, ∃ r, students (db (snd out)) !! i = Some r
                     ∧ st_student_id r = strip (get (form req) "student_id"))
  ∧ (∃ message,
       flashes_of (session (snd out))
       = flashes_of (session w) ++ [("danger", message)]
       ∧ (message = "Student ID already exists."
          ∨ message = "Email already exists."))
  ∧ ((∀ i r, students (db w) !! i = Some r ->
             strip (get (form req) "email") ≠ [] ->
             st_email r ≠ Some (strip (get (form req) "email"))) ->
     flashes_of (session (snd out))
     = flashes_of (session w) ++ [("danger", "Student ID already exists.")]).
Proof.
  intros [u Hu] Hm Hc Hv Hd (i & r & Hi & Hr) out.
  apply csrf_matches_true in Hc.
  assert (student_id_taken (strip (get (form req) "student_id"))
            (students (db w)) = true) as Htaken
    by (apply student_id_taken_true; eauto).
  assert (∃ message,
            out = (Render "students/new.html" [("data", TEmpty)],
                   flashed message "danger" w)
            ∧ (message = "Student ID already exists."
               ∨ message = "Email already exists.")
            ∧ (email_taken (or_None (strip (get (form req) "email")))
                 (students (db w)) = false ->
               message = "Student ID already exists."))
    as (message & -> & Hmsg & Hsid).
  { unfold out, create_student.
    rewrite login_required_run, create_student_view_run, Hu, Hm, Hc, Hv.
    cbv zeta. rewrite validate_student_data. simpl.
    unfold insert_student, unique_check. rewrite Htaken.
    destruct email_index_first,
      (email_taken (or_None (strip (get (form req) "email")))
         (students (db w))); simpl; eauto 6.
    exists "Email already exists.". split; [done|]. split; [auto|done]. }
  simpl fst. simpl snd. rewrite db_flashed, flashes_flashed.
  split; [done|]. split; [done|]. split; [|split].
  - exists i. split; [eauto|].
    intros j (r' & Hj & Hr').
    apply (Hd i j r r' (st_student_id r)); congruence.
  - eauto.
  - intros He. rewrite Hsid; [done|].
    apply email_taken_false. intros x Hx j r' Hj.
    apply or_None_Some in Hx as [<- Hne]. by apply (He j r').
Qed.

(** C4.  For a student of a table that satisfies the invariant, an edit
    submission from a logged-in session, with the token of the session
    and fields that pass the validator, whose trimmed student_id and
    email are the student's own, meets no conflict in the re-check of
    the student_id nor, when the email is not empty, in the re-check of
    the email, and is applied: the answer is the redirect to the
    student's page, with the notice "Student updated.", and the row
    holds the submitted fields. *)
Theorem edit_student_own_student_id_and_email
    (email_index_first : bool) (id : N) (row : student)
    (req : request) (w : world) :
  logged_in (session w) ->
  method req = POST ->
  csrf_valid (session w) (form req !! "csrf_token") ->
  fst (validate_student (form req)) = [] ->
  students_invariant (students (db w)) ->
  students (db w) !! id = Some row ->
  strip (get (form req) "student_id") = st_student_id row ->
  strip (get (form req) "email") = default [] (st_email row) ->
  other_with_student_id (strip (get (form req) "student_id")) id (db w) = None
  ∧ (strip (get (form req) "email") ≠ [] ->
     other_with_email (strip (get (form req) "email")) id (db w) = None)
  ∧ serve (edit_student email_index_first id req) w
    = (Redirect (UrlFor (EpViewStudent id) []),
       flashed "Student updated." "success"
         (set_db
            (with_students
               (<[id := {| st_student_id := st_student_id row;
                           st_name := strip (get (form req) "name");
                           st_department := strip (get (form req) "department");
                           st_email :=
                             null_if_empty (default [] (st_email row));
                           st_phone :=
                             null_if_empty (strip (get (form req) "phone"));
                           st_created_at := st_created_at row |}]>
                  (students (db w)))
               (students_seq (db w)) (db w))
            w)).
Proof.
  intros [u Hu] Hm Hc Hv (Hs & He & _) Hrow Esid Eem.
  apply csrf_matches_true in Hc.
  assert (∀ j r, students (db w) !! j = Some r ->
                 st_student_id r = st_student_id row -> j = id) as Hsid.
  { intros j r Hj E. apply (Hs j id r row (st_student_id row)); congruence. }
  assert (∀ j r e, students (db w) !! j = Some r -> e ≠ [] ->
                   default [] (st_email row) = e ->
                   st_email r = Some e -> j = id) as Hem.
  { intros j r e Hj Hne E1 E2. apply (He j id r row e); [done|done| |].
    - by apply nonempty_email_Some.
    - apply nonempty_email_Some. split; [|done].
      destruct (st_email row); simpl in E1; congruence. }
  assert (other_with_student_id (strip (get (form req) "student_id")) id
            (db w) = None) as H1.
  { apply other_with_student_id_None. intros j r Hj E. rewrite Esid in E.
    by apply (Hsid j r). }
  assert (strip (get (form req) "email") ≠ [] ->
          other_with_email (strip (get (form req) "email")) id (db w) = None)
    as H2.
  { intros Hne. apply other_with_email_None. intros j r Hj E.
    apply (Hem j r (strip (get (form req) "email"))); congruence. }
  split; [done|]. split; [done|].
  unfold edit_student.
  rewrite login_required_run, edit_student_view_run, Hu.
  unfold student_by_id. rewrite Hrow, Hm, Hc, Hv. cbv zeta.
  rewrite validate_student_data. simpl. rewrite H1.
  assert ((if truthy (strip (get (form req) "email"))
           then other_with_email (strip (get (form req) "email")) id (db w)
           else None) = None) as ->.
  { destruct (truthy (strip (get (form req) "email"))) eqn:Et; [|done].
    apply H2. by apply truthy_true. }
  unfold update_student. rewrite Hrow.
  assert (unique_check email_index_first
            (strip (get (form req) "student_id"))
            (or_None (strip (get (form req) "email")))
            (delete id (students (db w))) = None) as ->.
  { apply unique_check_None. split.
    - apply student_id_taken_false. intros j r Hj E.
      apply lookup_delete_Some in Hj as [Hne Hj]. rewrite Esid in E.
      by specialize (Hsid j r Hj E).
    - apply email_taken_false. intros x Hx j r Hj E.
      apply lookup_delete_Some in Hj as [Hne Hj].
      apply or_None_Some in Hx as [Hx Hxne].
      assert (j = id); [|done].
      apply (Hem j r x); congruence. }
  unfold set_fields. by rewrite !or_None_null_if_empty, Esid, Eem.
Qed.

Section SampleFacts.

Lemma jane_logged_in : logged_in (session jane_world).
Proof. exists (VInt 1). vm_compute. reflexivity. Qed.

Lemma jane_token (f : gmap string pystr) :
  f !! "csrf_token" = Some (py "tok") ->
  csrf_valid (session jane_world) (f !! "csrf_token").
Proof.
  intros ->. exists (py "tok"). split; [done|].
  split; [vm_compute; discriminate|vm_compute; reflexivity].
Qed.

Lemma jane_students : students (db jane_world) = {[ 1 := jane_row ]}.
Proof. vm_compute. reflexivity. Qed.

Lemma jane_distinct {K} (k : student -> option K) :
  distinct_by k (students (db jane_world)).
Proof.
  rewrite jane_students. intros i j r1 r2 v H1 H2 _ _.
  apply lookup_singleton_Some in H1 as [<- _].
  apply lookup_singleton_Some in H2 as [<- _]. done.
Qed.

Lemma jane_invariant : students_invariant (students (db jane_world)).
Proof.
  split; [apply jane_distinct|]. split; [apply jane_distinct|].
  rewrite jane_students. intros i r H.
  apply lookup_singleton_Some in H as [_ <-].
  repeat split; vm_compute; discriminate.
Qed.

End SampleFacts.

(** The theorem on S100 a second time, under another name and email. *)
Lemma create_student_duplicate_student_id_witness :
  fst (serve (create_student true (post EpCreateStudent june_form)) jane_world)
  = Render "students/new.html" [("data", TEmpty)]
  ∧ db (snd (serve (create_student true (post EpCreateStudent june_form))
               jane_world))
    = db jane_world
  ∧ flashes_of
      (session (snd (serve (create_student true
                              (post EpCreateStudent june_form)) jane_world)))
    = flashes_of (session jane_world)
      ++ [("danger", "Student ID already exists.")].
Proof.
  destruct (create_student_duplicate_student_id true
              (post EpCreateStudent june_form) jane_world)
    as (H1 & H2 & _ & _ & H5).
  - apply jane_logged_in.
  - reflexivity.
  - apply jane_token. vm_compute. reflexivity.
  - vm_compute. reflexivity.
  - apply jane_distinct.
  - exists 1, jane_row. split; vm_compute; reflexivity.
  - split; [exact H1|]. split; [exact H2|].
    apply H5. intros i r Hi _. rewrite jane_students in Hi.
    apply lookup_singleton_Some in Hi as [_ <-]. vm_compute. discriminate.
Defined.

(** C3 as stated fails when the engine visits the email index first, as
    SQLite does: Jane's own submission a second time clashes on both
    columns, and the notice names the email. *)
Lemma create_student_as_stated_counterexample :
  ¬ (logged_in (session jane_world) ->
     method (post EpCreateStudent jane_form) = POST ->
     csrf_valid (session jane_world)
       (form (post EpCreateStudent jane_form) !! "csrf_token") ->
     fst (validate_student (form (post EpCreateStudent jane_form))) = [] ->
     (∃ i r, students (db jane_world) !! i = Some r
             ∧ st_student_id r = strip (get jane_form "student_id")) ->
     flashes_of
       (session (snd (serve (create_student true
                               (post EpCreateStudent jane_form)) jane_world)))
     = flashes_of (session jane_world)
       ++ [("danger", "Student ID already exists.")]).
Proof.
  intros H.
  assert (flashes_of
            (session (snd (serve (create_student true
                                    (post EpCreateStudent jane_form))
                             jane_world)))
          = flashes_of (session jane_world)
            ++ [("danger", "Email already exists.")]) as E
    by (vm_compute; reflexivity).
  rewrite E in H.
  assert ([("danger", "Email already exists.")]
          = [("danger", "Student ID already exists.")]) as Habs;
    [|discriminate].
  eapply app_inv_head. apply H.
  - apply jane_logged_in.
  - reflexivity.
  - apply jane_token. vm_compute. reflexivity.
  - vm_compute. reflexivity.
  - exists 1, jane_row. split; vm_compute; reflexivity.
Qed.

(** The theorem on Jane's row, resubmitted with her own student_id and
    email and a new department. *)
Lemma edit_student_own_student_id_and_email_witness :
  fst (serve (edit_student true 1 (post (EpEditStudent 1) jane_moves_form))
         jane_world)
  = Redirect (UrlFor (EpViewStudent 1) []).
Proof.
  destruct (edit_student_own_student_id_and_email true 1 jane_row
              (post (EpEditStudent 1) jane_moves_form) jane_world)
    as (_ & _ & H).
  - apply jane_logged_in.
  - reflexivity.
  - apply jane_token. vm_compute. reflexivity.
  - vm_compute. reflexivity.
  - apply jane_invariant.
  - vm_compute. reflexivity.
  - vm_compute. reflexivity.
  - vm_compute. reflexivity.
  - rewrite H. reflexivity.
Defined.

(** C10.  When an edit is answered with the redirect to the student's
    page, the row of the given id holds the trimmed submitted
    student_id, name, department, email and phone and its old
    created_at, under the same id; every row of another id is what it
    was, the table has the same ids, and the users table and the key
    counters are what they were. *)
Theorem edit_student_frame
    (email_index_first : bool) (id : N) (req : request) (w w' : world) :
  serve (edit_student email_index_first id req) w
  = (Redirect (UrlFor (EpViewStudent id) []), w') ->
  ∃ old,
    students (db w) !! id = Some old
    ∧ students (db w') !! id
      = Some {| st_student_id := strip (get (form req) "student_id");
                st_name := strip (get (form req) "name");
                st_department := strip (get (form req) "department");
                st_email := null_if_empty (strip (get (form req) "email"));
                st_phone := null_if_empty (strip (get (form req) "phone"));
                st_created_at := st_created_at old |}
    ∧ (∀ j, j ≠ id -> students (db w') !! j = students (db w) !! j)
    ∧ dom (students (db w')) = dom (students (db w))
    ∧ users (db w') = users (db w)
    ∧ users_seq (db w') = users_seq (db w)
    ∧ students_seq (db w') = students_seq (db w).
Proof.
  intros H.
  apply edit_student_accepted in H as (_ & row & d' & Hrow & Hupd & ->).
  apply (update_student_ok _ _ _ _ _ _ _ _ _ _ Hrow) in Hupd as [_ ->].
  rewrite validate_student_data. simpl.
  exists row. split; [done|]. split.
  - rewrite lookup_insert_eq. unfold set_fields.
    by rewrite !or_None_null_if_empty.
  - split; [|split; [|done]].
    + intros j Hj. by rewrite lookup_insert_ne.
    + apply dom_insert_lookup_L. by rewrite Hrow.
Qed.

(** The theorem on the edit of Jane's row. *)
Lemma edit_student_frame_witness :
  ∃ old,
    students (db jane_world) !! 1 = Some old
    ∧ ∀ j, j ≠ 1 ->
        students
          (db (snd (serve (edit_student true 1
                             (post (EpEditStudent 1) jane_moves_form))
                      jane_world))) !! j
        = students (db jane_world) !! j.
Proof.
  destruct (edit_student_frame true 1 (post (EpEditStudent 1) jane_moves_form)
              jane_world
              (snd (serve (edit_student true 1
                             (post (EpEditStudent 1) jane_moves_form))
                      jane_world)))
    as (old & H1 & _ & H3 & _).
  - vm_compute. reflexivity.
  - exists old. split; [exact H1|exact H3].
Defined.

(** ** Login (C8, C9) *)

(** C8.  A request to a view behind [login_required], from a session
    without login, is answered with the redirect to the login page that
    carries the path of the request, and it changes neither the session
    nor the database.  A login POST to that URL (its query holds the
    path as [next]) with the name of a user and a password that passes
    the hash check is answered with the redirect to that path. *)
Theorem login_required_redirects_and_login_returns
    (check_password_hash : pystr -> pystr -> bool)
    (f : request -> view response) (req : request) (w : world) :
  session w !! "user_id" = None ->
  serve (login_required f req) w
  = (Redirect (UrlFor EpLogin [("next", request_path req)]), w)
  ∧ ∀ (req' : request) (w' : world) id row,
      method req' = POST ->
      args req' !! "next" = Some (request_path req) ->
      user_by_username (strip (get (form req') "username")) (db w')
      = Some (id, row) ->
      check_password_hash (u_password_hash row) (get (form req') "password")
      = true ->
      fst (serve (login check_password_hash req') w')
      = Redirect (Target (request_path req)).
Proof.
  intros Hs. split.
  - by rewrite login_required_run, Hs.
  - intros req' w' id row Hm Hn Hu Hp.
    rewrite login_run, Hm, Hu, Hp, Hn.
    pose proof (request_path_nonempty req) as Hpath.
    destruct (request_path req); [discriminate|]. reflexivity.
Qed.

(** The theorem on [/students]: the anonymous request is sent to the
    login page, and the login of the seeded admin lands on [/students].
    And on a request for the student 7 written [/students/007]: the
    path goes to the login page and comes back as it was written. *)
Lemma login_required_redirects_and_login_returns_witness :
  serve (list_students (get_request EpListStudents ∅)) anonymous_world
  = (Redirect (UrlFor EpLogin [("next", py "/students")]), anonymous_world)
  ∧ fst (serve (login plain_check admin_login) anonymous_world)
    = Redirect (Target (py "/students"))
  ∧ serve (view_student 7 get_007) anonymous_world
    = (Redirect (UrlFor EpLogin [("next", py "/students/007")]),
       anonymous_world)
  ∧ fst (serve (login plain_check admin_login_007) anonymous_world)
    = Redirect (Target (py "/students/007")).
Proof.
  destruct (login_required_redirects_and_login_returns plain_check
              list_students_view (get_request EpListStudents ∅)
              anonymous_world) as [H1 H2].
  - vm_compute. reflexivity.
  - destruct (login_required_redirects_and_login_returns plain_check
                (view_student_view 7) get_007 anonymous_world) as [H3 H4].
    + vm_compute. reflexivity.
    + split; [exact H1|]. split; [|split; [exact H3|]].
      * apply (H2 admin_login anonymous_world 1
                 {| u_username := py "admin";
                    u_password_hash := py "hash:admin123";
                    u_created_at := py "2024-05-01T09:00:00" |});
          vm_compute; reflexivity.
      * apply (H4 admin_login_007 anonymous_world 1
                 {| u_username := py "admin";
                    u_password_hash := py "hash:admin123";
                    u_created_at := py "2024-05-01T09:00:00" |});
          vm_compute; reflexivity.
Defined.

(** C9.  A login POST with a name that no user has and a login POST with
    the name of a user and a password that fails the hash check get the
    same answer from the same world: the login page again, the notice
    "Invalid username or password." added to the session, the login of
    the session (if any) and the database untouched.  And a login POST
    that succeeds leaves a session that holds the user id, the username
    and the welcome notice and nothing of what it held before. *)
Theorem login_failures_indistinguishable
    (check_password_hash : pystr -> pystr -> bool)
    (req1 req2 : request) (w : world) id row :
  method req1 = POST ->
  method req2 = POST ->
  user_by_username (strip (get (form req1) "username")) (db w) = None ->
  user_by_username (strip (get (form req2) "username")) (db w)
  = Some (id, row) ->
  check_password_hash (u_password_hash row) (get (form req2) "password")
  = false ->
  serve (login check_password_hash req1) w
  = serve (login check_password_hash req2) w
  ∧ serve (login check_password_hash req1) w
    = (Render "auth/login.html" [],
       flashed "Invalid username or password." "danger" w)
  ∧ (∀ k, k ≠ "_flashes" ->
          session (flashed "Invalid username or password." "danger" w) !! k
          = session w !! k)
  ∧ db (flashed "Invalid username or password." "danger" w) = db w
  ∧ ∀ (req : request) (w0 : world) id0 row0,
      method req = POST ->
      user_by_username (strip (get (form req) "username")) (db w0)
      = Some (id0, row0) ->
      check_password_hash (u_password_hash row0) (get (form req) "password")
      = true ->
      session (snd (serve (login check_password_hash req) w0))
      = <["_flashes" := VFlashes [("success", "Welcome back!")]]>
          (<["username" := VStr (u_username row0)]>
             (<["user_id" := VInt id0]> ∅))
      ∧ db (snd (serve (login check_password_hash req) w0)) = db w0.
Proof.
  intros Hm1 Hm2 Hu1 Hu2 Hp.
  rewrite !login_run, Hm1, Hm2, Hu1, Hu2, Hp.
  split; [done|]. split; [done|].
  split; [intros k Hk; by apply session_flashed|].
  split; [done|].
  intros req w0 id0 row0 Hm Hu Hc.
  rewrite login_run, Hm, Hu, Hc. simpl snd. split; [|done].
  unfold flashed, flash, flashes_of. simpl.
  by rewrite !lookup_insert_ne, lookup_empty.
Qed.

(** The theorem on the seeded database: an unknown name and a wrong
    password for [admin] are answered alike. *)
Lemma login_failures_indistinguishable_witness :
  serve (login plain_check unknown_user_login) fresh_world
  = serve (login plain_check wrong_password_login) fresh_world
  ∧ session (snd (serve (login plain_check admin_login) jane_world))
    = <["_flashes" := VFlashes [("success", "Welcome back!")]]>
        (<["username" := VStr (py "admin")]> (<["user_id" := VInt 1]> ∅)).
Proof.
  destruct (login_failures_indistinguishable plain_check
              unknown_user_login wrong_password_login fresh_world 1
              {| u_username := py "admin"; u_password_hash := py "hash:admin123";
                 u_created_at := py "2024-05-01T09:00:00" |})
    as (H1 & _ & _ & _ & H5); try (vm_compute; reflexivity).
  split; [exact H1|].
  apply (H5 admin_login jane_world 1
           {| u_username := py "admin"; u_password_hash := py "hash:admin123";
              u_created_at := py "2024-05-01T09:00:00" |});
    vm_compute; reflexivity.
Defined.

(** ** Search (C6) *)

Section Search.

Lemma str_leb_trans a b c :
  str_leb a b = true -> str_leb b c = true -> str_leb a c = true.
Proof.
  revert b c. induction a as [|x a IH]; intros [|y b] [|z c]; simpl;
    try done.
  rewrite !orb_true_iff, !andb_true_iff, !N.ltb_lt, !N.eqb_eq.
  intros [H1|[-> H1]] [H2|[-> H2]]; try (left; lia); try (by left).
  right. split; [done|]. by apply (IH b c).
Qed.

#[local] Instance newer_eq_trans : Transitive newer_eq.
Proof.
  intros x y z. unfold newer_eq. intros H1 H2.
  by apply (str_leb_trans _ (st_created_at (snd y))).
Qed.

Lemma like_percent p s :
  like_match (37 :: p) s
  = like_match p s
    || match s with [] => false | _ :: s' => like_match (37 :: p) s' end.
Proof. by destruct s. Qed.

Lemma like_literal c p s :
  c ≠ 37 -> c ≠ 95 ->
  like_match (c :: p) s
  = match s with
    | [] => false
    | d :: s' => (ascii_lower c =? ascii_lower d) && like_match p s'
    end.
Proof.
  intros H1 H2. simpl.
  destruct (N.eqb_spec c 37); [done|].
  destruct (N.eqb_spec c 95); [done|]. done.
Qed.

Lemma like_percent_iff p s :
  like_match (37 :: p) s = true
  <-> ∃ before rest, s = before ++ rest ∧ like_match p rest = true.
Proof.
  induction s as [|d s IH]; rewrite like_percent, orb_true_iff.
  - split.
    + intros [H|H]; [|done]. by exists [], [].
    + intros (before & rest & E & H).
      symmetry in E. apply app_eq_nil in E as [-> ->]. by left.
  - rewrite IH. split.
    + intros [H|(before & rest & -> & H)].
      * by exists [], (d :: s).
      * by exists (d :: before), rest.
    + intros (before & rest & E & H). destruct before as [|d' before].
      * left. simpl in E. by subst.
      * right. injection E as <- ->. eauto.
Qed.

Lemma like_prefix q s :
  no_wildcard q ->
  like_match (q ++ [37]) s = true
  <-> ∃ mid after,
        s = mid ++ after ∧ map ascii_lower mid = map ascii_lower q.
Proof.
  intros Hq. revert s. induction Hq as [|c q [H1 H2] Hq IH]; intros s.
  - simpl app. rewrite like_percent_iff. split.
    + intros _. by exists [], s.
    + intros _. exists s, []. by rewrite app_nil_r.
  - change ((c :: q) ++ [37]) with (c :: (q ++ [37])).
    rewrite like_literal by done. destruct s as [|d s].
    + split; [done|]. intros (mid & after & E & Hm).
      symmetry in E. apply app_eq_nil in E as [-> _]. done.
    + rewrite andb_true_iff, N.eqb_eq, IH. split.
      * intros [Hc (mid & after & -> & Hm)].
        exists (d :: mid), after. simpl. by rewrite Hm, Hc.
      * intros (mid & after & E & Hm).
        destruct mid as [|d' mid]; [done|].
        simpl in E, Hm. injection E as <- ->. injection Hm as Hc Hm. eauto.
Qed.

(** For a query without wildcard, the comparison with [%q%] accepts the
    strings in which [q] occurs. *)
Lemma like_match_occurs_in q s :
  no_wildcard q ->
  like_match (37 :: q ++ [37]) s = true <-> occurs_in q s.
Proof.
  intros Hq. rewrite like_percent_iff. unfold occurs_in. split.
  - intros (before & rest & -> & H).
    apply like_prefix in H as (mid & after & -> & Hm); eauto.
  - intros (before & mid & after & -> & Hm).
    exists before, (mid ++ after). split; [done|].
    apply like_prefix; eauto.
Qed.

Lemma c_string_no_nul s : no_nul s -> c_string s = s.
Proof.
  induction 1 as [|c s Hc _ IH]; [done|]. simpl.
  destruct (N.eqb_spec c 0); [done|]. by rewrite IH.
Qed.

Lemma c_string_prefix s : ∃ rest, s = c_string s ++ rest.
Proof.
  induction s as [|c s [rest IH]]; [by exists []|]. simpl.
  destruct (c =? 0); [by exists (c :: s)|].
  exists rest. simpl. by rewrite <- IH.
Qed.

Lemma c_string_is_no_nul s : no_nul (c_string s).
Proof.
  induction s as [|c s IH]; simpl; [constructor|].
  destruct (N.eqb_spec c 0); by constructor.
Qed.

(** The pattern at a NUL character: what follows it, the closing [%]
    included, is not read. *)
Lemma c_string_app_nul s t : c_string (s ++ 0 :: t) = c_string s.
Proof.
  induction s as [|c s IH]; simpl; [done|].
  destruct (c =? 0); [done|]. by rewrite IH.
Qed.

Lemma pattern_no_nul q :
  no_nul q -> c_string (py "%" ++ q ++ py "%") = 37 :: q ++ [37].
Proof.
  intros Hq. apply c_string_no_nul. constructor; [done|].
  apply Forall_app. split; [done|]. by constructor.
Qed.

(** For a query without wildcard and without NUL, the pattern [%q%]
    matches the texts in which [q] occurs before their first NUL. *)
Lemma like_occurs_in q s :
  no_wildcard q -> no_nul q ->
  like (py "%" ++ q ++ py "%") s = true <-> occurs_in q (c_string s).
Proof.
  intros Hq Hz. unfold like. rewrite pattern_no_nul by done.
  by apply like_match_occurs_in.
Qed.

Lemma like_any_matches q r :
  no_wildcard q -> no_nul q ->
  like_any (py "%" ++ q ++ py "%") r = true <-> row_found q r.
Proof.
  intros Hq Hz. unfold like_any, row_found.
  rewrite !orb_true_iff, !like_occurs_in by done.
  assert (like_null (py "%" ++ q ++ py "%") (st_email r) = true
          <-> ∃ e, st_email r = Some e ∧ occurs_in q (c_string e)) as ->;
    [|tauto].
  unfold like_null. destruct (st_email r) as [e|].
  - rewrite like_occurs_in by done. split; [eauto|].
    by intros (e' & [= <-] & H).
  - split; [done|]. by intros (e & ? & _).
Qed.

Lemma utf8_length_app s t :
  utf8_length (s ++ t) = utf8_length s + utf8_length t.
Proof.
  induction s as [|c s IH]; simpl; [done|].
  fold (utf8_length (s ++ t)). fold (utf8_length s). rewrite IH. lia.
Qed.

Lemma like_too_complex_false q :
  like_too_complex (py "%" ++ q ++ py "%") = false
  <-> utf8_length q + 2 ≤ max_like_pattern_length.
Proof.
  unfold like_too_complex. rewrite N.ltb_ge, !utf8_length_app.
  change (utf8_length (py "%")) with 1. lia.
Qed.

Lemma like_too_complex_true q :
  like_too_complex (py "%" ++ q ++ py "%") = true
  <-> max_like_pattern_length < utf8_length q + 2.
Proof.
  unfold like_too_complex. rewrite N.ltb_lt, !utf8_length_app.
  change (utf8_length (py "%")) with 1. lia.
Qed.

(** What the statement selects when it does not fail. *)
Lemma search_students_inr pattern d rows :
  search_students pattern d = inr rows ->
  rows = order_by_created_at_desc
           (List.filter (fun x => like_any pattern (snd x))
              (map_to_list (students d))).
Proof.
  unfold search_students. destruct (map_to_list (students d)) as [|x l].
  - by intros [= <-].
  - destruct (like_too_complex pattern); [discriminate|]. by intros [= <-].
Qed.

Lemma search_students_total pattern d :
  like_too_complex pattern = false ->
  ∃ rows, search_students pattern d = inr rows.
Proof.
  intros H. unfold search_students. rewrite H.
  destruct (map_to_list (students d)); eauto.
Qed.

Lemma search_students_fails pattern d :
  like_too_complex pattern = true -> students d ≠ ∅ ->
  search_students pattern d
  = inl (OperationalError "LIKE or GLOB pattern too complex").
Proof.
  intros H Hd. unfold search_students. rewrite H.
  destruct (map_to_list (students d)) eqn:E; [|done].
  by apply map_to_list_empty_iff in E.
Qed.

Lemma search_students_empty pattern d :
  students d = ∅ -> search_students pattern d = inr [].
Proof.
  intros H. unfold search_students. by rewrite H, map_to_list_empty.
Qed.

Lemma search_students_rows pattern d rows i r :
  search_students pattern d = inr rows ->
  (i, r) ∈ rows <-> students d !! i = Some r ∧ like_any pattern r = true.
Proof.
  intros ->%search_students_inr. unfold order_by_created_at_desc.
  rewrite merge_sort_Permutation, list_elem_of_In, filter_In,
    <- list_elem_of_In, elem_of_map_to_list. done.
Qed.

Lemma search_students_NoDup pattern d rows :
  search_students pattern d = inr rows -> NoDup rows.
Proof.
  intros ->%search_students_inr. unfold order_by_created_at_desc.
  rewrite merge_sort_Permutation.
  apply NoDup_ListNoDup, List.NoDup_filter, NoDup_ListNoDup,
    NoDup_map_to_list.
Qed.

Lemma search_students_sorted pattern d rows :
  search_students pattern d = inr rows -> StronglySorted newer_eq rows.
Proof.
  intros ->%search_students_inr. apply StronglySorted_merge_sort; apply _.
Qed.

Lemma NoDup_only {A} (l : list A) a :
  NoDup l -> (∀ x, x ∈ l <-> x = a) -> l = [a].
Proof.
  intros Hnd H. destruct l as [|b l].
  - assert (a ∈ []) as Ha by (by apply H). by apply elem_of_nil in Ha.
  - assert (b = a) as -> by (apply H; left).
    destruct l as [|c l]; [done|].
    assert (c = a) as -> by (apply H; right; left).
    apply NoDup_cons in Hnd as [Hnd _]. exfalso. apply Hnd. left.
Qed.

(** The list view behind the guard, for a query that is not empty. *)
Lemma list_students_search_run req w :
  logged_in (session w) ->
  strip (get (args req) "q") ≠ [] ->
  serve (list_students req) w
  = match search_students
            (py "%" ++ strip (get (args req) "q") ++ py "%") (db w) with
    | inr rows =>
        (Render "students/index.html"
           [("students", TRows rows);
            ("q", TStr (strip (get (args req) "q")))], w)
    | inl _ => (Error 500, w)
    end.
Proof.
  intros [u Hu] Hne. unfold list_students. rewrite login_required_run, Hu.
  unfold serve, list_students_view, bind, get_db, ret, uncaught, abort.
  apply truthy_true in Hne. rewrite Hne.
  by destruct (search_students _ _).
Qed.

End Search.

(** C6, as amended.  For a logged-in session and a trimmed query [q]
    that is not empty, holds neither [%] nor [_] nor a NUL character and
    gives a pattern [%q%] within the 50000 bytes the engine accepts, the
    list view renders exactly the rows in whose name, student_id,
    department or (non-NULL) email [q] occurs up to the case of the
    ASCII letters, each field read up to its first NUL character; each
    row once, ordered by created_at from the newest to the oldest; and
    the database is left as it was.  In particular, when [q] occurs in
    the department of one student and in no other searched field of any
    student, that student's row is the whole result. *)
Theorem list_students_search (req : request) (w : world) :
  logged_in (session w) ->
  strip (get (args req) "q") ≠ [] ->
  no_wildcard (strip (get (args req) "q")) ->
  no_nul (strip (get (args req) "q")) ->
  utf8_length (strip (get (args req) "q")) + 2 ≤ max_like_pattern_length ->
  let q := strip (get (args req) "q") in
  ∃ rows,
    fst (serve (list_students req) w)
    = Render "students/index.html" [("students", TRows rows); ("q", TStr q)]
    ∧ db (snd (serve (list_students req) w)) = db w
    ∧ (∀ i r, (i, r) ∈ rows
              <-> students (db w) !! i = Some r ∧ row_found q r)
    ∧ NoDup rows
    ∧ StronglySorted newer_eq rows
    ∧ ∀ i0 r0,
        students (db w) !! i0 = Some r0 ->
        occurs_in q (c_string (st_department r0)) ->
        (∀ i r, students (db w) !! i = Some r -> i ≠ i0 ->
                ¬ occurs_in q (c_string (st_department r))) ->
        (∀ i r, students (db w) !! i = Some r ->
                ¬ occurs_in q (c_string (st_name r))
                ∧ ¬ occurs_in q (c_string (st_student_id r))
                ∧ ∀ e, st_email r = Some e -> ¬ occurs_in q (c_string e)) ->
        rows = [(i0, r0)].
Proof.
  intros Hl Hne Hq Hz Hlen q.
  apply like_too_complex_false in Hlen.
  destruct (search_students_total _ (db w) Hlen) as [rows Hs].
  exists rows.
  assert (∀ i r, (i, r) ∈ rows
                 <-> students (db w) !! i = Some r ∧ row_found q r) as Hrows.
  { intros i r.
    by rewrite (search_students_rows _ _ _ _ _ Hs), like_any_matches. }
  rewrite list_students_search_run, Hs by done.
  split; [done|]. split; [done|]. split; [done|]. split; [|split].
  - by apply (search_students_NoDup _ _ _ Hs).
  - by apply (search_students_sorted _ _ _ Hs).
  - intros i0 r0 H0 Hd Hothers Hfields.
    apply NoDup_only; [by apply (search_students_NoDup _ _ _ Hs)|].
    intros [i r]. rewrite Hrows. split.
    + intros [Hi Hm]. destruct (decide (i = i0)) as [->|Hi0].
      * rewrite H0 in Hi. by injection Hi as <-.
      * exfalso. destruct (Hfields i r Hi) as (Hn & Hsid & He).
        destruct Hm as [Hm|[Hm|[Hm|(e & Ee & Hm)]]]; try done.
        -- by apply (Hothers i r).
        -- by apply (He e).
    + intros [= -> ->]. split; [done|]. right; right; by left.
Qed.

Section SearchSamples.

Lemma occurs_in_char c s :
  occurs_in [c] s ->
  existsb (fun d => ascii_lower d =? ascii_lower c) s = true.
Proof.
  intros (before & mid & after & -> & Hm).
  destruct mid as [|d [|d' mid]]; try discriminate.
  injection Hm as Hd. apply existsb_exists. exists d. split.
  - apply in_or_app. right. by left.
  - by apply N.eqb_eq.
Qed.

End SearchSamples.

(** The theorem on the query [cs], typed with spaces around it, against
    the table that holds Jane's row: the row is listed exactly when
    [cs] occurs in one of her fields. *)
Lemma list_students_search_witness :
  ∃ rows,
    fst (serve (list_students
                  (get_request EpListStudents {[ "q" := py " cs " ]}))
           jane_world)
    = Render "students/index.html"
        [("students", TRows rows); ("q", TStr (py "cs"))]
    ∧ ((1, jane_row) ∈ rows
       <-> students (db jane_world) !! 1 = Some jane_row
           ∧ row_found (py "cs") jane_row).
Proof.
  assert (strip (get (args (get_request EpListStudents
                              {[ "q" := py " cs " ]})) "q") = [99; 115])
    as E by (vm_compute; reflexivity).
  destruct (list_students_search
              (get_request EpListStudents {[ "q" := py " cs " ]}) jane_world)
    as (rows & H1 & _ & H2 & _).
  - apply jane_logged_in.
  - rewrite E. discriminate.
  - rewrite E. repeat constructor; discriminate.
  - rewrite E. repeat constructor; discriminate.
  - rewrite E. vm_compute. discriminate.
  - exists rows. split; [exact H1|apply H2].
Defined.

(** C6 as stated fails on a query that holds a wildcard of LIKE.  The
    query [_] lists Jane's row, and [_] occurs in none of her fields. *)
Lemma list_students_as_stated_counterexample :
  ∃ rows,
    fst (serve (list_students (get_request EpListStudents {[ "q" := py "_" ]}))
           jane_world)
    = Render "students/index.html"
        [("students", TRows rows); ("q", TStr (py "_"))]
    ∧ ¬ (∀ i r, (i, r) ∈ rows
                <-> students (db jane_world) !! i = Some r
                    ∧ row_matches (py "_") r).
Proof.
  exists [(1, jane_row)]. split; [vm_compute; reflexivity|].
  intros H. destruct (proj1 (H 1 jane_row)) as [_ Hm]; [left|].
  destruct Hm as [Hm|[Hm|[Hm|(e & [= <-] & Hm)]]];
    apply occurs_in_char in Hm; vm_compute in Hm; discriminate.
Qed.

(** ** More on the validator *)

Section ValidatorMore.

Lemma lstrip_fixed s :
  (∀ c t, s = c :: t -> isspace c = false) -> lstrip s = s.
Proof.
  destruct s as [|c t]; [done|]. intros H. simpl.
  by rewrite (H c t eq_refl).
Qed.

Lemma lstrip_snoc s c :
  isspace c = false -> lstrip (s ++ [c]) = lstrip s ++ [c].
Proof.
  intros Hc. induction s as [|x s IH]; simpl.
  - by rewrite Hc.
  - by destruct (isspace x).
Qed.

Lemma rstrip_cons c s :
  isspace c = false -> rstrip (c :: s) = c :: rstrip s.
Proof.
  intros Hc. unfold rstrip. simpl rev.
  by rewrite lstrip_snoc, rev_app_distr.
Qed.

Lemma strip_idempotent s : strip (strip s) = strip s.
Proof.
  unfold strip at 1.
  assert (lstrip (strip s) = strip s) as ->.
  { apply lstrip_fixed. intros c t E. unfold strip in E.
    destruct (lstrip s) as [|x u] eqn:Es; [discriminate|].
    apply lstrip_head in Es. rewrite rstrip_cons in E by done.
    by injection E as <- _. }
  unfold strip, rstrip. rewrite rev_involutive.
  f_equal. apply lstrip_fixed. intros c t E. by apply lstrip_head in E.
Qed.

Lemma validate_student_errors_list f :
  fst (validate_student f)
  = (if truthy (strip (get f "name")) then [] else ["Name is required."])
    ++ (if truthy (strip (get f "student_id")) then []
        else ["Student ID is required."])
    ++ (if truthy (strip (get f "department")) then []
        else ["Department is required."])
    ++ (if truthy (strip (get f "email"))
           && negb (match_dollar EMAIL_RE (strip (get f "email")))
        then ["Invalid email format."] else [])
    ++ (if truthy (strip (get f "phone"))
           && negb (fullmatch PHONE_RE (strip (get f "phone")))
        then ["Phone should contain digits, spaces, '+' or '-' only."]
        else []).
Proof.
  unfold validate_student. cbv zeta.
  by destruct (truthy (strip (get f "name"))),
    (truthy (strip (get f "student_id"))),
    (truthy (strip (get f "department"))),
    (truthy (strip (get f "email"))
       && negb (match_dollar EMAIL_RE (strip (get f "email")))),
    (truthy (strip (get f "phone"))
       && negb (fullmatch PHONE_RE (strip (get f "phone")))).
Qed.

Lemma optional_field_bad s (m : bool) (P : Prop) :
  (m = true <-> P) -> truthy s && negb m = true <-> s ≠ [] ∧ ¬ P.
Proof.
  intros Hm. rewrite andb_true_iff, truthy_true, negb_true_iff.
  destruct m; split; intros [H1 H2]; split; try done.
  - exfalso. apply H2. by apply Hm.
  - intros HP. apply Hm in HP. discriminate.
Qed.

Lemma get_form_of_data data :
  get (form_of_data data) "name" = name data
  ∧ get (form_of_data data) "student_id" = student_id data
  ∧ get (form_of_data data) "department" = department data
  ∧ get (form_of_data data) "email" = email data
  ∧ get (form_of_data data) "phone" = phone data.
Proof. repeat split. Qed.

End ValidatorMore.

(** X1.  Each message of [validate_student] is returned exactly when
    its rule is broken: the three "required" messages when the trimmed
    field is empty, the email message when the trimmed email is not
    empty and has not the shape local@domain.tld, the phone message when
    the trimmed phone is not empty and is not 7 to 20 characters out of
    the ASCII digits, whitespace, [+] and [-]. *)
Theorem validate_student_messages (f : gmap string pystr) :
  ("Name is required." ∈ fst (validate_student f)
   <-> strip (get f "name") = [])
  ∧ ("Student ID is required." ∈ fst (validate_student f)
     <-> strip (get f "student_id") = [])
  ∧ ("Department is required." ∈ fst (validate_student f)
     <-> strip (get f "department") = [])
  ∧ ("Invalid email format." ∈ fst (validate_student f)
     <-> strip (get f "email") ≠ [] ∧ ¬ email_shape (strip (get f "email")))
  ∧ ("Phone should contain digits, spaces, '+' or '-' only."
       ∈ fst (validate_student f)
     <-> strip (get f "phone") ≠ []
         ∧ ¬ phone_of phone_char (strip (get f "phone"))).
Proof.
  rewrite validate_student_errors_list.
  rewrite <- (optional_field_bad (strip (get f "email"))
                (match_dollar EMAIL_RE (strip (get f "email")))
                (email_shape (strip (get f "email")))).
  2:{ rewrite match_dollar_strip, fullmatch_lang. apply email_re_lang. }
  rewrite <- (optional_field_bad (strip (get f "phone"))
                (fullmatch PHONE_RE (strip (get f "phone")))
                (phone_of phone_char (strip (get f "phone")))).
  2:{ rewrite fullmatch_lang. apply phone_re_lang. }
  rewrite <- !truthy_false.
  destruct (truthy (strip (get f "name"))),
    (truthy (strip (get f "student_id"))),
    (truthy (strip (get f "department"))),
    (truthy (strip (get f "email"))
       && negb (match_dollar EMAIL_RE (strip (get f "email")))),
    (truthy (strip (get f "phone"))
       && negb (fullmatch PHONE_RE (strip (get f "phone"))));
    simpl; rewrite ?elem_of_cons, ?elem_of_nil;
    repeat split; intros; try done; intuition (try discriminate; auto).
Qed.

(** X2.  Validating the fields that [validate_student] returned gives
    the same errors and the same fields: trimming is idempotent, so a
    form filled in again with the returned data gets the same verdict. *)
Theorem validate_student_normalised (f : gmap string pystr) :
  validate_student (form_of_data (snd (validate_student f)))
  = validate_student f.
Proof.
  unfold validate_student at 1 3. cbv zeta.
  destruct (get_form_of_data (snd (validate_student f)))
    as (-> & -> & -> & -> & ->).
  rewrite validate_student_data. simpl.
  by rewrite !strip_idempotent.
Qed.

Section EmailMore.

Lemma count_occ_none (s : pystr) c :
  Forall (fun x => x ≠ c) s -> count_occ N.eq_dec s c = 0%nat.
Proof.
  induction 1 as [|x s Hx _ IH]; simpl; [done|].
  by destruct (N.eq_dec x c).
Qed.

Lemma email_shape_facts s :
  email_shape s ->
  count_occ N.eq_dec s 64 = 1%nat
  ∧ Forall (fun c => isspace c = false) s
  ∧ (5 ≤ length s)%nat.
Proof.
  intros (l & d & t & -> & [Hl Fl] & [Hd Fd] & [Ht Ft]).
  change (py "@") with [64]. change (py ".") with [46].
  assert (∀ p, Forall (fun c => c ≠ 64 ∧ isspace c = false) p ->
               count_occ N.eq_dec p 64 = 0%nat) as Hcount.
  { intros p Hp. apply count_occ_none.
    eapply Forall_impl; [exact Hp|]. by intros c [? _]. }
  assert (∀ p, Forall (fun c => c ≠ 64 ∧ isspace c = false) p ->
               Forall (fun c => isspace c = false) p) as Hsp.
  { intros p Hp. eapply Forall_impl; [exact Hp|]. by intros c [_ ?]. }
  split; [|split].
  - rewrite !count_occ_app, (Hcount l), (Hcount d), (Hcount t) by done.
    reflexivity.
  - repeat (apply Forall_app; split); auto; by repeat constructor.
  - rewrite !length_app. simpl.
    destruct l; [done|]. destruct d; [done|]. destruct t; [done|].
    simpl. lia.
Qed.

End EmailMore.

(** X3.  An email that [validate_student] accepts, when it is not empty
    after trimming, holds exactly one [@] and no whitespace character,
    and is at least five characters long. *)
Theorem validate_student_email_facts (f : gmap string pystr) :
  fst (validate_student f) = [] ->
  strip (get f "email") ≠ [] ->
  count_occ N.eq_dec (strip (get f "email")) 64 = 1%nat
  ∧ Forall (fun c => isspace c = false) (strip (get f "email"))
  ∧ (5 ≤ length (strip (get f "email")))%nat.
Proof.
  intros Hv Hne. apply validate_student_accepts in Hv as (_ & _ & _ & He & _).
  destruct He as [He|He]; [done|]. by apply email_shape_facts.
Qed.

Lemma validate_student_email_facts_witness :
  count_occ N.eq_dec (strip (get jane_form "email")) 64 = 1%nat.
Proof.
  apply (validate_student_email_facts jane_form).
  - vm_compute. reflexivity.
  - vm_compute. discriminate.
Defined.

(** ** More on the student views *)

Section StudentViewsMore.

Variable email_index_first : bool.

Lemma flashes_flashed_all errors w :
  flashes_of (session (flashed_all errors w))
  = flashes_of (session w) ++ map (fun e => ("danger", e)) errors.
Proof.
  revert w. induction errors as [|e errors IH]; intros w.
  - by rewrite app_nil_r.
  - rewrite flashed_all_cons, IH, flashes_flashed. simpl.
    by rewrite <- app_assoc.
Qed.

Lemma session_flashed_all errors w k :
  k ≠ "_flashes" ->
  session (flashed_all errors w) !! k = session w !! k.
Proof.
  intros Hk. revert w. induction errors as [|e errors IH]; intros w; [done|].
  by rewrite flashed_all_cons, IH, session_flashed.
Qed.

Lemma view_student_run id req w :
  serve (view_student id req) w
  = match session w !! "user_id" with
    | None => (Redirect (UrlFor EpLogin [("next", request_path req)]), w)
    | Some _ =>
        if bindable id then
          match students (db w) !! id with
          | Some row =>
              (Render "students/view.html" [("s", TRow (id, row))], w)
          | None => (Error 404, w)
          end
        else (Error 500, w)
    end.
Proof.
  unfold view_student. rewrite login_required_run.
  destruct (session w !! "user_id"); [|done].
  unfold serve, view_student_view, bind, get_db, student_by_id. simpl.
  destruct (bindable id); [|done].
  by destruct (students (db w) !! id).
Qed.

Lemma list_students_run req w :
  serve (list_students req) w
  = match session w !! "user_id" with
    | None => (Redirect (UrlFor EpLogin [("next", request_path req)]), w)
    | Some _ =>
        let q := strip (get (args req) "q") in
        if truthy q then
          match search_students (py "%" ++ q ++ py "%") (db w) with
          | inr rows =>
              (Render "students/index.html"
                 [("students", TRows rows); ("q", TStr q)], w)
          | inl _ => (Error 500, w)
          end
        else
          (Render "students/index.html"
             [("students", TRows (all_students (db w))); ("q", TStr q)], w)
    end.
Proof.
  unfold list_students. rewrite login_required_run.
  destruct (session w !! "user_id"); [|done].
  unfold serve, list_students_view, bind, get_db, ret, uncaught, abort.
  cbv zeta. destruct (truthy (strip (get (args req) "q"))); [|done].
  by destruct (search_students _ _).
Qed.

End StudentViewsMore.

(** X4.  A submission that the validator rejects (from a logged-in
    session, with the token of the session) stores nothing: the create
    view, and the edit view of an existing student, answer with the form
    again, filled with the trimmed fields, and add to the notices
    exactly the validator's messages, in their order. *)
Theorem rejected_submission_stores_nothing
    (email_index_first : bool) (req : request) (w : world) :
  logged_in (session w) ->
  method req = POST ->
  csrf_valid (session w) (form req !! "csrf_token") ->
  fst (validate_student (form req)) ≠ [] ->
  let errors := fst (validate_student (form req)) in
  let data := snd (validate_student (form req)) in
  (let out := serve (create_student email_index_first req) w in
   fst out = Render "students/new.html" [("data", TData data)]
   ∧ db (snd out) = db w
   ∧ flashes_of (session (snd out))
     = flashes_of (session w) ++ map (fun e => ("danger", e)) errors)
  ∧ ∀ id row,
      students (db w) !! id = Some row ->
      let out := serve (edit_student email_index_first id req) w in
      fst out = Render "students/edit.html"
                  [("s", TRow (id, row)); ("data", TData data)]
      ∧ db (snd out) = db w
      ∧ flashes_of (session (snd out))
        = flashes_of (session w) ++ map (fun e => ("danger", e)) errors.
Proof.
  intros [u Hu] Hm Hc Hv errors data. apply csrf_matches_true in Hc.
  split.
  - unfold create_student.
    rewrite login_required_run, create_student_view_run, Hu, Hm, Hc.
    cbv zeta. fold errors data.
    destruct errors as [|e errors'] eqn:E; [done|]. simpl fst. simpl snd.
    by rewrite db_flashed_all, flashes_flashed_all.
  - intros id row Hrow. unfold edit_student.
    rewrite login_required_run, edit_student_view_run, Hu.
    unfold student_by_id. rewrite Hrow, Hm, Hc. cbv zeta. fold errors data.
    destruct errors as [|e errors'] eqn:E; [done|]. simpl fst. simpl snd.
    by rewrite db_flashed_all, flashes_flashed_all.
Qed.

Lemma rejected_submission_stores_nothing_witness :
  db (snd (serve (create_student true (post EpCreateStudent bad_form))
             jane_world))
  = db jane_world
  ∧ flashes_of
      (session (snd (serve (create_student true
                              (post EpCreateStudent bad_form)) jane_world)))
    = flashes_of (session jane_world)
      ++ [("danger", "Name is required.");
          ("danger", "Department is required.");
          ("danger", "Invalid email format.");
          ("danger", "Phone should contain digits, spaces, '+' or '-' only.")].
Proof.
  destruct (rejected_submission_stores_nothing true
              (post EpCreateStudent bad_form) jane_world)
    as [(_ & H2 & H3) _].
  - apply jane_logged_in.
  - reflexivity.
  - apply jane_token. vm_compute. reflexivity.
  - vm_compute. discriminate.
  - split; [exact H2|]. rewrite H3. f_equal.
Defined.

Section Keys.

Variable email_index_first : bool.

Lemma largest_key_le {A} (t : gmap N A) b :
  (∀ i x, t !! i = Some x -> i ≤ b) -> largest_key t ≤ b.
Proof.
  unfold largest_key.
  apply (map_fold_weak_ind
           (fun r (m : gmap N A) =>
              (∀ i x, m !! i = Some x -> i ≤ b) -> r ≤ b)).
  - intros _. lia.
  - intros j y m r Hj IH H.
    assert (j ≤ b) by (apply (H j y); apply lookup_insert_eq).
    assert (r ≤ b).
    { apply IH. intros i x Hi. apply (H i x).
      rewrite lookup_insert_ne; [done|]. intros ->. congruence. }
    lia.
Qed.

Lemma next_key_bounded d :
  keys_bounded d ->
  next_key (students_seq d) (students d) = students_seq d + 1.
Proof.
  intros H. unfold next_key.
  assert (largest_key (students d) ≤ students_seq d)
    by (by apply largest_key_le).
  lia.
Qed.

Lemma create_student_keys req w :
  keys_bounded (db w) ->
  keys_bounded (db (snd (serve (create_student email_index_first req) w)))
  ∧ students_seq (db w)
    ≤ students_seq (db (snd (serve (create_student email_index_first req) w))).
Proof.
  intros Hk. destruct (create_student_db email_index_first req w)
    as [->|[w' E]]; [split; [done|lia]|].
  rewrite E. apply create_student_accepted in E as (_ & d' & Hins & ->).
  apply insert_student_ok in Hins as [_ ->].
  simpl snd. rewrite db_flashed.
  unfold keys_bounded, set_db, with_students. simpl. split.
  - intros i r Hi.
    apply lookup_insert_Some in Hi as [[<- _]|[_ Hi]]; [lia|].
    apply Hk in Hi. unfold next_key. lia.
  - unfold next_key. lia.
Qed.

Lemma edit_student_keys id req w :
  keys_bounded (db w) ->
  keys_bounded (db (snd (serve (edit_student email_index_first id req) w)))
  ∧ students_seq (db w)
    ≤ students_seq
        (db (snd (serve (edit_student email_index_first id req) w))).
Proof.
  intros Hk. destruct (edit_student_db email_index_first id req w)
    as [->|[w' E]]; [split; [done|lia]|].
  rewrite E.
  apply edit_student_accepted in E as (_ & row & d' & Hrow & Hupd & ->).
  apply (update_student_ok _ _ _ _ _ _ _ _ _ _ Hrow) in Hupd as [_ ->].
  simpl snd. rewrite db_flashed.
  unfold keys_bounded, set_db, with_students. simpl.
  split; [|lia].
  intros i r Hi.
  apply lookup_insert_Some in Hi as [[<- _]|[_ Hi]]; by eapply Hk.
Qed.

Lemma delete_student_keys id req w :
  keys_bounded (db w) ->
  keys_bounded (db (snd (serve (delete_student id req) w)))
  ∧ students_seq (db w)
    ≤ students_seq (db (snd (serve (delete_student id req) w))).
Proof.
  intros Hk. destruct (delete_student_db id req w) as [->| ->];
    [split; [done|lia]|].
  unfold keys_bounded, delete_from_students, with_students. simpl.
  split; [|lia].
  intros i r Hi. apply lookup_delete_Some in Hi as [_ Hi].
  by eapply Hk.
Qed.

Lemma crud_step_keys d d' :
  keys_bounded d -> crud_step email_index_first d d' ->
  keys_bounded d' ∧ students_seq d ≤ students_seq d'.
Proof.
  intros Hk Hstep. destruct Hstep as [req s d|id req s d|id req s d].
  - by apply (create_student_keys req {| session := s; db := d |}).
  - by apply (edit_student_keys id req {| session := s; db := d |}).
  - by apply (delete_student_keys id req {| session := s; db := d |}).
Qed.

End Keys.

(** X5.  In every database reached from the initialised one by create,
    edit and delete requests, no student has an id above the counter of
    the table; none of these requests lowers the counter; and an
    accepted create gives the new student the id counter + 1 and moves
    the counter there.  So the id of a deleted student is never handed
    out again. *)
Theorem student_ids_never_reused (email_index_first : bool) :
  (∀ d, reachable email_index_first d -> keys_bounded d)
  ∧ (∀ d d', keys_bounded d -> crud_step email_index_first d d' ->
             keys_bounded d' ∧ students_seq d ≤ students_seq d')
  ∧ ∀ req w w',
      keys_bounded (db w) ->
      serve (create_student email_index_first req) w
      = (Redirect (UrlFor EpListStudents []), w') ->
      students_seq (db w') = students_seq (db w) + 1
      ∧ students (db w) !! (students_seq (db w) + 1) = None
      ∧ is_Some (students (db w') !! (students_seq (db w) + 1))
      ∧ ∀ j, j ≠ students_seq (db w) + 1 ->
             students (db w') !! j = students (db w) !! j.
Proof.
  split; [|split].
  - intros d Hr. induction Hr as [hash now|d d' _ IH Hstep].
    + intros i r Hi. rewrite init_db_students in Hi.
      change (students empty_db) with (∅ : gmap N student) in Hi.
      by rewrite lookup_empty in Hi.
    + by apply (crud_step_keys email_index_first d d').
  - apply crud_step_keys.
  - intros req w w' Hk E.
    apply create_student_accepted in E as (_ & d' & Hins & ->).
    apply insert_student_ok in Hins as [_ ->].
    rewrite next_key_bounded by done. simpl.
    split; [done|]. split; [|split].
    + rewrite <- (next_key_bounded (db w)) by done. apply next_key_fresh.
    + rewrite lookup_insert_eq. eauto.
    + intros j Hj. by rewrite lookup_insert_ne.
Qed.

(** The theorem after Jane's row was deleted: the next student gets the
    key 2, not Jane's key 1. *)
Lemma student_ids_never_reused_witness :
  let w := snd (serve (delete_student 1 delete_jane) jane_world) in
  students (db w) = ∅
  ∧ students_seq
      (db (snd (serve (create_student true (post EpCreateStudent june2_form))
                  w)))
    = 2.
Proof.
  intros w. split; [vm_compute; reflexivity|].
  destruct (student_ids_never_reused true) as (_ & _ & H).
  destruct (H (post EpCreateStudent june2_form) w
              (snd (serve (create_student true
                             (post EpCreateStudent june2_form)) w)))
    as (H1 & _).
  - intros i r Hi. vm_compute in Hi. discriminate.
  - vm_compute. reflexivity.
  - rewrite H1. vm_compute. reflexivity.
Defined.

(** X6.  What create stores, view shows: after an accepted create, the
    view of the new id, from the session the create left, renders the
    stored row (the id being one the engine can hold).  And after a
    delete that went through, the view of that id is answered with
    404. *)
Theorem view_student_after_create_and_delete
    (email_index_first : bool) (req req' : request) (w w' : world) :
  (serve (create_student email_index_first req) w
   = (Redirect (UrlFor EpListStudents []), w') ->
   ∃ i row,
     students (db w) !! i = None
     ∧ students (db w') !! i = Some row
     ∧ st_student_id row = strip (get (form req) "student_id")
     ∧ st_name row = strip (get (form req) "name")
     ∧ (i ≤ max_integer ->
        fst (serve (view_student i req') w')
        = Render "students/view.html" [("s", TRow (i, row))]))
  ∧ ∀ id,
      logged_in (session w) ->
      csrf_valid (session w) (form req !! "csrf_token") ->
      id ≤ max_integer ->
      fst (serve (view_student id req') (snd (serve (delete_student id req) w)))
      = Error 404.
Proof.
  split.
  - intros E.
    assert (is_Some (session w !! "user_id")) as [u Hu].
    { unfold create_student in E. rewrite login_required_run in E.
      destruct (session w !! "user_id"); [eauto|discriminate]. }
    apply create_student_accepted in E as (_ & d' & Hins & ->).
    apply insert_student_ok in Hins as [_ ->].
    eexists _, _. split; [apply next_key_fresh|].
    split; [rewrite db_flashed; simpl; apply lookup_insert_eq|].
    split; [reflexivity|]. split; [reflexivity|].
    intros Hi%bindable_true.
    rewrite view_student_run, session_flashed by done. simpl session.
    rewrite Hu, Hi, db_flashed. simpl. by rewrite lookup_insert_eq.
  - intros id Hl Hc Hid. rewrite (delete_student_run id req w Hl Hc Hid).
    destruct Hl as [u Hu]. simpl snd. apply bindable_true in Hid.
    rewrite view_student_run, session_flashed by done. simpl session.
    rewrite Hu, Hid, db_flashed. simpl. by rewrite lookup_delete_eq.
Qed.

Lemma view_student_after_create_and_delete_witness :
  fst (serve (view_student 1 (get_request (EpViewStudent 1) ∅)) jane_world)
  = Render "students/view.html" [("s", TRow (1, jane_row))]
  ∧ fst (serve (view_student 1 (get_request (EpViewStudent 1) ∅))
           (snd (serve (delete_student 1 delete_jane) jane_world)))
    = Error 404.
Proof.
  destruct (view_student_after_create_and_delete true
              (post EpCreateStudent jane_form)
              (get_request (EpViewStudent 1) ∅) fresh_world jane_world)
    as [H1 _].
  destruct (view_student_after_create_and_delete true delete_jane
              (get_request (EpViewStudent 1) ∅) jane_world jane_world)
    as [_ H2].
  split.
  - destruct H1 as (i & row & _ & _ & _ & _ & _); [vm_compute; reflexivity|].
    vm_compute. reflexivity.
  - rewrite (H2 1); [done|apply jane_logged_in| |vm_compute; discriminate].
    apply jane_token. vm_compute. reflexivity.
Defined.

(** X7.  For a logged-in session and an id that the engine can hold (at
    most 2^63 - 1), the view of a student is answered with 404 exactly
    when no student has the id, and otherwise renders the row stored
    under the id.  For a larger id, which the route accepts as well, the
    binding of the parameter raises and the answer is a 500 response.
    In every case the database is left as it was. *)
Theorem view_student_found_or_404 (id : N) (req : request) (w : world) :
  logged_in (session w) ->
  (id ≤ max_integer ->
   (fst (serve (view_student id req) w) = Error 404
    <-> students (db w) !! id = None)
   ∧ (∀ row, students (db w) !! id = Some row ->
             fst (serve (view_student id req) w)
             = Render "students/view.html" [("s", TRow (id, row))]))
  ∧ (max_integer < id -> fst (serve (view_student id req) w) = Error 500)
  ∧ db (snd (serve (view_student id req) w)) = db w.
Proof.
  intros [u Hu]. rewrite view_student_run, Hu.
  split; [|split].
  - intros ->%bindable_true.
    destruct (students (db w) !! id) as [row|]; simpl.
    + split; [split; discriminate|]. by intros row' [= <-].
    + split; [done|]. discriminate.
  - by intros ->%bindable_false.
  - by destruct (bindable id), (students (db w) !! id).
Qed.

Lemma view_student_found_or_404_witness :
  (fst (serve (view_student 9 (get_request (EpViewStudent 9) ∅)) jane_world)
   = Error 404
   <-> students (db jane_world) !! 9 = None)
  ∧ fst (serve (view_student (max_integer + 1)
                  (get_request (EpViewStudent (max_integer + 1)) ∅))
           jane_world)
    = Error 500
  ∧ db (snd (serve (view_student 9 (get_request (EpViewStudent 9) ∅))
              jane_world))
    = db jane_world.
Proof.
  destruct (view_student_found_or_404 9 (get_request (EpViewStudent 9) ∅)
              jane_world jane_logged_in) as (H1 & _ & H3).
  destruct (view_student_found_or_404 (max_integer + 1)
              (get_request (EpViewStudent (max_integer + 1)) ∅)
              jane_world jane_logged_in) as (_ & H2 & _).
  destruct H1 as [H1 _]; [vm_compute; discriminate|].
  split; [exact H1|]. split; [|exact H3].
  apply H2. vm_compute. reflexivity.
Defined.

(** X23.  An id beyond SQLite's INTEGER (2^63 and above), which the
    [<int:id>] converter lets through: from a logged-in session, the
    delete view with the token of the session, and the edit view (no
    row has such an id), answer with a 500 response, add no notice and
    change nothing. *)
Theorem unbindable_id_is_server_error
    (email_index_first : bool) (id : N) (req : request) (w : world) :
  max_integer < id ->
  logged_in (session w) ->
  (csrf_valid (session w) (form req !! "csrf_token") ->
   serve (delete_student id req) w = (Error 500, w))
  ∧ (students (db w) !! id = None ->
     serve (edit_student email_index_first id req) w = (Error 500, w)).
Proof.
  intros Hid Hl. split.
  - intros Hc. by apply delete_student_overflow_run.
  - intros Hrow. destruct Hl as [u Hu]. unfold edit_student.
    rewrite login_required_run, edit_student_view_run, Hu.
    unfold student_by_id. rewrite Hrow.
    apply bindable_false in Hid. by rewrite Hid.
Qed.

Lemma unbindable_id_is_server_error_witness :
  serve (delete_student (max_integer + 1) delete_beyond) jane_world
  = (Error 500, jane_world)
  ∧ serve (edit_student true (max_integer + 1) delete_beyond) jane_world
    = (Error 500, jane_world).
Proof.
  destruct (unbindable_id_is_server_error true (max_integer + 1)
              delete_beyond jane_world) as [H1 H2].
  - vm_compute. reflexivity.
  - apply jane_logged_in.
  - split; [apply H1|apply H2].
    + apply jane_token. vm_compute. reflexivity.
    + vm_compute. reflexivity.
Defined.

Section EditMore.

Variable email_index_first : bool.

Lemma other_with_student_id_Some sid i d :
  (∃ j r, students d !! j = Some r ∧ st_student_id r = sid ∧ j ≠ i) ->
  is_Some (other_with_student_id sid i d).
Proof.
  intros (j & r & Hj & Hs & Hne).
  destruct (other_with_student_id sid i d) as [k|] eqn:E; [eauto|].
  exfalso. apply Hne.
  by apply (proj1 (other_with_student_id_None sid i d) E j r).
Qed.

Lemma other_with_email_Some e i d :
  (∃ j r, students d !! j = Some r ∧ st_email r = Some e ∧ j ≠ i) ->
  is_Some (other_with_email e i d).
Proof.
  intros (j & r & Hj & Hs & Hne).
  destruct (other_with_email e i d) as [k|] eqn:E; [eauto|].
  exfalso. apply Hne.
  by apply (proj1 (other_with_email_None e i d) E j r).
Qed.

(** After the two re-checks of the edit view, the UPDATE cannot clash. *)
Lemma update_after_rechecks id sid nm dept e ph d :
  other_with_student_id sid id d = None ->
  (if truthy e then other_with_email e id d else None) = None ->
  ∃ d', update_student email_index_first id sid nm dept (or_None e) ph d
        = inr d'.
Proof.
  intros H1 H2. unfold update_student.
  destruct (students d !! id) as [row|]; [|eauto].
  assert (unique_check email_index_first sid (or_None e)
            (delete id (students d)) = None) as ->; [|eauto].
  apply unique_check_None. split.
  - apply student_id_taken_false. intros j r Hj E.
    apply lookup_delete_Some in Hj as [Hne Hj]. apply Hne. symmetry.
    by apply (proj1 (other_with_student_id_None sid id d) H1 j r).
  - apply email_taken_false. intros x Hx j r Hj E.
    apply lookup_delete_Some in Hj as [Hne Hj].
    apply or_None_Some in Hx as [-> Hx].
    rewrite (proj2 (truthy_true x) Hx) in H2. apply Hne. symmetry.
    by apply (proj1 (other_with_email_None x id d) H2 j r).
Qed.

End EditMore.

(** X9.  An edit (logged in, token of the session, fields that pass the
    validator) to a student_id that a student of another id has is
    answered with the form again and the notice "Student ID already
    exists.", and changes no row; when the student_id is free and the
    non-empty email is the email of a student of another id, the notice
    is "Email already exists.".  The student_id is checked first. *)
Theorem edit_student_conflicts
    (email_index_first : bool) (id : N) (row : student)
    (req : request) (w : world) :
  logged_in (session w) ->
  method req = POST ->
  csrf_valid (session w) (form req !! "csrf_token") ->
  fst (validate_student (form req)) = [] ->
  students (db w) !! id = Some row ->
  let again :=
    Render "students/edit.html"
      [("s", TRow (id, row));
       ("data", TData (snd (validate_student (form req))))] in
  ((∃ j r, students (db w) !! j = Some r
           ∧ st_student_id r = strip (get (form req) "student_id")
           ∧ j ≠ id) ->
   serve (edit_student email_index_first id req) w
   = (again, flashed "Student ID already exists." "danger" w))
  ∧ ((∀ j r, students (db w) !! j = Some r ->
             st_student_id r = strip (get (form req) "student_id") ->
             j = id) ->
     (∃ j r, students (db w) !! j = Some r
             ∧ st_email r = Some (strip (get (form req) "email"))
             ∧ strip (get (form req) "email") ≠ []
             ∧ j ≠ id) ->
     serve (edit_student email_index_first id req) w
     = (again, flashed "Email already exists." "danger" w)).
Proof.
  intros [u Hu] Hm Hc Hv Hrow again. apply csrf_matches_true in Hc.
  unfold again, edit_student.
  rewrite login_required_run, edit_student_view_run, Hu.
  unfold student_by_id. rewrite Hrow, Hm, Hc, Hv. cbv zeta.
  rewrite validate_student_data. simpl.
  split.
  - intros Hex. apply other_with_student_id_Some in Hex as [k ->]. done.
  - intros Hfree (j & r & Hj & He & Hne & Hji).
    rewrite (proj2 (other_with_student_id_None _ _ _) Hfree).
    rewrite (proj2 (truthy_true _) Hne).
    destruct (other_with_email_Some (strip (get (form req) "email")) id (db w))
      as [k ->]; [eauto|done].
Qed.

Lemma edit_student_conflicts_witness :
  fst (serve (edit_student true 2 (post (EpEditStudent 2) june_takes_jane))
         two_world)
  = Render "students/edit.html"
      [("s", TRow (2, {| st_student_id := py "S101"; st_name := py "June Doe";
                         st_department := py "Math";
                         st_email := Some (py "june@example.com");
                         st_phone := None;
                         st_created_at := py "2024-05-01T10:00:00" |}));
       ("data", TData (snd (validate_student june_takes_jane)))]
  ∧ db (snd (serve (edit_student true 2
                      (post (EpEditStudent 2) june_takes_jane)) two_world))
    = db two_world.
Proof.
  destruct (edit_student_conflicts true 2
              {| st_student_id := py "S101"; st_name := py "June Doe";
                 st_department := py "Math";
                 st_email := Some (py "june@example.com"); st_phone := None;
                 st_created_at := py "2024-05-01T10:00:00" |}
              (post (EpEditStudent 2) june_takes_jane) two_world)
    as [H _].
  - exists (VInt 1). vm_compute. reflexivity.
  - reflexivity.
  - exists (py "tok"). split; [vm_compute; reflexivity|].
    split; [vm_compute; discriminate|vm_compute; reflexivity].
  - vm_compute. reflexivity.
  - vm_compute. reflexivity.
  - rewrite H.
    + split; reflexivity.
    + exists 1, jane_row. split; [vm_compute; reflexivity|].
      split; [vm_compute; reflexivity|discriminate].
Defined.

Section EditNever.

Variable email_index_first : bool.

(** Every answer of the edit view, by case. *)
Lemma edit_student_notice id req w :
  snd (serve (edit_student email_index_first id req) w) = w
  ∨ (∃ d', snd (serve (edit_student email_index_first id req) w)
           = flashed "Student updated." "success" (set_db d' w))
  ∨ snd (serve (edit_student email_index_first id req) w)
    = flashed "Student ID already exists." "danger" w
  ∨ snd (serve (edit_student email_index_first id req) w)
    = flashed "Email already exists." "danger" w
  ∨ (fst (validate_student (form req)) ≠ []
     ∧ snd (serve (edit_student email_index_first id req) w)
       = flashed_all (fst (validate_student (form req))) w).
Proof.
  unfold edit_student.
  rewrite login_required_run, edit_student_view_run.
  destruct (session w !! "user_id"); [|by left].
  destruct (student_by_id id (db w)) as [row|]; [|by left].
  destruct (method req); [by left|].
  destruct (csrf_matches _ _); [|by left].
  cbv zeta.
  destruct (fst (validate_student (form req))) as [|e errors] eqn:Ev.
  - destruct (other_with_student_id _ _ _) eqn:E1; [auto|].
    destruct (if truthy _ then _ else _) eqn:E2; [auto|].
    destruct (update_after_rechecks email_index_first id _
                (name (snd (validate_student (form req))))
                (department (snd (validate_student (form req)))) _
                (or_None (phone (snd (validate_student (form req)))))
                (db w) E1 E2) as [d' ->].
    right; left. eauto.
  - right; right; right; right. split; [discriminate|done].
Qed.

Lemma validate_student_known_messages f e :
  e ∈ fst (validate_student f) ->
  e ∈ ["Name is required."; "Student ID is required.";
       "Department is required."; "Invalid email format.";
       "Phone should contain digits, spaces, '+' or '-' only."].
Proof.
  rewrite validate_student_errors_list.
  destruct (truthy (strip (get f "name"))),
    (truthy (strip (get f "student_id"))),
    (truthy (strip (get f "department"))),
    (truthy (strip (get f "email"))
       && negb (match_dollar EMAIL_RE (strip (get f "email")))),
    (truthy (strip (get f "phone"))
       && negb (fullmatch PHONE_RE (strip (get f "phone"))));
    simpl; rewrite !elem_of_cons, ?elem_of_nil; tauto.
Qed.

End EditNever.

(** X10.  The edit view never adds the notice "Database error while
    updating student.": after its two re-checks the UPDATE cannot
    violate a constraint, so the handler of the integrity error is never
    entered.  Every answer either leaves the world as it was or adds
    "Student updated.", "Student ID already exists.", "Email already
    exists." or the messages of the validator. *)
Theorem edit_student_never_database_error
    (email_index_first : bool) (id : N) (req : request) (w : world) :
  ("danger", "Database error while updating student.")
    ∉ flashes_of (session w) ->
  ("danger", "Database error while updating student.")
    ∉ flashes_of (session (snd (serve (edit_student email_index_first id req)
                                  w))).
Proof.
  intros Hw.
  destruct (edit_student_notice email_index_first id req w)
    as [->|[[d' ->]|[->|[->|[Hne ->]]]]]; [done|..].
  - rewrite flashes_flashed. simpl session.
    rewrite elem_of_app, list_elem_of_singleton. intros [?|?]; [done|].
    discriminate.
  - rewrite flashes_flashed, elem_of_app, list_elem_of_singleton.
    intros [?|?]; [done|]. discriminate.
  - rewrite flashes_flashed, elem_of_app, list_elem_of_singleton.
    intros [?|?]; [done|]. discriminate.
  - rewrite flashes_flashed_all, elem_of_app. intros [?|Hin]; [done|].
    apply list_elem_of_fmap in Hin as (e & [= <-] & Hin).
    apply validate_student_known_messages in Hin.
    rewrite !elem_of_cons, elem_of_nil in Hin.
    intuition discriminate.
Qed.

Lemma edit_student_never_database_error_witness :
  ("danger", "Database error while updating student.")
    ∉ flashes_of
        (session (snd (serve (edit_student true 2
                                (post (EpEditStudent 2) june_takes_jane))
                         two_world))).
Proof.
  apply edit_student_never_database_error.
  assert (flashes_of (session two_world)
          = [("success", "Student added."); ("success", "Student added.")])
    as -> by (vm_compute; reflexivity).
  rewrite !elem_of_cons, elem_of_nil. intros [H|[H|H]]; try discriminate; done.
Defined.

Section Frame.

Variable email_index_first : bool.

Lemma keeps_refl w : keeps_login_and_users w w.
Proof. by repeat split. Qed.

Lemma keeps_flashed m c w w1 :
  keeps_login_and_users w w1 -> keeps_login_and_users w (flashed m c w1).
Proof.
  intros (Hi & Hn & Hu & Hq). unfold keeps_login_and_users.
  by rewrite !session_flashed, db_flashed.
Qed.

Lemma keeps_flashed_all errors w w1 :
  keeps_login_and_users w w1 -> keeps_login_and_users w (flashed_all errors w1).
Proof.
  intros (Hi & Hn & Hu & Hq). unfold keeps_login_and_users.
  by rewrite !session_flashed_all, db_flashed_all.
Qed.

Lemma keeps_set_db d' w :
  users d' = users (db w) -> users_seq d' = users_seq (db w) ->
  keeps_login_and_users w (set_db d' w).
Proof. by repeat split. Qed.

Lemma insert_student_users sid nm dept e ph created d d' :
  insert_student email_index_first sid nm dept e ph created d = inr d' ->
  users d' = users d ∧ users_seq d' = users_seq d.
Proof. intros H. apply insert_student_ok in H as [_ ->]. done. Qed.

Lemma update_student_users i sid nm dept e ph d d' :
  update_student email_index_first i sid nm dept e ph d = inr d' ->
  users d' = users d ∧ users_seq d' = users_seq d.
Proof.
  unfold update_student. destruct (students d !! i); [|by intros [= <-]].
  destruct (unique_check _ _ _ _); [discriminate|]. by intros [= <-].
Qed.

Lemma create_student_keeps req w :
  keeps_login_and_users w
    (snd (serve (create_student email_index_first req) w)).
Proof.
  unfold create_student.
  rewrite login_required_run, create_student_view_run.
  destruct (session w !! "user_id"); [|apply keeps_refl].
  destruct (method req); [apply keeps_refl|].
  destruct (csrf_matches _ _); [|apply keeps_refl].
  cbv zeta.
  destruct (fst (validate_student (form req))) as [|e errors].
  - destruct (insert_student _ _ _ _ _ _ _ _) as [[msg]|d'] eqn:E.
    + apply keeps_flashed, keeps_refl.
    + apply insert_student_users in E as [? ?].
      by apply keeps_flashed, keeps_set_db.
  - apply keeps_flashed_all, keeps_refl.
Qed.

Lemma edit_student_keeps id req w :
  keeps_login_and_users w
    (snd (serve (edit_student email_index_first id req) w)).
Proof.
  unfold edit_student.
  rewrite login_required_run, edit_student_view_run.
  destruct (session w !! "user_id"); [|apply keeps_refl].
  destruct (student_by_id id (db w)) as [row|]; [|apply keeps_refl].
  destruct (method req); [apply keeps_refl|].
  destruct (csrf_matches _ _); [|apply keeps_refl].
  cbv zeta.
  destruct (fst (validate_student (form req))) as [|e errors].
  - destruct (other_with_student_id _ _ _);
      [apply keeps_flashed, keeps_refl|].
    destruct (if truthy _ then _ else _);
      [apply keeps_flashed, keeps_refl|].
    destruct (update_student _ _ _ _ _ _ _ _) as [err|d'] eqn:E.
    + apply keeps_flashed, keeps_refl.
    + apply update_student_users in E as [? ?].
      by apply keeps_flashed, keeps_set_db.
  - apply keeps_flashed_all, keeps_refl.
Qed.

Lemma delete_student_keeps id req w :
  keeps_login_and_users w (snd (serve (delete_student id req) w)).
Proof.
  unfold delete_student.
  rewrite login_required_run, delete_student_view_run.
  destruct (session w !! "user_id"); [|apply keeps_refl].
  destruct (csrf_matches _ _); [|apply keeps_refl].
  destruct (bindable id); [|apply keeps_refl].
  by apply keeps_flashed, keeps_set_db.
Qed.

Lemma list_students_keeps req w :
  snd (serve (list_students req) w) = w.
Proof.
  rewrite list_students_run. destruct (session w !! "user_id"); [|done].
  cbv zeta. destruct (truthy _); [|done].
  by destruct (search_students _ _).
Qed.

Lemma view_student_keeps id req w :
  snd (serve (view_student id req) w) = w.
Proof.
  rewrite view_student_run.
  by destruct (session w !! "user_id"), (bindable id),
    (students (db w) !! id).
Qed.

End Frame.

(** X11.  None of the five student views (list, create, view, edit,
    delete) changes the login of the session, that is its [user_id] and
    its [username], and none changes the users table, whatever the
    request and the session.  (The notices and the CSRF token are not
    part of this: the views add notices, and the pages they render may
    ask for the token.) *)
Theorem student_views_keep_login_and_users
    (email_index_first : bool) (ep : endpoint)
    (f : request -> view response) (req : request) (w : world) :
  student_view email_index_first ep = Some f ->
  keeps_login_and_users w (snd (serve (f req) w)).
Proof.
  intros Hf. destruct ep; simpl in Hf; try discriminate;
    injection Hf as <-.
  - rewrite list_students_keeps. apply keeps_refl.
  - apply create_student_keeps.
  - rewrite view_student_keeps. apply keeps_refl.
  - apply edit_student_keeps.
  - apply delete_student_keeps.
Qed.

Lemma student_views_keep_login_and_users_witness :
  session (snd (serve (delete_student 1 delete_jane) jane_world))
    !! "user_id"
  = session jane_world !! "user_id"
  ∧ users (db (snd (serve (delete_student 1 delete_jane) jane_world)))
    = users (db jane_world).
Proof.
  destruct (student_views_keep_login_and_users true (EpDeleteStudent 1)
              (delete_student 1) delete_jane jane_world eq_refl)
    as (H1 & _ & H2 & _).
  split; [exact H1|exact H2].
Defined.

Section ListingMore.

Lemma order_by_created_at_desc_facts (l : list (N * student)) :
  NoDup l ->
  (∀ x, x ∈ order_by_created_at_desc l <-> x ∈ l)
  ∧ NoDup (order_by_created_at_desc l)
  ∧ StronglySorted newer_eq (order_by_created_at_desc l)
  ∧ length (order_by_created_at_desc l) = length l.
Proof.
  intros Hnd. unfold order_by_created_at_desc. split; [|split; [|split]].
  - intros x. by rewrite merge_sort_Permutation.
  - by rewrite merge_sort_Permutation.
  - apply StronglySorted_merge_sort; [apply newer_eq_trans|apply _].
  - by rewrite merge_sort_Permutation.
Qed.

End ListingMore.

(** X12.  For a logged-in session the list view leaves the database
    as it was, whatever the query.  When the pattern [%q%] of the trimmed query
    [q] is over the 50000 bytes the engine accepts and the table has a
    row, the query fails and the answer is a 500 response.  Otherwise
    the view shows, whatever the query holds (wildcards included), only
    rows that are in the table, each at most once, from the newest
    created_at to the oldest; and when the query is missing, empty or
    only whitespace it shows every row of the table, so as many rows as
    the table has. *)
Theorem list_students_sound_and_complete (req : request) (w : world) :
  logged_in (session w) ->
  let q := strip (get (args req) "q") in
  db (snd (serve (list_students req) w)) = db w
  ∧ (max_like_pattern_length < utf8_length q + 2 ->
     students (db w) ≠ ∅ ->
     fst (serve (list_students req) w) = Error 500)
  ∧ (utf8_length q + 2 ≤ max_like_pattern_length ∨ students (db w) = ∅ ->
     ∃ rows,
       fst (serve (list_students req) w)
       = Render "students/index.html" [("students", TRows rows); ("q", TStr q)]
       ∧ (∀ i r, (i, r) ∈ rows -> students (db w) !! i = Some r)
       ∧ NoDup rows
       ∧ StronglySorted newer_eq rows
       ∧ (q = [] ->
          (∀ i r, students (db w) !! i = Some r -> (i, r) ∈ rows)
          ∧ length rows = size (students (db w)))).
Proof.
  intros Hl q. split; [by rewrite list_students_keeps|].
  destruct Hl as [u Hu]. rewrite list_students_run, Hu. cbv zeta. fold q.
  split.
  - intros Hlen Hd.
    assert (q ≠ []) as Hq%truthy_true.
    { intros E. rewrite E in Hlen. vm_compute in Hlen. discriminate. }
    rewrite Hq. apply like_too_complex_true in Hlen.
    by rewrite (search_students_fails _ _ Hlen Hd).
  - intros Hok. destruct (truthy q) eqn:Hq.
    + assert (∃ rows, search_students (py "%" ++ q ++ py "%") (db w)
                      = inr rows) as [rows Hs].
      { destruct Hok as [Hlen|Hd].
        - by apply search_students_total, like_too_complex_false.
        - exists []. by apply search_students_empty. }
      rewrite Hs. exists rows. split; [done|]. split; [|split; [|split]].
      * intros i r Hi.
        by apply (search_students_rows _ _ _ _ _ Hs) in Hi as [? _].
      * by apply (search_students_NoDup _ _ _ Hs).
      * by apply (search_students_sorted _ _ _ Hs).
      * intros E. apply truthy_true in Hq. done.
    + destruct (order_by_created_at_desc_facts
                  (map_to_list (students (db w))))
        as (Hin & Hnd & Hs & Hlen); [apply NoDup_map_to_list|].
      exists (all_students (db w)). unfold all_students.
      split; [done|]. split; [|split; [done|split; [done|]]].
      * intros i r Hi. by apply elem_of_map_to_list, Hin.
      * intros _. split.
        -- intros i r Hi. by apply Hin, elem_of_map_to_list.
        -- rewrite Hlen. apply length_map_to_list.
Qed.

Lemma list_students_sound_and_complete_witness :
  ∃ rows,
    fst (serve (list_students (get_request EpListStudents {[ "q" := py "  " ]}))
           two_world)
    = Render "students/index.html" [("students", TRows rows); ("q", TStr [])]
    ∧ length rows = 2%nat.
Proof.
  destruct (list_students_sound_and_complete
              (get_request EpListStudents {[ "q" := py "  " ]}) two_world)
    as (_ & _ & H).
  - exists (VInt 1). vm_compute. reflexivity.
  - destruct H as (rows & H1 & _ & _ & _ & H5);
      [left; vm_compute; discriminate|].
    exists rows. split; [exact H1|].
    destruct H5 as [_ ->]; vm_compute; reflexivity.
Defined.

Section TokenFacts.

Lemma csrf_matches_stored (s : gmap string sval) token :
  token ≠ [] -> s !! "_csrf_token" = Some (VStr token) ->
  csrf_matches s (Some token) = true.
Proof.
  intros Hne Hs. apply csrf_matches_true. by exists token.
Qed.

Lemma csrf_matches_no_token (s : gmap string sval) token :
  s !! "_csrf_token" = None -> csrf_matches s token = false.
Proof.
  intros Hs. apply csrf_matches_false. destruct token as [t|]; [|by left].
  right; right. exists t. split; [done|]. by rewrite Hs.
Qed.

Lemma get_csrf_token_stored fresh w t :
  t ≠ [] -> session w !! "_csrf_token" = Some (VStr t) ->
  get_csrf_token fresh w = (Ok t, w).
Proof.
  intros Ht Hs. unfold get_csrf_token, bind, get_session. simpl.
  by rewrite Hs, (proj2 (truthy_true t) Ht).
Qed.

Lemma get_csrf_token_new fresh w :
  (∀ t, session w !! "_csrf_token" = Some (VStr t) -> t = []) ->
  get_csrf_token fresh w
  = (Ok fresh, set_session (<["_csrf_token" := VStr fresh]> (session w)) w).
Proof.
  intros H. unfold get_csrf_token, bind, get_session. simpl.
  destruct (session w !! "_csrf_token") as [[n|t|l]|]; try done.
  by rewrite (H t eq_refl).
Qed.

End TokenFacts.

(** X13.  [get_csrf_token] returns a non-empty token that
    [validate_csrf] accepts in the session it leaves, provided the
    generator's value is not empty; asked again, it returns the same
    token and changes nothing, whatever the generator would give; and it
    touches neither the database nor any other key of the session. *)
Theorem get_csrf_token_round_trip (fresh fresh' : pystr) (w : world) :
  fresh ≠ [] ->
  ∃ token w1,
    get_csrf_token fresh w = (Ok token, w1)
    ∧ token ≠ []
    ∧ validate_csrf (Some token) w1 = (Ok true, w1)
    ∧ get_csrf_token fresh' w1 = (Ok token, w1)
    ∧ db w1 = db w
    ∧ ∀ k, k ≠ "_csrf_token" -> session w1 !! k = session w !! k.
Proof.
  intros Hfresh.
  assert (∀ w0 t, t ≠ [] -> session w0 !! "_csrf_token" = Some (VStr t) ->
                  validate_csrf (Some t) w0 = (Ok true, w0)) as Hvalid.
  { intros w0 t Ht Hs. unfold validate_csrf, bind, get_session, ret.
    cbv beta iota. by rewrite csrf_matches_stored. }
  destruct (session w !! "_csrf_token") as [v|] eqn:Hs.
  - destruct v as [n|t|l].
    + exists fresh, (set_session (<["_csrf_token" := VStr fresh]> (session w)) w).
      split; [apply get_csrf_token_new; intros t; by rewrite Hs|].
      split; [done|]. split; [apply Hvalid; [done|apply lookup_insert_eq]|].
      split; [apply get_csrf_token_stored; [done|apply lookup_insert_eq]|].
      split; [done|]. intros k Hk. simpl. by rewrite lookup_insert_ne.
    + destruct (decide (t = [])) as [->|Ht].
      * exists fresh,
          (set_session (<["_csrf_token" := VStr fresh]> (session w)) w).
        split.
        { apply get_csrf_token_new. intros t. rewrite Hs. by intros [= <-]. }
        split; [done|]. split; [apply Hvalid; [done|apply lookup_insert_eq]|].
        split; [apply get_csrf_token_stored; [done|apply lookup_insert_eq]|].
        split; [done|]. intros k Hk. simpl. by rewrite lookup_insert_ne.
      * exists t, w.
        split; [by apply get_csrf_token_stored|]. split; [done|].
        split; [by apply Hvalid|].
        split; [by apply get_csrf_token_stored|]. done.
    + exists fresh, (set_session (<["_csrf_token" := VStr fresh]> (session w)) w).
      split; [apply get_csrf_token_new; intros t; by rewrite Hs|].
      split; [done|]. split; [apply Hvalid; [done|apply lookup_insert_eq]|].
      split; [apply get_csrf_token_stored; [done|apply lookup_insert_eq]|].
      split; [done|]. intros k Hk. simpl. by rewrite lookup_insert_ne.
  - exists fresh, (set_session (<["_csrf_token" := VStr fresh]> (session w)) w).
    split; [apply get_csrf_token_new; intros t; by rewrite Hs|].
    split; [done|]. split; [apply Hvalid; [done|apply lookup_insert_eq]|].
    split; [apply get_csrf_token_stored; [done|apply lookup_insert_eq]|].
    split; [done|]. intros k Hk. simpl. by rewrite lookup_insert_ne.
Qed.

(** The theorem on a session without token and the value [0a1b]. *)
Lemma get_csrf_token_round_trip_witness :
  ∃ token w1,
    get_csrf_token (py "0a1b")
      {| session := {[ "user_id" := VInt 1 ]}; db := seeded_db |}
    = (Ok token, w1)
    ∧ validate_csrf (Some token) w1 = (Ok true, w1).
Proof.
  destruct (get_csrf_token_round_trip (py "0a1b") (py "ffff")
              {| session := {[ "user_id" := VInt 1 ]}; db := seeded_db |})
    as (token & w1 & H1 & _ & H3 & _).
  - vm_compute. discriminate.
  - exists token, w1. split; [exact H1|exact H3].
Defined.

(** X14.  [logout] is answered with the redirect to the login page and
    leaves a session that holds the notice "You have been logged out."
    and nothing else: afterwards every view behind [login_required] is
    answered with the redirect to the login page, no form token is
    accepted, and the database is what it was. *)
Theorem logout_ends_session
    (req req' : request) (f : request -> view response)
    (token : option pystr) (w : world) :
  let w1 := snd (serve (logout req) w) in
  fst (serve (logout req) w) = Redirect (UrlFor EpLogin [])
  ∧ session w1
    = {[ "_flashes" := VFlashes [("info", "You have been logged out.")] ]}
  ∧ db w1 = db w
  ∧ serve (login_required f req') w1
    = (Redirect (UrlFor EpLogin [("next", request_path req')]), w1)
  ∧ validate_csrf token w1 = (Ok false, w1).
Proof.
  intros w1.
  assert (session w1
          = {[ "_flashes" := VFlashes [("info", "You have been logged out.")] ]})
    as Hs.
  { unfold w1, serve, logout, bind, put_session, flash, flashes_of. simpl.
    by rewrite lookup_empty. }
  split; [done|]. split; [done|]. split; [done|]. split.
  - rewrite login_required_run, Hs. by rewrite lookup_singleton_ne.
  - unfold validate_csrf, bind, get_session, ret. cbv beta iota.
    rewrite csrf_matches_no_token; [done|].
    rewrite Hs. by rewrite lookup_singleton_ne.
Qed.

(** X15.  After a login POST that succeeds, the views behind
    [login_required] run (the guard lets the request through), the home
    view sends to the list, and no form token is accepted until
    [get_csrf_token] issues a new one: the token of the session before
    the login is gone. *)
Theorem login_opens_session
    (check_password_hash : pystr -> pystr -> bool)
    (req req' : request) (f : request -> view response)
    (token : option pystr) (w : world) id row :
  method req = POST ->
  user_by_username (strip (get (form req) "username")) (db w)
  = Some (id, row) ->
  check_password_hash (u_password_hash row) (get (form req) "password")
  = true ->
  let w1 := snd (serve (login check_password_hash req) w) in
  serve (login_required f req') w1 = serve (f req') w1
  ∧ serve (home req') w1 = (Redirect (UrlFor EpListStudents []), w1)
  ∧ validate_csrf token w1 = (Ok false, w1)
  ∧ session w1 !! "user_id" = Some (VInt id)
  ∧ session w1 !! "username" = Some (VStr (u_username row)).
Proof.
  intros Hm Hu Hc w1.
  assert (session w1
          = <["_flashes" := VFlashes [("success", "Welcome back!")]]>
              (<["username" := VStr (u_username row)]>
                 (<["user_id" := VInt id]> ∅))) as Hs.
  { unfold w1. rewrite login_run, Hm, Hu, Hc. simpl snd.
    unfold flashed, flash, flashes_of. simpl.
    by rewrite !lookup_insert_ne, lookup_empty. }
  assert (session w1 !! "user_id" = Some (VInt id)) as Hid.
  { rewrite Hs. rewrite !lookup_insert_ne by done. apply lookup_insert_eq. }
  split; [by rewrite login_required_run, Hid|]. split.
  - unfold serve, home, bind, get_session. simpl. by rewrite Hid.
  - split; [|split; [done|]].
    + unfold validate_csrf, bind, get_session, ret. cbv beta iota.
      rewrite csrf_matches_no_token; [done|].
      rewrite Hs. by rewrite !lookup_insert_ne, lookup_empty.
    + rewrite Hs. rewrite lookup_insert_ne by done. apply lookup_insert_eq.
Qed.

Lemma login_opens_session_witness :
  serve (login_required list_students_view (get_request EpListStudents ∅))
    (snd (serve (login plain_check admin_login) anonymous_world))
  = serve (list_students_view (get_request EpListStudents ∅))
      (snd (serve (login plain_check admin_login) anonymous_world)).
Proof.
  refine (proj1 (login_opens_session plain_check admin_login
                   (get_request EpListStudents ∅) list_students_view None
                   anonymous_world 1
                   {| u_username := py "admin";
                      u_password_hash := py "hash:admin123";
                      u_created_at := py "2024-05-01T09:00:00" |} _ _ _));
    vm_compute; reflexivity.
Defined.

(** ** Accounts: [init_db], [/initdb], [/register] *)

Section AccountFacts.

Variable generate_password_hash : pystr -> pystr.

Lemma fetchone_found {A} (p : N * A -> bool) (t : gmap N A) i x :
  fetchone p t = Some (i, x) -> t !! i = Some x ∧ p (i, x) = true.
Proof.
  unfold fetchone. intros E. apply find_some in E as [Hin Hp].
  apply list_elem_of_In, elem_of_map_to_list in Hin. done.
Qed.

Lemma fetchone_is_Some {A} (p : N * A -> bool) (t : gmap N A) i x :
  t !! i = Some x -> p (i, x) = true -> is_Some (fetchone p t).
Proof.
  intros Hi Hp. destruct (fetchone p t) as [y|] eqn:E; [eauto|].
  rewrite (proj1 (fetchone_None p t) E i x Hi) in Hp. discriminate.
Qed.

Lemma user_by_username_None name d :
  user_by_username name d = None
  <-> ∀ i u, users d !! i = Some u -> u_username u ≠ name.
Proof.
  unfold user_by_username. rewrite fetchone_None. split.
  - intros H i u Hi. specialize (H i u Hi). simpl in H.
    by apply bool_decide_eq_false in H.
  - intros H i u Hi. simpl. apply bool_decide_eq_false. by apply (H i u).
Qed.

Lemma user_by_username_Some name d i u :
  user_by_username name d = Some (i, u) ->
  users d !! i = Some u ∧ u_username u = name.
Proof.
  unfold user_by_username. intros E. apply fetchone_found in E as [Hi Hp].
  simpl in Hp. by apply bool_decide_eq_true in Hp.
Qed.

Lemma user_by_username_is_Some name d i u :
  users d !! i = Some u -> u_username u = name ->
  is_Some (user_by_username name d).
Proof.
  intros Hi Hn. apply (fetchone_is_Some _ _ i u Hi).
  simpl. by apply bool_decide_eq_true.
Qed.

Lemma username_taken_false name rows :
  username_taken name rows = false
  <-> ∀ i u, rows !! i = Some u -> u_username u ≠ name.
Proof.
  unfold username_taken. by rewrite bool_decide_eq_false, map_not_Exists.
Qed.

Lemma init_db_cases hash now d :
  (is_Some (user_by_username (py "admin") d) ∧ init_db hash now d = d)
  ∨ (user_by_username (py "admin") d = None
     ∧ init_db hash now d
       = {| users := <[next_key (users_seq d) (users d) :=
                        {| u_username := py "admin"; u_password_hash := hash;
                           u_created_at := now |}]> (users d);
            users_seq := next_key (users_seq d) (users d);
            students := students d; students_seq := students_seq d |}).
Proof.
  unfold init_db. destruct (user_by_username (py "admin") d) eqn:E.
  - left. eauto.
  - by right.
Qed.

Lemma register_run req w :
  serve (register generate_password_hash req) w
  = match session w !! "user_id" with
    | None => (Error 403, w)
    | Some _ =>
        if bool_decide (session w !! "username" = Some (VStr (py "admin")))
        then
          match method req with
          | GET => (Render "auth/register.html" [], w)
          | POST =>
              let username := strip (get (form req) "username") in
              let password := get (form req) "password" in
              let confirm := get (form req) "confirm" in
              match register_errors username password confirm with
              | (_ :: _) as errors =>
                  (Render "auth/register.html" [], flashed_all errors w)
              | [] =>
                  match insert_user username
                          (generate_password_hash password) (utcnow req)
                          (db w) with
                  | inr d' =>
                      (Redirect (UrlFor EpListStudents []),
                       flashed ("User '" +:+ text username +:+ "' created.")
                         "success" (set_db d' w))
                  | inl _ =>
                      (Render "auth/register.html" [],
                       flashed "Username already exists." "danger" w)
                  end
              end
          end
        else (Error 403, w)
    end.
Proof.
  unfold serve, register, bind, get_session, get_db, ret, abort.
  cbv beta iota zeta.
  destruct (session w !! "user_id"); [|done].
  destruct (bool_decide _); [|done]. cbv beta iota.
  destruct (method req); [done|].
  destruct (register_errors _ _ _) as [|e errors] eqn:E.
  - by destruct (insert_user _ _ _ _) as [err|d'].
  - by rewrite flash_all_ok.
Qed.

Lemma register_errors_nil username password confirm :
  register_errors username password confirm = []
  <-> username ≠ [] ∧ (6 ≤ length password)%nat ∧ confirm = password.
Proof.
  clear generate_password_hash. unfold register_errors. cbv zeta.
  assert (negb (truthy password) || (length password <? 6)%nat = false
          <-> (6 ≤ length password)%nat) as Hlen.
  { rewrite orb_false_iff, Nat.ltb_ge. split; [tauto|].
    intros H. split; [|done]. destruct password; [simpl in H; lia|done]. }
  assert (negb (bool_decide (password = confirm)) = false
          <-> confirm = password) as Hconf.
  { rewrite negb_false_iff, bool_decide_eq_true. split; congruence. }
  rewrite <- Hlen, <- Hconf, <- truthy_true.
  destruct (truthy username),
    (negb (truthy password) || (length password <? 6)%nat),
    (negb (bool_decide (password = confirm))); simpl;
    split; try discriminate; try tauto;
    intros (? & ? & ?); discriminate.
Qed.

Lemma insert_user_ok username pwhash created d d' :
  insert_user username pwhash created d = inr d' ->
  (∀ i u, users d !! i = Some u -> u_username u ≠ username)
  ∧ d' = {| users := <[next_key (users_seq d) (users d) :=
                         {| u_username := username; u_password_hash := pwhash;
                            u_created_at := created |}]> (users d);
            users_seq := next_key (users_seq d) (users d);
            students := students d; students_seq := students_seq d |}.
Proof.
  unfold insert_user. destruct (username_taken _ _) eqn:E; [discriminate|].
  intros [= <-]. split; [by apply username_taken_false|done].
Qed.

Lemma register_accepted_inv req w w' :
  serve (register generate_password_hash req) w
  = (Redirect (UrlFor EpListStudents []), w') ->
  is_admin (session w) ∧ method req = POST
  ∧ register_errors (strip (get (form req) "username"))
      (get (form req) "password") (get (form req) "confirm") = []
  ∧ ∃ d',
      insert_user (strip (get (form req) "username"))
        (generate_password_hash (get (form req) "password"))
        (utcnow req) (db w) = inr d'
      ∧ w' = flashed ("User '" +:+ text (strip (get (form req) "username"))
                        +:+ "' created.") "success" (set_db d' w).
Proof.
  rewrite register_run. unfold is_admin.
  destruct (session w !! "user_id"); [|discriminate].
  destruct (bool_decide _) eqn:Ea; [|discriminate].
  apply bool_decide_eq_true in Ea.
  destruct (method req); [discriminate|]. cbv zeta.
  destruct (register_errors _ _ _); [|discriminate].
  destruct (insert_user _ _ _ _) as [err|d']; [discriminate|].
  intros [= <-]. eauto 10.
Qed.

Lemma register_db req w :
  db (snd (serve (register generate_password_hash req) w)) = db w
  ∨ ∃ w', serve (register generate_password_hash req) w
          = (Redirect (UrlFor EpListStudents []), w').
Proof.
  rewrite register_run.
  destruct (session w !! "user_id"); [|by left].
  destruct (bool_decide _); [|by left].
  destruct (method req); [by left|]. cbv zeta.
  destruct (register_errors _ _ _).
  - destruct (insert_user _ _ _ _) as [err|d']; [by left|]. right. eauto.
  - left. apply db_flashed_all.
Qed.

Lemma usernames_distinct_insert rows i u :
  usernames_distinct rows ->
  (∀ j u', rows !! j = Some u' -> u_username u' ≠ u_username u) ->
  usernames_distinct (<[i := u]> rows).
Proof.
  intros Hd Hnew a b u1 u2 H1 H2 E.
  apply lookup_insert_Some in H1 as [[<- <-]|[Na H1]];
    apply lookup_insert_Some in H2 as [[<- <-]|[Nb H2]].
  - done.
  - exfalso. by apply (Hnew b u2).
  - exfalso. by apply (Hnew a u1).
  - by apply (Hd a b u1 u2).
Qed.

Lemma account_step_distinct d d' :
  usernames_distinct (users d) ->
  account_step generate_password_hash d d' ->
  usernames_distinct (users d').
Proof.
  intros Hd Hstep. destruct Hstep as [req s d|req s d].
  - unfold serve, initdb_route, bind, get_db, commit, flash, ret. simpl.
    destruct (init_db_cases (generate_password_hash (py "admin123"))
                (utcnow req) d) as [[_ ->]|[Hn ->]]; [done|].
    simpl. apply usernames_distinct_insert; [done|].
    intros j u' Hj. by apply (proj1 (user_by_username_None _ _) Hn j u').
  - destruct (register_db req {| session := s; db := d |}) as [->|[w' E]];
      [done|].
    rewrite E. apply register_accepted_inv in E as (_ & _ & _ & d' & Hi & ->).
    apply insert_user_ok in Hi as [Hfree ->]. simpl.
    by apply usernames_distinct_insert.
Qed.

End AccountFacts.

(** X16.  [init_db] leaves a user named [admin] in the table, and run
    again it changes nothing, whatever hash and clock it is given: an
    existing [admin] keeps its password hash.  It never touches the
    students table, and every user that was there is still there under
    the same id. *)
Theorem init_db_seeds_once (hash now hash' now' : pystr) (d : database) :
  is_Some (user_by_username (py "admin") (init_db hash now d))
  ∧ init_db hash' now' (init_db hash now d) = init_db hash now d
  ∧ (is_Some (user_by_username (py "admin") d) -> init_db hash now d = d)
  ∧ students (init_db hash now d) = students d
  ∧ students_seq (init_db hash now d) = students_seq d
  ∧ ∀ i u, users d !! i = Some u -> users (init_db hash now d) !! i = Some u.
Proof.
  assert (is_Some (user_by_username (py "admin") (init_db hash now d))) as Hs.
  { destruct (init_db_cases hash now d) as [[H ->]|[_ ->]]; [done|].
    eapply user_by_username_is_Some; [apply lookup_insert_eq|done]. }
  split; [done|]. split; [|split; [|split; [|split]]].
  - by destruct (init_db_cases hash' now' (init_db hash now d))
      as [[_ ->]|[Hn _]]; [|rewrite Hn in Hs; destruct Hs].
  - intros H. by destruct (init_db_cases hash now d)
      as [[_ ->]|[Hn _]]; [|rewrite Hn in H; destruct H].
  - apply init_db_students.
  - by destruct (init_db_cases hash now d) as [[_ ->]|[_ ->]].
  - intros i u Hi.
    destruct (init_db_cases hash now d) as [[_ ->]|[_ ->]]; [done|].
    simpl. rewrite lookup_insert_ne; [done|].
    intros <-. by rewrite next_key_fresh in Hi.
Qed.

(** X17.  When no user is named [admin], a request to [/initdb] (which
    needs neither login nor token) is answered with the redirect to the
    login page, and afterwards a login POST with the name [admin] and
    the password [admin123] opens a session for [admin], provided the
    hash check of werkzeug accepts the hash it generated for that
    password. *)
Theorem initdb_then_login
    (generate_password_hash : pystr -> pystr)
    (check_password_hash : pystr -> pystr -> bool)
    (req login_req : request) (w : world) :
  user_by_username (py "admin") (db w) = None ->
  check_password_hash (generate_password_hash (py "admin123")) (py "admin123")
  = true ->
  method login_req = POST ->
  strip (get (form login_req) "username") = py "admin" ->
  get (form login_req) "password" = py "admin123" ->
  let w1 := snd (serve (initdb_route generate_password_hash req) w) in
  fst (serve (initdb_route generate_password_hash req) w)
  = Redirect (UrlFor EpLogin [])
  ∧ students (db w1) = students (db w)
  ∧ is_Some (session (snd (serve (login check_password_hash login_req) w1))
               !! "user_id")
  ∧ session (snd (serve (login check_password_hash login_req) w1))
      !! "username"
    = Some (VStr (py "admin")).
Proof.
  intros Hnone Hcheck Hm Hname Hpw w1.
  assert (db w1 = init_db (generate_password_hash (py "admin123"))
                    (utcnow req) (db w)) as Hdb by reflexivity.
  split; [done|]. split; [by rewrite Hdb, init_db_students|].
  destruct (init_db_cases (generate_password_hash (py "admin123"))
              (utcnow req) (db w)) as [[H _]|[_ Hinit]];
    [rewrite Hnone in H; by destruct H|].
  assert (∃ i, user_by_username (py "admin") (db w1)
               = Some (i, {| u_username := py "admin";
                            u_password_hash :=
                              generate_password_hash (py "admin123");
                            u_created_at := utcnow req |})) as [i Hrow].
  { destruct (user_by_username (py "admin") (db w1)) as [[i u]|] eqn:E.
    - exists i. apply user_by_username_Some in E as [Hi Hu].
      rewrite Hdb, Hinit in Hi. simpl in Hi.
      apply lookup_insert_Some in Hi as [[_ <-]|[_ Hi]]; [done|].
      exfalso. by apply (proj1 (user_by_username_None _ _) Hnone i u).
    - exfalso.
      apply (proj1 (user_by_username_None _ _) E
               (next_key (users_seq (db w)) (users (db w)))
               {| u_username := py "admin";
                  u_password_hash := generate_password_hash (py "admin123");
                  u_created_at := utcnow req |}); [|done].
      rewrite Hdb, Hinit. simpl. apply lookup_insert_eq. }
  rewrite login_run, Hm, Hname, Hrow. simpl u_password_hash.
  rewrite Hpw, Hcheck. simpl snd.
  rewrite !session_flashed by done. simpl.
  rewrite !lookup_insert_eq, lookup_insert_ne by done.
  rewrite lookup_insert_eq. eauto.
Qed.

Lemma initdb_then_login_witness :
  is_Some (session (snd (serve (login plain_check admin_login)
                           (snd (serve (initdb_route plain_hash
                                          (get_request EpInitdb ∅))
                                   {| session := ∅; db := empty_db |}))))
             !! "user_id").
Proof.
  refine (proj1 (proj2 (proj2 (initdb_then_login plain_hash plain_check
            (get_request EpInitdb ∅) admin_login
            {| session := ∅; db := empty_db |} _ _ _ _ _))));
    vm_compute; reflexivity.
Defined.

(** X18.  [register] answers with 403, and changes nothing, for every
    request (GET or POST) from a session that is not logged in or whose
    username is not [admin]; from the session of [admin] it never
    answers with 403. *)
Theorem register_admin_only
    (generate_password_hash : pystr -> pystr) (req : request) (w : world) :
  (¬ is_admin (session w) ->
   serve (register generate_password_hash req) w = (Error 403, w))
  ∧ (is_admin (session w) ->
     fst (serve (register generate_password_hash req) w) ≠ Error 403).
Proof.
  rewrite register_run. unfold is_admin. split.
  - intros Hn. destruct (session w !! "user_id") as [u|]; [|done].
    destruct (bool_decide _) eqn:E; [|done].
    apply bool_decide_eq_true in E. exfalso. apply Hn. eauto.
  - intros [[u ->] Hname]. rewrite bool_decide_eq_true_2 by done.
    destruct (method req); [discriminate|]. cbv zeta.
    destruct (register_errors _ _ _); [|discriminate].
    destruct (insert_user _ _ _ _); discriminate.
Qed.

Lemma register_admin_only_witness :
  serve (register plain_hash register_bob) anonymous_world
  = (Error 403, anonymous_world)
  ∧ fst (serve (register plain_hash register_bob) jane_world) ≠ Error 403.
Proof.
  split.
  - apply (proj1 (register_admin_only plain_hash register_bob anonymous_world)).
    intros [[u Hu] _]. vm_compute in Hu. discriminate.
  - apply (proj2 (register_admin_only plain_hash register_bob jane_world)).
    split; [exists (VInt 1)|]; vm_compute; reflexivity.
Defined.

(** X19.  [register] stores a user only for a POST from the session of
    [admin] whose trimmed username is not empty and not taken, whose
    password has at least 6 characters and equals the confirmation.
    The new row holds the trimmed username and the hash generated for
    the password (never the password), under an id no user had; the
    other users and the students are untouched.  Every other request
    leaves the database as it was. *)
Theorem register_stores_valid_users_only
    (generate_password_hash : pystr -> pystr) (req : request) (w : world) :
  (∀ w',
     serve (register generate_password_hash req) w
     = (Redirect (UrlFor EpListStudents []), w') ->
     is_admin (session w) ∧ method req = POST
     ∧ strip (get (form req) "username") ≠ []
     ∧ (6 ≤ length (get (form req) "password"))%nat
     ∧ get (form req) "confirm" = get (form req) "password"
     ∧ (∀ i u, users (db w) !! i = Some u ->
               u_username u ≠ strip (get (form req) "username"))
     ∧ ∃ i,
         users (db w) !! i = None
         ∧ users (db w')
           = <[i := {| u_username := strip (get (form req) "username");
                       u_password_hash :=
                         generate_password_hash (get (form req) "password");
                       u_created_at := utcnow req |}]> (users (db w))
         ∧ students (db w') = students (db w)
         ∧ students_seq (db w') = students_seq (db w))
  ∧ (fst (serve (register generate_password_hash req) w)
     ≠ Redirect (UrlFor EpListStudents []) ->
     db (snd (serve (register generate_password_hash req) w)) = db w).
Proof.
  split.
  - intros w' E.
    apply register_accepted_inv in E as (Ha & Hm & He & d' & Hi & ->).
    apply register_errors_nil in He as (Hu & Hl & Hc).
    apply insert_user_ok in Hi as [Hfree ->].
    repeat (split; [done|]).
    exists (next_key (users_seq (db w)) (users (db w))).
    split; [apply next_key_fresh|done].
  - intros Hne. destruct (register_db generate_password_hash req w)
      as [H|[w' E]]; [done|].
    rewrite E in Hne. done.
Qed.

Lemma register_stores_valid_users_only_witness :
  ∃ i,
    users (db jane_world) !! i = None
    ∧ users (db (snd (serve (register plain_hash register_bob) jane_world)))
      = <[i := {| u_username := py "bob";
                  u_password_hash := py "hash:s3cret!";
                  u_created_at := py "2024-05-01T12:00:00" |}]>
          (users (db jane_world)).
Proof.
  destruct (proj1 (register_stores_valid_users_only plain_hash register_bob
                     jane_world)
              (snd (serve (register plain_hash register_bob) jane_world)))
    as (_ & _ & _ & _ & _ & _ & i & H1 & H2 & _).
  - vm_compute. reflexivity.
  - exists i. split; [exact H1|exact H2].
Defined.

(** X20.  A register POST from the session of [admin], with a form that
    passes the three checks, for a username that a user already has, is
    answered with the form again and the notice "Username already
    exists.", and stores nothing. *)
Theorem register_duplicate_username
    (generate_password_hash : pystr -> pystr) (req : request) (w : world) :
  is_admin (session w) ->
  method req = POST ->
  strip (get (form req) "username") ≠ [] ->
  (6 ≤ length (get (form req) "password"))%nat ->
  get (form req) "confirm" = get (form req) "password" ->
  (∃ i u, users (db w) !! i = Some u
          ∧ u_username u = strip (get (form req) "username")) ->
  serve (register generate_password_hash req) w
  = (Render "auth/register.html" [],
     flashed "Username already exists." "danger" w).
Proof.
  intros [[v Hv] Hname] Hm Hu Hl Hc (i & u & Hi & Hn).
  rewrite register_run, Hv, bool_decide_eq_true_2, Hm by done. cbv zeta.
  rewrite (proj2 (register_errors_nil _ _ _)) by done.
  unfold insert_user.
  assert (username_taken (strip (get (form req) "username")) (users (db w))
          = true) as ->; [|done].
  apply bool_decide_eq_true. by exists i, u.
Qed.

Lemma register_duplicate_username_witness :
  db (snd (serve (register plain_hash register_bob)
             (snd (serve (register plain_hash register_bob) jane_world))))
  = db (snd (serve (register plain_hash register_bob) jane_world)).
Proof.
  rewrite (register_duplicate_username plain_hash register_bob
             (snd (serve (register plain_hash register_bob) jane_world))).
  - reflexivity.
  - split; [exists (VInt 1)|]; vm_compute; reflexivity.
  - reflexivity.
  - vm_compute. discriminate.
  - vm_compute. lia.
  - reflexivity.
  - exists 2, {| u_username := py "bob"; u_password_hash := py "hash:s3cret!";
                u_created_at := py "2024-05-01T12:00:00" |}.
    split; vm_compute; reflexivity.
Defined.

(** X21.  What register stores, login accepts: after an accepted
    register, a login POST with the same username (trimmed) and the
    same password opens a session for the new user's id, provided the
    hash check of werkzeug accepts the hash it generated for that
    password. *)
Theorem register_then_login
    (generate_password_hash : pystr -> pystr)
    (check_password_hash : pystr -> pystr -> bool)
    (req login_req : request) (w w' : world) :
  serve (register generate_password_hash req) w
  = (Redirect (UrlFor EpListStudents []), w') ->
  check_password_hash (generate_password_hash (get (form req) "password"))
    (get (form req) "password") = true ->
  method login_req = POST ->
  strip (get (form login_req) "username") = strip (get (form req) "username") ->
  get (form login_req) "password" = get (form req) "password" ->
  ∃ i,
    users (db w) !! i = None
    ∧ is_Some (users (db w') !! i)
    ∧ session (snd (serve (login check_password_hash login_req) w'))
        !! "user_id" = Some (VInt i)
    ∧ session (snd (serve (login check_password_hash login_req) w'))
        !! "username" = Some (VStr (strip (get (form req) "username"))).
Proof.
  intros E Hcheck Hm Hname Hpw.
  apply register_accepted_inv in E as (_ & _ & _ & d' & Hi & ->).
  apply insert_user_ok in Hi as [Hfree ->].
  exists (next_key (users_seq (db w)) (users (db w))).
  split; [apply next_key_fresh|].
  split; [rewrite db_flashed; simpl; rewrite lookup_insert_eq; eauto|].
  rewrite login_run, Hm, Hname, db_flashed. simpl db.
  destruct (user_by_username _ _) as [[j u]|] eqn:Eu.
  - apply user_by_username_Some in Eu as [Hj Hu]. simpl in Hj.
    apply lookup_insert_Some in Hj as [[<- <-]|[_ Hj]].
    + simpl u_password_hash. rewrite Hpw, Hcheck. simpl snd.
      rewrite !session_flashed by done. simpl. done.
    + exfalso. by apply (Hfree j u).
  - exfalso.
    apply (proj1 (user_by_username_None _ _) Eu
             (next_key (users_seq (db w)) (users (db w)))
             {| u_username := strip (get (form req) "username");
                u_password_hash :=
                  generate_password_hash (get (form req) "password");
                u_created_at := utcnow req |}); [|done].
    simpl. apply lookup_insert_eq.
Qed.

Lemma register_then_login_witness :
  ∃ i,
    session (snd (serve (login plain_check bob_login)
                    (snd (serve (register plain_hash register_bob)
                            jane_world)))) !! "user_id"
    = Some (VInt i).
Proof.
  destruct (register_then_login plain_hash plain_check register_bob bob_login
              jane_world
              (snd (serve (register plain_hash register_bob) jane_world)))
    as (i & _ & _ & H & _); try (vm_compute; reflexivity).
  exists i. exact H.
Defined.

(** X22.  In every database reached from a new file by requests to
    [/initdb] and [/register], from any session, no two users share a
    username; each of the two requests keeps this, and neither touches
    the students table. *)
Theorem usernames_stay_distinct (generate_password_hash : pystr -> pystr) :
  (∀ d, accounts_reachable generate_password_hash d ->
        usernames_distinct (users d) ∧ students d = ∅)
  ∧ ∀ d d',
      usernames_distinct (users d) ->
      account_step generate_password_hash d d' ->
      usernames_distinct (users d') ∧ students d' = students d.
Proof.
  assert (∀ d d', account_step generate_password_hash d d' ->
                  students d' = students d) as Hst.
  { intros d d' Hstep. destruct Hstep as [req s d|req s d].
    - apply init_db_students.
    - destruct (register_db generate_password_hash req
                  {| session := s; db := d |}) as [->|[w' E]]; [done|].
      rewrite E. apply register_accepted_inv in E as (_ & _ & _ & d' & Hi & ->).
      by apply insert_user_ok in Hi as [_ ->]. }
  split.
  - intros d Hr. induction Hr as [|d d' _ [IH1 IH2] Hstep].
    + split; [|done]. intros i j u1 u2 H.
      change (users empty_db) with (∅ : gmap N user) in H.
      by rewrite lookup_empty in H.
    + split; [by apply (account_step_distinct generate_password_hash d d')|].
      by rewrite (Hst d d').
  - intros d d' Hd Hstep.
    split; [by apply (account_step_distinct generate_password_hash d d')|].
    by apply Hst.
Qed.

Lemma usernames_stay_distinct_witness :
  usernames_distinct
    (users (db (snd (serve (register plain_hash register_bob)
                       {| session := admin_session;
                          db := db (snd (serve (initdb_route plain_hash
                                                  (get_request EpInitdb ∅))
                                           {| session := ∅;
                                              db := empty_db |})) |})))).
Proof.
  apply (proj1 (usernames_stay_distinct plain_hash)).
  eapply accounts_step; [eapply accounts_step; [apply accounts_new|]|].
  - apply (step_initdb plain_hash (get_request EpInitdb ∅) ∅ empty_db).
  - apply (step_register plain_hash register_bob admin_session).
Defined.
